(** * PyWallet: record store, aggregation engine and ML layer

    A shallow embedding of [pywallet/modules/data_manager.py],
    [pywallet/modules/analytics.py], [pywallet/ml_models/models.py] and the
    constants of [pywallet/config.py], followed by the properties of the
    specification that concern them.

    Conventions of the embedding:
    - a Python [int] is a [Z]; the [amount] column of the table is an
      [int64] column, whose sums wrap around ([sum64]);
    - a Python [float] is the rational it denotes ([Q]); the conversion of an
      integer to a float and the operations [-], [*], [/] of the
      analytics code round to the nearest double ([to_double]); overflow to
      infinity and subnormal results are not represented; the means, the
      standard deviations and the regression of the ML layer are kept exact;
      numeric results are compared with [==];
    - a [str] is a [string] of ASCII characters;
    - a function that may raise returns a [result]; the [try]/[except]
      blocks of the source are written out with [catch];
    - the JSON file, the classifier artifacts and the wall clock are
      explicit arguments (state passing);
    - a row of the table carries the calendar date and the time of day
      (nanoseconds since midnight) of its timestamp; rows whose date is NaT
      are not represented;
    - pandas, numpy and scikit-learn entry points that are not arithmetic
      ([pd.to_datetime] on a column, [pd.Timestamp] on a text, [np.sqrt]
      inside [np.std], [LinearRegression], [TfidfVectorizer],
      [MultinomialNB]) are fields of the classes [Pandas], [Numpy] and
      [Sklearn]; the instances [iso_pandas], [floor_numpy] and
      [exact_sklearn] are provided to run the model. *)

From Stdlib Require Import ZArith QArith Qabs Qround List String Ascii Bool Lia.
From Stdlib Require Import DecimalString Permutation Sorted.
Import ListNotations.

Open Scope string_scope.
Open Scope Z_scope.

(* ===================================================================== *)
(** ** Exceptions and results *)
(* ===================================================================== *)

Inductive exn_kind : Type :=
| ValueError
| TypeError
| KeyError
| AttributeError
| IndexError
| OverflowError
| OSError
| FileNotFoundError
| PermissionError
| EmptyDataError
| ParserError.

Record exn : Type := Exn { exn_class : exn_kind; exn_str : string }.

Inductive result (A : Type) : Type :=
| Ok (a : A)
| Raise (e : exn).

Arguments Ok {A} a.
Arguments Raise {A} e.

Definition bind {A B : Type} (r : result A) (k : A -> result B) : result B :=
  match r with
  | Ok a => k a
  | Raise e => Raise e
  end.

Notation "x <- c1 ;; c2" := (bind c1 (fun x => c2))
  (at level 61, c1 at next level, right associativity).

(** [issubclass(k, parent)]: [FileNotFoundError] and [PermissionError] derive
    from [OSError]; the two pandas errors derive from [ValueError]. *)
Definition issubclass (k parent : exn_kind) : bool :=
  match k, parent with
  | ValueError, ValueError | TypeError, TypeError | KeyError, KeyError
  | AttributeError, AttributeError | IndexError, IndexError
  | OverflowError, OverflowError | OSError, OSError
  | FileNotFoundError, FileNotFoundError | PermissionError, PermissionError
  | EmptyDataError, EmptyDataError | ParserError, ParserError => true
  | FileNotFoundError, OSError | PermissionError, OSError => true
  | EmptyDataError, ValueError | ParserError, ValueError => true
  | _, _ => false
  end.

(** [try: body except (k1, k2, ...) : handler]: an exception whose class is
    not listed propagates. *)
Definition catch {A : Type} (body : result A) (classes : list exn_kind)
           (handler : exn -> result A) : result A :=
  match body with
  | Ok a => Ok a
  | Raise e =>
      if existsb (issubclass (exn_class e)) classes then handler e else Raise e
  end.

(** [try: body except Exception as e: handler]. *)
Definition catch_all {A : Type} (body : result A) (handler : exn -> A) : A :=
  match body with
  | Ok a => a
  | Raise e => handler e
  end.

Fixpoint mapM {A B : Type} (f : A -> result B) (l : list A) : result (list B) :=
  match l with
  | [] => Ok []
  | x :: xs => y <- f x ;; ys <- mapM f xs ;; Ok (y :: ys)
  end.

(* ===================================================================== *)
(** ** Python built-ins used by the code *)
(* ===================================================================== *)

(** [str(n)] for an [int]. *)
Definition str_of_Z (z : Z) : string := NilZero.string_of_int (Z.to_int z).

(** [repr] of a list of plain strings: [['a', 'b']]. *)
Definition repr_str_list (l : list string) : string :=
  "[" ++ String.concat ", " (map (fun s => "'" ++ s ++ "'") l) ++ "]".

(** [len(l)] as an [int]. *)
Definition len {A : Type} (l : list A) : Z := Z.of_nat (List.length l).

(** [max(l, default=d)]. *)
Definition py_max_default (l : list Z) (d : Z) : Z :=
  match l with
  | [] => d
  | x :: xs => fold_left Z.max xs x
  end.

(** [sum(l)]. *)
Definition sumZ (l : list Z) : Z := fold_right Z.add 0 l.

(** [l[i]] with Python's negative indices; [IndexError] out of range. *)
Definition py_getitem {A : Type} (l : list A) (i : Z) : result A :=
  let j := if i <? 0 then i + len l else i in
  if j <? 0 then Raise (Exn IndexError "list index out of range")
  else match nth_error l (Z.to_nat j) with
       | Some a => Ok a
       | None => Raise (Exn IndexError "list index out of range")
       end.

(** [s.lower()] on ASCII text. *)
Definition lower_ascii (c : ascii) : ascii :=
  let n := nat_of_ascii c in
  if andb (Nat.leb 65 n) (Nat.leb n 90) then ascii_of_nat (n + 32) else c.

Fixpoint lower (s : string) : string :=
  match s with
  | EmptyString => EmptyString
  | String c r => String (lower_ascii c) (lower r)
  end.

(** [int(x)] for a float: truncation toward zero. *)
Definition int_of_float (q : Q) : Z :=
  if Qle_bool 0 q then Qfloor q else Qceiling q.

(** Fixed-point formatting [f"{q:.kf}"]: the exact value rounded half to
    even at [k] decimals, with the sign of the value. *)
Definition round_half_even (q : Q) : Z :=
  let f := Qfloor q in
  let r := (q - inject_Z f)%Q in
  match Qcompare r (1 # 2) with
  | Lt => f
  | Gt => f + 1
  | Eq => if Z.even f then f else f + 1
  end.

Definition zero_pad (width : nat) (s : string) : string :=
  String.concat "" (repeat "0" (width - String.length s)) ++ s.

Definition format_fixed (k : nat) (q : Q) : string :=
  let scale := Z.pow 10 (Z.of_nat k) in
  let n := round_half_even (Qabs q * inject_Z scale)%Q in
  let sign := if Qle_bool 0 q then "" else "-" in
  match k with
  | O => sign ++ str_of_Z n
  | _ => sign ++ str_of_Z (n / scale) ++ "." ++ zero_pad k (str_of_Z (n mod scale))
  end.

(** [needle in s] for strings. *)
Fixpoint contains (needle s : string) : bool :=
  if String.prefix needle s then true
  else match s with
       | EmptyString => false
       | String _ r => contains needle r
       end.

(** The value tested by [if s:] for an optional string: [None] and the
    empty string are falsy. *)
Definition truthy (s : option string) : option string :=
  match s with
  | Some x => if (x =? "")%string then None else Some x
  | None => None
  end.

(* ===================================================================== *)
(** ** 64-bit integers and doubles *)
(* ===================================================================== *)

(** The value an [int64] holds after an operation whose exact result is
    [z]. *)
Definition wrap64 (z : Z) : Z := (z + 2 ^ 63) mod 2 ^ 64 - 2 ^ 63.

(** [Series.sum()] of an [int64] column. *)
Definition sum64 (l : list Z) : Z := wrap64 (sumZ l).

Definition two_power (s : Z) : Q :=
  if 0 <=? s then inject_Z (2 ^ s) else 1 # Z.to_pos (2 ^ (- s)).

(** The exponent [e] with [2^e <= n/d < 2^(e+1)], for [0 < n] and [0 < d]. *)
Definition binary_exponent (n d : Z) : Z :=
  let e := Z.log2 n - Z.log2 d in
  let below := if 0 <=? e then n <? d * 2 ^ e else n * 2 ^ (- e) <? d in
  if below then e - 1 else e.

(** The double nearest to a rational, ties to the even significand: 53
    significant bits, exponent range not bounded. *)
Definition to_double (q : Q) : Q :=
  if Qnum q =? 0 then 0%Q
  else
    let e := binary_exponent (Z.abs (Qnum q)) (Z.pos (Qden q)) in
    let significand := round_half_even (Qabs q * two_power (52 - e))%Q in
    let magnitude := Qred (inject_Z significand * two_power (e - 52))%Q in
    if Qnum q <? 0 then Qopp magnitude else magnitude.

(** [float(n)] for an integer: exact up to [2^53]. *)
Definition float_of_int (n : Z) : Q :=
  if Z.abs n <=? 2 ^ 53 then inject_Z n else to_double (inject_Z n).

Definition fsub (a b : Q) : Q := to_double (a - b)%Q.
Definition fmul (a b : Q) : Q := to_double (a * b)%Q.
Definition fdiv (a b : Q) : Q := to_double (a / b)%Q.

(* ===================================================================== *)
(** ** Calendar dates ([datetime]) *)
(* ===================================================================== *)

Record date : Type := Date { year : Z; month : Z; day : Z }.

(** [datetime.now()]: a date and the microseconds elapsed since midnight. *)
Record datetime : Type := DateTime { dt_date : date; dt_microsecond : Z }.

Definition is_leap (y : Z) : bool :=
  andb (y mod 4 =? 0) (orb (negb (y mod 100 =? 0)) (y mod 400 =? 0)).

Definition days_in_month (y m : Z) : Z :=
  if m =? 2 then (if is_leap y then 29 else 28)
  else if orb (orb (m =? 4) (m =? 6)) (orb (m =? 9) (m =? 11)) then 30
  else 31.

(** The check made by the [date] constructor. *)
Definition valid_date (d : date) : bool :=
  andb (andb (1 <=? year d) (year d <=? 9999))
       (andb (andb (1 <=? month d) (month d <=? 12))
             (andb (1 <=? day d) (day d <=? days_in_month (year d) (month d)))).

Definition days_before_year (y : Z) : Z :=
  let p := y - 1 in p * 365 + p / 4 - p / 100 + p / 400.

Fixpoint days_before_month_aux (y : Z) (n : nat) : Z :=
  match n with
  | O => 0
  | S k => days_before_month_aux y k + days_in_month y (Z.of_nat (S k))
  end.

Definition days_before_month (y m : Z) : Z :=
  days_before_month_aux y (Z.to_nat (m - 1)).

(** [date.toordinal()]. *)
Definition toordinal (d : date) : Z :=
  days_before_year (year d) + days_before_month (year d) (month d) + day d.

Definition microseconds_per_day : Z := 86400 * 1000000.

(** A [datetime] as microseconds on the proleptic calendar. *)
Definition timestamp_of_date (d : date) : Z := toordinal d * microseconds_per_day.

Definition timestamp (t : datetime) : Z :=
  timestamp_of_date (dt_date t) + dt_microsecond t.

Definition nanoseconds_per_day : Z := 86400 * 1000000000.

(** A pandas [Timestamp] as nanoseconds on the proleptic calendar: its
    calendar date and the nanoseconds elapsed since midnight. *)
Definition instant (d : date) (ns : Z) : Z := toordinal d * nanoseconds_per_day + ns.

Definition valid_instant (d : date) (ns : Z) : bool :=
  andb (valid_date d) (andb (0 <=? ns) (ns <? nanoseconds_per_day)).

(** [timedelta(days=n)]. *)
Definition timedelta_days (n : Z) : result Z :=
  if Z.abs n <=? 999999999 then Ok n
  else Raise (Exn OverflowError
                  ("days=" ++ str_of_Z n ++ "; must have magnitude <= 999999999")).

(** [now - timedelta(days=n)]: the result must be a date of the years 1 to
    9999. *)
Definition minus_days (now : datetime) (n : Z) : result Z :=
  days <- timedelta_days n ;;
  let t := timestamp now - days * microseconds_per_day in
  if andb (timestamp_of_date (Date 1 1 1) <=? t)
          (t <? timestamp_of_date (Date 9999 12 31) + microseconds_per_day)
  then Ok t
  else Raise (Exn OverflowError "date value out of range").

(** Order on calendar dates (comparison of two midnights). *)
Definition date_leb (a b : date) : bool :=
  if year a <? year b then true
  else if year b <? year a then false
  else if month a <? month b then true
  else if month b <? month a then false
  else day a <=? day b.

(** [str(d)] for a [date]: zero-padded ISO form. *)
Definition isoformat (d : date) : string :=
  zero_pad 4 (str_of_Z (year d)) ++ "-" ++ zero_pad 2 (str_of_Z (month d))
  ++ "-" ++ zero_pad 2 (str_of_Z (day d)).

(** *** [datetime.strptime(s, "%Y-%m-%d")]

    The directive patterns of CPython's [_strptime]:
    [%Y = \d\d\d\d], [%m = 1[0-2]|0[1-9]|[1-9]],
    [%d = 3[01]|[12]\d|0[1-9]|[1-9]| [1-9]]; the match must consume the whole
    string and the fields must form a valid [date]. *)

Definition digit (c : ascii) : option Z :=
  let n := nat_of_ascii c in
  if andb (Nat.leb 48 n) (Nat.leb n 57) then Some (Z.of_nat (n - 48)) else None.

Definition in_range (lo hi : Z) (c : ascii) : option Z :=
  match digit c with
  | Some v => if andb (lo <=? v) (v <=? hi) then Some v else None
  | None => None
  end.

(** One alternative made of two character classes, tens then units. *)
Definition two_digits (lo1 hi1 lo2 hi2 : Z) (s : string) : list (Z * string) :=
  match s with
  | String a (String b r) =>
      match in_range lo1 hi1 a, in_range lo2 hi2 b with
      | Some x, Some y => [(10 * x + y, r)]
      | _, _ => []
      end
  | _ => []
  end.

Definition one_digit (lo hi : Z) (s : string) : list (Z * string) :=
  match s with
  | String a r => match in_range lo hi a with Some x => [(x, r)] | None => [] end
  | _ => []
  end.

Definition space_digit (s : string) : list (Z * string) :=
  match s with
  | String " " r => one_digit 1 9 r
  | _ => []
  end.

(** The alternatives of a directive that match a prefix, in pattern order. *)
Definition match_m (s : string) : list (Z * string) :=
  (two_digits 1 1 0 2 s ++ two_digits 0 0 1 9 s ++ one_digit 1 9 s)%list.

Definition match_d (s : string) : list (Z * string) :=
  (two_digits 3 3 0 1 s ++ two_digits 1 2 0 9 s ++ two_digits 0 0 1 9 s
   ++ one_digit 1 9 s ++ space_digit s)%list.

Definition match_Y (s : string) : option (Z * string) :=
  match s with
  | String a (String b (String c (String d r))) =>
      match digit a, digit b, digit c, digit d with
      | Some w, Some x, Some y, Some z => Some (1000 * w + 100 * x + 10 * y + z, r)
      | _, _, _, _ => None
      end
  | _ => None
  end.

Definition match_dash (s : string) : option string :=
  match s with
  | String "-" r => Some r
  | _ => None
  end.

(** First way of matching [%m-%d] in backtracking order. *)
Fixpoint match_md (ms : list (Z * string)) : option (Z * Z * string) :=
  match ms with
  | [] => None
  | (m, r) :: ms' =>
      match match_dash r with
      | Some r' =>
          match match_d r' with
          | (d, r'') :: _ => Some (m, d, r'')
          | [] => match_md ms'
          end
      | None => match_md ms'
      end
  end.

Definition strptime_Ymd (s : string) : result date :=
  let no_match := Raise (Exn ValueError "time data does not match format '%Y-%m-%d'") in
  match match_Y s with
  | None => no_match
  | Some (y, r) =>
      match match_dash r with
      | None => no_match
      | Some r' =>
          match match_md (match_m r') with
          | None => no_match
          | Some (m, d, rest) =>
              if (rest =? "")%string then
                let dt := Date y m d in
                if valid_date dt then Ok dt
                else Raise (Exn ValueError "day is out of range for month")
              else Raise (Exn ValueError "unconverted data remains")
          end
      end
  end.

(* ===================================================================== *)
(** ** [pywallet/config.py] *)
(* ===================================================================== *)

Module Config.

Definition DEFAULT_CATEGORIES : list string :=
  [ "Food"; "Transport"; "Health"; "Education"; "Housing"; "Entertainment";
    "Savings"; "Shopping"; "Travel"; "Gifts"; "Utilities"; "Insurance"; "Other" ].

Definition DEFAULT_BUDGETS : list (string * Q) :=
  [ ("Food", 10000 # 1); ("Transport", 5000 # 1); ("Health", 3000 # 1);
    ("Education", 5000 # 1); ("Housing", 20000 # 1); ("Entertainment", 2000 # 1);
    ("Savings", 10000 # 1); ("Shopping", 3000 # 1); ("Travel", 5000 # 1);
    ("Gifts", 2000 # 1); ("Utilities", 3000 # 1); ("Insurance", 2000 # 1);
    ("Other", 1000 # 1) ].

Definition ANOMALY_THRESHOLD_SIGMA : Q := 2 # 1.
Definition MIN_NOTES_FOR_TRAINING : Z := 50.
Definition KMEANS_CLUSTERS : Z := 3.
Definition MIN_DATA_POINTS_FOR_ML : Z := 20.
Definition PREDICTION_WINDOW_MONTHS : Z := 6.
Definition FORECAST_AHEAD_MONTHS : Z := 3.

Definition MIN_EXPENSE_AMOUNT : Z := 0.
Definition MAX_EXPENSE_AMOUNT : Z := 1000000.
Definition MAX_NOTE_LENGTH : Z := 500.

Definition MONTHS_ABBREVIATION : list string :=
  [ "Jan"; "Feb"; "Mar"; "Apr"; "May"; "Jun";
    "Jul"; "Aug"; "Sep"; "Oct"; "Nov"; "Dec" ].

End Config.

(* ===================================================================== *)
(** ** Library entry points *)
(* ===================================================================== *)

(** What [pd.Timestamp(s)] makes of a text: it raises, or gives NaT, or a
    point in time. *)
Inductive parsed : Type :=
| Unparseable
| Missing
| Moment (d : date) (ns : Z).

(** The date parsing of pandas.
    - [Timestamp_of s] is the scalar conversion, used by [pd.to_datetime] on
      a text and by the comparison of a date column with a text; the empty
      text gives NaT.
    - [to_datetime_column] is [pd.to_datetime] on the date column of a
      non-empty table; it converts the column as a whole (the format is
      guessed from the first element), so its result on a column is not
      determined by the scalar conversion of the elements. A column that
      holds a text on which the scalar conversion raises is rejected.
    - [to_datetime_None_is_NaT] tells whether [pd.to_datetime(None)] is NaT
      (pandas 3) rather than [None] (pandas 2). *)
Class Pandas : Type := {
  Timestamp_of : string -> parsed;
  to_datetime_column : list string -> result (list (date * Z));
  to_datetime_None_is_NaT : bool;
  Timestamp_of_empty : Timestamp_of "" = Missing;
  Timestamp_of_valid :
    forall s d ns, Timestamp_of s = Moment d ns -> valid_instant d ns = true;
  to_datetime_column_valid :
    forall col stamps, to_datetime_column col = Ok stamps ->
      Forall (fun p => valid_instant (fst p) (snd p) = true) stamps;
  to_datetime_column_length :
    forall col stamps, to_datetime_column col = Ok stamps ->
      List.length stamps = List.length col;
  to_datetime_column_unparseable :
    forall col s, In s col -> Timestamp_of s = Unparseable ->
      exists e, to_datetime_column col = Raise e
}.

(** The square root inside [np.std]. *)
Class Numpy : Type := {
  np_sqrt : Q -> Q
}.

(** A fitted [LinearRegression]: [coef_[0]], [predict([[x]])[0]] and
    [score(X, y)]. *)
Record LinearModel : Type := {
  coef_ : Q;
  predict : Z -> Q;
  score : list Z -> list Z -> Q
}.

Class Sklearn : Type := {
  (** Whether the import of scikit-learn at module load succeeded. *)
  SKLEARN_AVAILABLE : bool;
  LinearRegression_fit : list Z -> list Z -> result LinearModel;
  vectorizer : Type;
  classifier : Type;
  (** [TfidfVectorizer(...).fit_transform(X)] followed by
      [MultinomialNB().fit(X_vec, y)]. *)
  fit_vectorizer : list string -> result vectorizer;
  fit_classifier : vectorizer -> list string -> list string -> result classifier;
  (** [vectorizer.transform([note])], [classifier.predict] and the maximum of
      [classifier.predict_proba]. *)
  predict_with : classifier -> vectorizer -> string -> result (string * Q)
}.

(* ===================================================================== *)
(** ** The record store *)
(* ===================================================================== *)

(** A transaction as the store holds it. Both writers of the store,
    [add_expense] and [import_from_csv], set ['id'], ['amount'],
    ['category'], ['date'] and ['note'], so [e.get('id', 0)] is [e_id e];
    only [add_expense] sets ['username'], hence the option. *)
Record expense : Type := Expense {
  e_id : Z;
  e_amount : Z;
  e_category : string;
  e_date : string;
  e_note : string;
  e_username : option string
}.

(** The JSON file: [None] when it is absent, unreadable or not a JSON array.
    [writable] tells whether creating the directory and opening the file for
    writing succeed. *)
Record disk : Type := Disk {
  expenses_json : option (list expense);
  writable : bool
}.

(** A row of the table built by [load_dataframe]: the date is parsed into a
    calendar date and a time of day (nanoseconds since midnight). *)
Record row : Type := Row {
  r_id : Z;
  r_amount : Z;
  r_category : string;
  r_date : date;
  r_time : Z;
  r_note : string;
  r_username : option string
}.

(** The timestamp of a row. *)
Definition row_instant (r : row) : Z := instant (r_date r) (r_time r).

Definition DataFrame : Type := list row.

(** The outcome of [int(row['amount'])] on a cell of the CSV table. *)
Inductive int_conversion : Type :=
| IntOk (z : Z)
| IntValueError
| IntTypeError
| IntOverflowError.

(** One data row of the CSV table after the conversions of the import loop:
    [int(row['amount'])], [str(row['category'])], [str(row['date'])] and,
    when the table has a [note] column, [str] of its cell. *)
Record csv_row : Type := CsvRow {
  row_amount : int_conversion;
  row_category : string;
  row_date : string;
  row_note : option string
}.

Record csv_frame : Type := CsvFrame {
  columns : list string;
  rows : list csv_row
}.

(** The path handed to the import and what [pd.read_csv] makes of it. *)
Record csv_source : Type := CsvSource {
  csv_path : string;
  csv_exists : bool;
  csv_is_file : bool;
  csv_suffix : string;
  read_csv : result csv_frame
}.

Module DataManager.

Definition load_data (d : disk) : list expense :=
  match expenses_json d with
  | Some data => data
  | None => []
  end.

Definition save_data (data : list expense) (d : disk) : bool * disk :=
  if writable d then (true, Disk (Some data) (writable d)) else (false, d).

Definition get_username (e : expense) : string :=
  match e_username e with
  | Some u => u
  | None => ""
  end.

Section LoadDataframe.
Context `{Pandas}.

Definition make_row (e : expense) (stamp : date * Z) : row :=
  Row (e_id e) (e_amount e) (e_category e) (fst stamp) (snd stamp) (e_note e)
      (e_username e).

Definition load_dataframe (d : disk) (username : string) : result DataFrame :=
  let data := load_data d in
  let data :=
    if (username =? "")%string then data
    else filter (fun e => (get_username e =? username)%string) data in
  match data with
  | [] => Ok []
  | _ =>
      stamps <- to_datetime_column (map e_date data) ;;
      Ok (map (fun p => make_row (fst p) (snd p)) (combine data stamps))
  end.

(** [df[df['date'] >= bound]] and [df[df['date'] <= bound]] for a text
    bound: the text is converted for the comparison, which raises
    [TypeError] when the conversion fails and selects no row when it gives
    NaT. *)
Definition compare_dates (keep : Z -> Z -> bool) (bound : string) (df : DataFrame)
  : result DataFrame :=
  match Timestamp_of bound with
  | Unparseable =>
      Raise (Exn TypeError "Invalid comparison between dtype=datetime64[ns] and str")
  | Missing => Ok []
  | Moment d ns => Ok (filter (fun r => keep (row_instant r) (instant d ns)) df)
  end.

(** [if bound: df = df[df['date'] >= bound]]. *)
Definition rows_from (bound : option string) (df : DataFrame) : result DataFrame :=
  match truthy bound with
  | None => Ok df
  | Some s => compare_dates Z.geb s df
  end.

Definition rows_until (bound : option string) (df : DataFrame) : result DataFrame :=
  match truthy bound with
  | None => Ok df
  | Some s => compare_dates Z.leb s df
  end.

Definition filter_expenses (d : disk) (category start_date end_date : option string)
           (min_amount max_amount : option Z) : result DataFrame :=
  df <- load_dataframe d "" ;;
  match df with
  | [] => Ok df
  | _ =>
      let df :=
        match truthy category with
        | Some c => filter (fun r => (r_category r =? c)%string) df
        | None => df
        end in
      df <- rows_from start_date df ;;
      df <- rows_until end_date df ;;
      let df :=
        match min_amount with
        | Some m => filter (fun r => m <=? r_amount r) df
        | None => df
        end in
      let df :=
        match max_amount with
        | Some m => filter (fun r => r_amount r <=? m) df
        | None => df
        end in
      Ok df
  end.

(** [export_to_csv]. [data_dir] is [config.DATA_DIR], [output_path] the text
    of [Path(output_path)], and [write p] the outcome of creating the parent
    directory and writing the table at [p]. The second component is the file
    written, if any: its path and the table it holds. *)
Definition export_to_csv (data_dir : string) (write : string -> result unit)
           (d : disk) (output_path : option string)
  : (bool * string) * option (string * DataFrame) :=
  match load_dataframe d "" with
  | Raise e => ((false, "Export failed: " ++ exn_str e), None)
  | Ok [] => ((false, "No data to export"), None)
  | Ok df =>
      let target :=
        match output_path with
        | None => Some (data_dir ++ "/expenses_export.csv")
        | Some p => if contains ".." p then None else Some p
        end in
      match target with
      | None =>
          ((false, "Output path cannot contain '..' (path traversal not allowed)"), None)
      | Some p =>
          match write p with
          | Ok _ =>
              ((true, "Exported " ++ str_of_Z (len df) ++ " expenses to " ++ p),
               Some (p, df))
          | Raise e =>
              if issubclass (exn_class e) OSError
              then ((false, "Cannot write to output path: " ++ exn_str e), None)
              else ((false, "Export failed: " ++ exn_str e), None)
          end
      end
  end.

End LoadDataframe.

Definition add_expense (amount : Z) (category date note username : string)
           (d : disk) : (bool * string * option Z) * disk :=
  if negb (andb (Config.MIN_EXPENSE_AMOUNT <=? amount)
                (amount <=? Config.MAX_EXPENSE_AMOUNT)) then
    ((false, "Amount must be between " ++ str_of_Z Config.MIN_EXPENSE_AMOUNT
             ++ " and " ++ str_of_Z Config.MAX_EXPENSE_AMOUNT, None), d)
  else if negb (existsb (String.eqb category) Config.DEFAULT_CATEGORIES) then
    ((false, "Category must be one of "
             ++ repr_str_list Config.DEFAULT_CATEGORIES, None), d)
  else
    match strptime_Ymd date with
    | Raise _ => ((false, "Date must be in YYYY-MM-DD format", None), d)
    | Ok _ =>
        if Z.of_nat (String.length note) >? Config.MAX_NOTE_LENGTH then
          ((false, "Note must be less than " ++ str_of_Z Config.MAX_NOTE_LENGTH
                   ++ " characters", None), d)
        else
          let data := load_data d in
          let new_id := py_max_default (map e_id data) 0 + 1 in
          let expense := Expense new_id amount category date note (Some username) in
          let data := (data ++ [expense])%list in
          match save_data data d with
          | (true, d') =>
              ((true, "Expense added successfully (ID: " ++ str_of_Z new_id ++ ")",
                Some new_id), d')
          | (false, d') => ((false, "Failed to save expense", None), d')
          end
    end.

Definition delete_expense (expense_id : Z) (d : disk) : (bool * string) * disk :=
  let data := load_data d in
  let original_length := List.length data in
  let data := filter (fun e => negb (e_id e =? expense_id)) data in
  if Nat.eqb (List.length data) original_length then
    ((false, "Expense with ID " ++ str_of_Z expense_id ++ " not found"), d)
  else
    match save_data data d with
    | (true, d') => ((true, "Expense " ++ str_of_Z expense_id ++ " deleted successfully"), d')
    | (false, d') => ((false, "Failed to delete expense"), d')
    end.

(** [get_expense]: the first record of the store with that id. *)
Definition get_expense (expense_id : Z) (d : disk) : option expense :=
  find (fun expense => e_id expense =? expense_id) (load_data d).

(** The body of the import loop: a row whose amount conversion raises
    [ValueError] or [TypeError] is skipped; any other exception leaves the
    loop. The accumulator is [(existing_data, next_id, imported_count)]. *)
Fixpoint import_rows (rs : list csv_row) (existing_data : list expense)
         (next_id imported_count : Z) : result (list expense * Z) :=
  match rs with
  | [] => Ok (existing_data, imported_count)
  | r :: rs' =>
      match row_amount r with
      | IntOk a =>
          let expense :=
            Expense next_id a (row_category r) (row_date r)
                    (match row_note r with Some n => n | None => "" end) None in
          import_rows rs' (existing_data ++ [expense])%list (next_id + 1)
                      (imported_count + 1)
      | IntValueError | IntTypeError =>
          import_rows rs' existing_data next_id imported_count
      | IntOverflowError =>
          Raise (Exn OverflowError "cannot convert float infinity to integer")
      end
  end.

Definition required_columns : list string := ["amount"; "category"; "date"].

Definition import_from_csv (src : csv_source) (d : disk) : (bool * string * Z) * disk :=
  if negb (csv_exists src) then
    ((false, "CSV file not found: " ++ csv_path src, 0), d)
  else if negb (csv_is_file src) then
    ((false, "Path is not a file: " ++ csv_path src, 0), d)
  else if negb (lower (csv_suffix src) =? ".csv")%string then
    ((false, "File must be a CSV file, got: " ++ csv_suffix src, 0), d)
  else
    match read_csv src with
    | Raise e =>
        if issubclass (exn_class e) EmptyDataError then
          ((false, "CSV file is empty", 0), d)
        else if issubclass (exn_class e) ParserError then
          ((false, "CSV parsing error: " ++ exn_str e, 0), d)
        else if issubclass (exn_class e) OSError then
          ((false, "File access error: " ++ exn_str e, 0), d)
        else ((false, "Import failed: " ++ exn_str e, 0), d)
    | Ok import_df =>
        if negb (forallb (fun col => existsb (String.eqb col) (columns import_df))
                         required_columns) then
          ((false, "CSV must have columns: " ++ repr_str_list required_columns, 0), d)
        else
          let existing_data := load_data d in
          let next_id := py_max_default (map e_id existing_data) 0 + 1 in
          match import_rows (rows import_df) existing_data next_id 0 with
          | Raise e => ((false, "Import failed: " ++ exn_str e, 0), d)
          | Ok (existing_data, imported_count) =>
              match save_data existing_data d with
              | (true, d') =>
                  ((true, "Imported " ++ str_of_Z imported_count
                          ++ " expenses successfully", imported_count), d')
              | (false, d') => ((false, "Failed to save imported data", 0), d')
              end
          end
    end.

End DataManager.

(* ===================================================================== *)
(** ** Table operations (pandas) *)
(* ===================================================================== *)

Definition Qltb (a b : Q) : bool := negb (Qle_bool b a).

Definition amounts (df : DataFrame) : list Z := map r_amount df.

(** [df[df['category'] == c]]. *)
Definition with_category (c : string) (df : DataFrame) : DataFrame :=
  filter (fun r => (r_category r =? c)%string) df.

(** Insertion of a key in a strictly increasing list of keys. *)
Fixpoint insert_key (k : string) (ks : list string) : list string :=
  match ks with
  | [] => [k]
  | k' :: ks' =>
      match String.compare k k' with
      | Lt => k :: ks
      | Eq => ks
      | Gt => k' :: insert_key k ks'
      end
  end.

(** The group keys of [groupby('category')]: distinct, in sorted order. *)
Definition group_keys (df : DataFrame) : list string :=
  fold_right insert_key [] (map r_category df).

(** [df.groupby('category')['amount'].sum().to_dict()]. *)
Definition groupby_sum (df : DataFrame) : list (string * Z) :=
  map (fun k => (k, sum64 (amounts (with_category k df)))) (group_keys df).

(** [df.groupby('category')['amount'].agg(['sum', 'count'])]. *)
Definition groupby_sum_count (df : DataFrame) : list (string * (Z * Z)) :=
  map (fun k => (k, (sum64 (amounts (with_category k df)), len (with_category k df))))
      (group_keys df).

Definition month_index (d : date) : Z := year d * 12 + (month d - 1).

(** [df.set_index('date').resample('MS')['amount'].sum()]: one bucket per
    calendar month from the month of the earliest row to the month of the
    latest one, months without rows included with sum 0. *)
Definition resample_MS (df : DataFrame) : list Z :=
  match map (fun r => month_index (r_date r)) df with
  | [] => []
  | i :: others =>
      let lo := fold_left Z.min others i in
      let hi := fold_left Z.max others i in
      map (fun n =>
             sum64 (amounts (filter (fun r => month_index (r_date r) =? lo + Z.of_nat n) df)))
          (seq 0 (Z.to_nat (hi - lo + 1)))
  end.

(** [df[df['date'] >= t]] for a [datetime] [t] (in microseconds). *)
Definition since (t : Z) (df : DataFrame) : DataFrame :=
  filter (fun r => 1000 * t <=? row_instant r) df.


(* ===================================================================== *)
(** ** [pywallet/modules/analytics.py] *)
(* ===================================================================== *)

Record MonthlySummary : Type := {
  ms_year : Z;
  ms_month : Z;
  ms_month_name : string;
  ms_total : Q;
  ms_by_category : list (string * Z);
  ms_daily_breakdown : list (Z * Q);
  ms_transaction_count : Z
}.

Record CategoryStats : Type := {
  cs_total : Q;
  cs_count : Z;
  cs_percentage : Q;
  cs_average : Q
}.

Record Trend : Type := {
  direction : string;
  percent_change : Q;
  current_average : Q;
  previous_average : Q
}.

Inductive TrendReport : Type :=
| TrendStatus (status : string)
| Trends (trends : list (string * Trend)) (analysis_period_months : Z).

Record Alert : Type := {
  a_category : string;
  a_status : string;
  a_budget : Q;
  a_spending : Q;
  a_percentage : Q;
  a_message : string
}.

Record BudgetReport : Type := {
  br_status : option string;
  br_month : option string;
  br_year : option Z;
  br_alerts : list Alert;
  on_track_count : Z;
  warning_count : Z;
  critical_count : Z;
  total_categories : Z
}.

Record DailySummary : Type := {
  ds_date : string;
  ds_total : Q;
  ds_by_category : list (string * Z);
  ds_transaction_count : Z
}.

(** [rs_day_count] is [None] when the code computes NaN (an empty bound
    parses to NaT). *)
Record RangeSummary : Type := {
  rs_period : string;
  rs_total : Q;
  rs_average_daily : Q;
  rs_average_transaction : Q;
  rs_by_category : list (string * Z);
  rs_transaction_count : Z;
  rs_day_count : option Z
}.

(** The value of [pd.to_datetime] on an optional bound: [None], NaT or a
    point in time. *)
Inductive bound_time : Type :=
| NoTime
| NaT
| At (d : date) (ns : Z).

(** [type(x).__name__]. *)
Definition type_name (b : bound_time) : string :=
  match b with
  | NoTime => "NoneType"
  | NaT => "NaTType"
  | At _ _ => "Timestamp"
  end.

(** [str(x)] for an optional string. *)
Definition str_of_optional (s : option string) : string :=
  match s with
  | Some x => x
  | None => "None"
  end.

Module Analytics.
Section WithPandas.
Context `{Pandas}.

Definition monthly_summary (d : disk) (year_arg month_arg : option Z)
           (now : datetime) : result MonthlySummary :=
  let y := match year_arg with Some y => y | None => year (dt_date now) end in
  let m := match month_arg with Some m => m | None => month (dt_date now) end in
  df <- DataManager.load_dataframe d "" ;;
  match df with
  | [] =>
      name <- py_getitem Config.MONTHS_ABBREVIATION (m - 1) ;;
      Ok {| ms_year := y; ms_month := m; ms_month_name := name;
            ms_total := 0; ms_by_category := []; ms_daily_breakdown := [];
            ms_transaction_count := 0 |}
  | _ =>
      let month_data :=
        filter (fun r => andb (year (r_date r) =? y) (month (r_date r) =? m)) df in
      let total := float_of_int (sum64 (amounts month_data)) in
      let by_category := groupby_sum month_data in
      let daily_breakdown :=
        flat_map (fun n =>
                    let dd := Z.of_nat n in
                    let day_data := filter (fun r => day (r_date r) =? dd) month_data in
                    if 0 <? len day_data
                    then [(dd, float_of_int (sum64 (amounts day_data)))] else [])
                 (seq 1 31) in
      name <- py_getitem Config.MONTHS_ABBREVIATION (m - 1) ;;
      Ok {| ms_year := y; ms_month := m; ms_month_name := name;
            ms_total := total; ms_by_category := by_category;
            ms_daily_breakdown := daily_breakdown;
            ms_transaction_count := len month_data |}
  end.

(** [if bound: df = df[df['date'] >= bound]]: an absent or empty bound is
    no filter; the text is converted for the comparison. *)
Definition filter_from (bound : option string) (df : DataFrame) : result DataFrame :=
  match bound with
  | None => Ok df
  | Some s =>
      if (s =? "")%string then Ok df else DataManager.compare_dates Z.geb s df
  end.

Definition filter_to (bound : option string) (df : DataFrame) : result DataFrame :=
  match bound with
  | None => Ok df
  | Some s =>
      if (s =? "")%string then Ok df else DataManager.compare_dates Z.leb s df
  end.

Definition category_stats (total_spending : Z) (stats : Z * Z) : CategoryStats :=
  let (sum, count) := stats in
  {| cs_total := float_of_int sum;
     cs_count := count;
     cs_percentage :=
       if 0 <? total_spending
       then fmul (fdiv (float_of_int sum) (float_of_int total_spending)) 100
       else 0%Q;
     cs_average := fdiv (float_of_int sum) (float_of_int count) |}.

Definition category_summary (d : disk) (start_date end_date : option string)
  : result (list (string * CategoryStats)) :=
  df <- DataManager.load_dataframe d "" ;;
  match df with
  | [] => Ok []
  | _ =>
      df <- filter_from start_date df ;;
      df <- filter_to end_date df ;;
      match df with
      | [] => Ok []
      | _ =>
          let total_spending := sum64 (amounts df) in
          let category_totals := groupby_sum_count df in
          Ok (map (fun kv => (fst kv, category_stats total_spending (snd kv)))
                  category_totals)
      end
  end.

(** The body of the per-category loop of [detect_trends]; [None] when the
    category adds no entry. *)
Definition trend_of (recent_data : DataFrame) (category : string) : option Trend :=
  let cat_data := with_category category recent_data in
  if len cat_data <? 2 then None
  else
    let monthly_totals := resample_MS cat_data in
    if 2 <=? len monthly_totals then
      let first := hd 0 monthly_totals in
      let last := List.last monthly_totals 0 in
      Some {| direction := if first <? last then "increasing" else "decreasing";
              percent_change :=
                if 0 <? first
                then fmul (fdiv (float_of_int (wrap64 (last - first)))
                                (float_of_int first)) 100
                else 0%Q;
              current_average := float_of_int last;
              previous_average := float_of_int first |}
    else None.

Definition detect_trends (d : disk) (months : Z) (now : datetime) : result TrendReport :=
  df <- DataManager.load_dataframe d "" ;;
  if len df <? 2 then Ok (TrendStatus "Insufficient data for trend analysis")
  else
    cutoff_date <- minus_days now (months * 30) ;;
    let recent_data := since cutoff_date df in
    match recent_data with
    | [] => Ok (TrendStatus "No data in specified period")
    | _ =>
        let trends :=
          flat_map (fun category =>
                      match trend_of recent_data category with
                      | Some t => [(category, t)]
                      | None => []
                      end)
                   Config.DEFAULT_CATEGORIES in
        Ok (Trends trends months)
    end.

(** The running state of the loop of [budget_alert]. *)
Record AlertState : Type := {
  alerts : list Alert;
  on_track : Z;
  warning : Z;
  critical : Z
}.

Definition budget_percentage (spending budget : Q) : Q :=
  if Qltb 0 budget then fmul (fdiv spending budget) 100 else 0%Q.

Definition budget_step (current_month : DataFrame) (st : AlertState)
           (item : string * Q) : AlertState :=
  let (category, budget) := item in
  let spending := float_of_int (sum64 (amounts (with_category category current_month))) in
  let percentage := budget_percentage spending budget in
  if Qle_bool 100 percentage then
    {| alerts := (alerts st ++
         [ {| a_category := category; a_status := "critical"; a_budget := budget;
              a_spending := spending; a_percentage := percentage;
              a_message := category ++ " budget exceeded by "
                           ++ format_fixed 2 (fsub spending budget) |} ])%list;
       on_track := on_track st; warning := warning st; critical := critical st + 1 |}
  else if Qle_bool 80 percentage then
    {| alerts := (alerts st ++
         [ {| a_category := category; a_status := "warning"; a_budget := budget;
              a_spending := spending; a_percentage := percentage;
              a_message := category ++ " at " ++ format_fixed 1 percentage
                           ++ "% of budget" |} ])%list;
       on_track := on_track st; warning := warning st + 1; critical := critical st |}
  else
    {| alerts := alerts st; on_track := on_track st + 1;
       warning := warning st; critical := critical st |}.

Definition budget_alert (d : disk) (custom_budgets : option (list (string * Q)))
           (now : datetime) : result BudgetReport :=
  let custom_budgets :=
    match custom_budgets with Some b => b | None => Config.DEFAULT_BUDGETS end in
  df <- DataManager.load_dataframe d "" ;;
  match df with
  | [] =>
      Ok {| br_status := Some "No data"; br_month := None; br_year := None;
            br_alerts := []; on_track_count := len custom_budgets;
            warning_count := 0; critical_count := 0;
            total_categories := len custom_budgets |}
  | _ =>
      let current_month :=
        filter (fun r => andb (year (r_date r) =? year (dt_date now))
                              (month (r_date r) =? month (dt_date now))) df in
      let st :=
        fold_left (budget_step current_month) custom_budgets
                  {| alerts := []; on_track := 0; warning := 0; critical := 0 |} in
      name <- py_getitem Config.MONTHS_ABBREVIATION (month (dt_date now) - 1) ;;
      Ok {| br_status := None; br_month := Some name;
            br_year := Some (year (dt_date now));
            br_alerts := alerts st; on_track_count := on_track st;
            warning_count := warning st; critical_count := critical st;
            total_categories := len custom_budgets |}
  end.

Definition daily_summary (d : disk) (date_arg : option string) (now : datetime)
  : result DailySummary :=
  let date :=
    match date_arg with
    | Some s => s
    | None => isoformat (dt_date now)
    end in
  df <- DataManager.load_dataframe d "" ;;
  match df with
  | [] =>
      Ok {| ds_date := date; ds_total := 0; ds_by_category := [];
            ds_transaction_count := 0 |}
  | _ =>
      let day_data := filter (fun r => (isoformat (r_date r) =? date)%string) df in
      Ok {| ds_date := date;
            ds_total := float_of_int (sum64 (amounts day_data));
            ds_by_category := groupby_sum day_data;
            ds_transaction_count := len day_data |}
  end.

(** [pd.to_datetime(bound)] for the day count. *)
Definition to_datetime_bound (bound : option string) : result bound_time :=
  match bound with
  | None => Ok (if to_datetime_None_is_NaT then NaT else NoTime)
  | Some s =>
      match Timestamp_of s with
      | Unparseable =>
          Raise (Exn ValueError ("Unknown datetime string format, unable to parse: " ++ s))
      | Missing => Ok NaT
      | Moment d ns => Ok (At d ns)
      end
  end.

(** [(end - start).days + 1]; NaN is [None]. The difference of two
    timestamps is a [Timedelta], which holds less than [2^63]
    nanoseconds. *)
Definition days_between (start finish : bound_time) : result (option Z) :=
  match start, finish with
  | At s s_ns, At e e_ns =>
      let delta := instant e e_ns - instant s s_ns in
      if Z.abs delta <? 2 ^ 63 then Ok (Some (delta / nanoseconds_per_day + 1))
      else Raise (Exn ValueError "Result is too large for pandas.Timedelta")
  | NoTime, _ | _, NoTime =>
      Raise (Exn TypeError ("unsupported operand type(s) for -: '" ++ type_name finish
                            ++ "' and '" ++ type_name start ++ "'"))
  | _, _ => Ok None
  end.

Definition get_date_range_summary (d : disk) (start_date end_date : option string)
  : result RangeSummary :=
  let period := str_of_optional start_date ++ " to " ++ str_of_optional end_date in
  df <- DataManager.filter_expenses d None start_date end_date None None ;;
  match df with
  | [] =>
      Ok {| rs_period := period; rs_total := 0; rs_average_daily := 0;
            rs_average_transaction := 0; rs_by_category := [];
            rs_transaction_count := 0; rs_day_count := Some 0 |}
  | _ =>
      let total := float_of_int (sum64 (amounts df)) in
      let transaction_count := len df in
      start <- to_datetime_bound start_date ;;
      finish <- to_datetime_bound end_date ;;
      day_count <- days_between start finish ;;
      let average_daily :=
        match day_count with
        | Some n => if 0 <? n then fdiv total (float_of_int n) else 0%Q
        | None => 0%Q
        end in
      let average_transaction :=
        if 0 <? transaction_count then fdiv total (float_of_int transaction_count)
        else 0%Q in
      Ok {| rs_period := period; rs_total := total;
            rs_average_daily := average_daily;
            rs_average_transaction := average_transaction;
            rs_by_category := groupby_sum df;
            rs_transaction_count := transaction_count;
            rs_day_count := day_count |}
  end.

End WithPandas.
End Analytics.

(* ===================================================================== *)
(** ** [pywallet/ml_models/models.py] *)
(* ===================================================================== *)

Record Prediction : Type := {
  predicted_amount : Z;
  confidence : Q;
  trend : string;
  historical_average : Q;
  historical_min : Q;
  historical_max : Q;
  data_points : Z
}.

Inductive ForecastReport : Type :=
| ForecastError (error : string)
| ForecastInsufficient (status : string)
                       (required_data_points available_data_points : Z)
| Forecast (period : string) (forecast_months : Z)
           (predictions : list (string * Prediction)) (generated_at : datetime).

(** The ['predictions'] entry of a report. *)
Definition predictions_of (r : ForecastReport) : list (string * Prediction) :=
  match r with
  | ForecastError _ => []
  | ForecastInsufficient _ _ _ => []
  | Forecast _ _ predictions _ => predictions
  end.

Record Anomaly : Type := {
  an_id : Z;
  an_category : string;
  an_amount : Z;
  an_date : string;
  an_note : string;
  z_score : Q;
  deviation : Z;
  reason : string
}.

Inductive AnomalyReport : Type :=
| AnomalyInsufficient (status : string)
| Anomalies (anomalies : list Anomaly) (total_anomalies_found : Z)
            (anomaly_threshold_sigma : Q) (method : string).

(** The ['anomalies'] entry of a report. *)
Definition anomalies_of (r : AnomalyReport) : list Anomaly :=
  match r with
  | AnomalyInsufficient _ => []
  | Anomalies anomalies _ _ _ => anomalies
  end.

Inductive CategoryPrediction : Type :=
| NotPredicted (error default_category : string) (note : option string)
| Predicted (predicted_category : string) (confidence : Q) (note : string)
            (recommended : bool).

(** [np.mean] of integers. *)
Definition np_mean (l : list Z) : Q := (inject_Z (sumZ l) / inject_Z (len l))%Q.

Definition sumQ (l : list Q) : Q := fold_right Qplus 0%Q l.

(** [np.std]: population standard deviation. *)
Definition np_std `{Numpy} (l : list Z) : Q :=
  let mean := np_mean l in
  np_sqrt (sumQ (map (fun x => (inject_Z x - mean) * (inject_Z x - mean))%Q l)
           / inject_Z (len l))%Q.

(** [l.sort(key=..., reverse=True)]: stable, largest key first. *)
Fixpoint insert_desc {A : Type} (key : A -> Q) (x : A) (l : list A) : list A :=
  match l with
  | [] => [x]
  | y :: l' =>
      if Qltb (key x) (key y) then y :: insert_desc key x l' else x :: l
  end.

Definition sort_desc {A : Type} (key : A -> Q) (l : list A) : list A :=
  fold_right (insert_desc key) [] l.



Record RecentAnomaly : Type := {
  ra_id : Z;
  ra_date : string;
  ra_category : string;
  ra_amount : Z;
  ra_mean : Z;
  ra_note : string
}.

(** [Series.std()] of pandas: sample standard deviation ([ddof=1]). *)
Definition pd_std `{Numpy} (l : list Z) : Q :=
  let mean := np_mean l in
  np_sqrt (sumQ (map (fun x => (inject_Z x - mean) * (inject_Z x - mean))%Q l)
           / inject_Z (len l - 1))%Q.

(** [Series.unique()]: the distinct values in order of first appearance;
    [seen] holds the values already met. *)
Fixpoint unique_from (seen l : list string) : list string :=
  match l with
  | [] => []
  | x :: xs =>
      if existsb (String.eqb x) seen then unique_from seen xs
      else x :: unique_from (x :: seen) xs
  end.

Definition unique (l : list string) : list string := unique_from [] l.

(** The characters [str.split()] treats as separators, within ASCII. *)
Definition is_space (c : ascii) : bool :=
  let n := nat_of_ascii c in
  orb (andb (Nat.leb 9 n) (Nat.leb n 13))
      (orb (andb (Nat.leb 28 n) (Nat.leb n 31)) (Nat.eqb n 32)).

(** [s.split()]: the maximal runs of non-separator characters. [word] is
    the run being read, in reverse. *)
Fixpoint split_from (word : list ascii) (s : string) : list string :=
  let flush := match word with
               | [] => []
               | _ => [string_of_list_ascii (rev word)]
               end in
  match s with
  | EmptyString => flush
  | String c r =>
      if is_space c then (flush ++ split_from [] r)%list
      else split_from (c :: word) r
  end.

Definition split (s : string) : list string := split_from [] s.

(** [Counter(words).most_common(n)]: the distinct words with their counts,
    largest count first, ties in order of first appearance. *)
Definition most_common (n : nat) (words : list string) : list (string * Z) :=
  firstn n
    (sort_desc (fun item => inject_Z (snd item))
       (map (fun w => (w, Z.of_nat (count_occ string_dec words w))) (unique words))).

Module SpendingPredictor.
Section WithLibs.
Context `{Pandas} `{Sklearn}.

(** The body of the per-category loop of [predict_next_month]; [None] when
    the category is skipped ([continue]). *)
Definition predict_category_amount (historical : DataFrame) (category : string)
  : option Prediction :=
  let cat_data := with_category category historical in
  if len cat_data <? 3 then None
  else
    let monthly := resample_MS cat_data in
    if len monthly <? 2 then None
    else
      let X := map Z.of_nat (seq 0 (List.length monthly)) in
      let y := monthly in
      match LinearRegression_fit X y with
      | Raise _ => None
      | Ok model =>
          let next_month_idx := len monthly in
          let predicted := int_of_float (predict model next_month_idx) in
          let r_squared := score model X y in
          let trend_slope := coef_ model in
          let trend_direction :=
            if Qltb 0 trend_slope then "increasing"
            else if Qltb trend_slope 0 then "decreasing" else "stable" in
          Some {| predicted_amount := Z.max 0 predicted;
                  confidence := r_squared;
                  trend := trend_direction;
                  historical_average := np_mean monthly;
                  historical_min := inject_Z (fold_right Z.min (hd 0 monthly) monthly);
                  historical_max := inject_Z (fold_right Z.max (hd 0 monthly) monthly);
                  data_points := len monthly |}
      end.

(** [now] is the clock read for the window, [now'] the one read for the
    ['generated_at'] stamp. *)
Definition predict_next_month (d : disk) (now now' : datetime) : result ForecastReport :=
  if negb SKLEARN_AVAILABLE then Ok (ForecastError "scikit-learn not installed")
  else
    df <- DataManager.load_dataframe d "" ;;
    if len df <? Config.MIN_DATA_POINTS_FOR_ML then
      Ok (ForecastInsufficient "Insufficient data" Config.MIN_DATA_POINTS_FOR_ML (len df))
    else
      cutoff <- minus_days now (Config.PREDICTION_WINDOW_MONTHS * 30) ;;
      let historical := since cutoff df in
      let predictions :=
        flat_map (fun category =>
                    match predict_category_amount historical category with
                    | Some p => [(category, p)]
                    | None => []
                    end)
                 Config.DEFAULT_CATEGORIES in
      Ok (Forecast "next_month" Config.FORECAST_AHEAD_MONTHS predictions now').



End WithLibs.
End SpendingPredictor.

Module AnomalyDetector.
Section WithLibs.
Context `{Pandas} `{Numpy}.

Definition compute_z_score (amount : Z) (mean std : Q) : Q :=
  if Qltb 0 std then ((inject_Z amount - mean) / std)%Q else 0%Q.

(** The body of the per-category loop of [detect_anomalies]: the entries the
    category appends. *)
Definition category_anomalies (df : DataFrame) (category : string) : list Anomaly :=
  let cat_data := with_category category df in
  if len cat_data <? 5 then []
  else
    let mean := np_mean (amounts cat_data) in
    let std := np_std (amounts cat_data) in
    let threshold := (mean + Config.ANOMALY_THRESHOLD_SIGMA * std)%Q in
    let outliers := filter (fun r => Qltb threshold (inject_Z (r_amount r))) cat_data in
    map (fun expense =>
           let z := compute_z_score (r_amount expense) mean std in
           {| an_id := r_id expense;
              an_category := category;
              an_amount := r_amount expense;
              an_date := isoformat (r_date expense);
              an_note := r_note expense;
              z_score := z;
              deviation := int_of_float (inject_Z (r_amount expense) - mean)%Q;
              reason := "Unusually high for " ++ category ++ ": "
                        ++ format_fixed 2 z ++ " std devs above mean" |})
        outliers.

(** All the entries appended by the loop, before sorting. *)
Definition pooled_anomalies (df : DataFrame) : list Anomaly :=
  flat_map (category_anomalies df) Config.DEFAULT_CATEGORIES.

Definition detect_anomalies (d : disk) : result AnomalyReport :=
  df <- DataManager.load_dataframe d "" ;;
  if len df <? Config.MIN_DATA_POINTS_FOR_ML then
    Ok (AnomalyInsufficient "Insufficient data")
  else
    let anomalies := sort_desc z_score (pooled_anomalies df) in
    Ok (Anomalies (firstn 10 anomalies) (len anomalies)
                  Config.ANOMALY_THRESHOLD_SIGMA "statistical_zscore").

(** The entries one category adds in [flag_recent_anomalies]; statistics
    come from the whole table, the entries from the recent rows. *)
Definition recent_category_anomalies (df recent : DataFrame) (category : string)
  : list RecentAnomaly :=
  let cat_data := with_category category df in
  if len cat_data <? 5 then []
  else
    let mean := np_mean (amounts cat_data) in
    let std := pd_std (amounts cat_data) in
    let threshold := (mean + 2 * std)%Q in
    let recent_cat :=
      filter (fun r => andb (r_category r =? category)%string
                            (Qltb threshold (inject_Z (r_amount r)))) recent in
    map (fun exp =>
           {| ra_id := r_id exp;
              ra_date := isoformat (r_date exp);
              ra_category := category;
              ra_amount := r_amount exp;
              ra_mean := int_of_float mean;
              ra_note := r_note exp |})
        recent_cat.

Definition flag_recent_anomalies (d : disk) (days : Z) (now : datetime)
  : result (list RecentAnomaly) :=
  df <- DataManager.load_dataframe d "" ;;
  cutoff <- minus_days now days ;;
  let recent := since cutoff df in
  match recent with
  | [] => Ok []
  | _ =>
      Ok (flat_map (recent_category_anomalies df recent)
                   (unique (map r_category recent)))
  end.

End WithLibs.
End AnomalyDetector.

Module CategoryClassifier.
Section WithLibs.
Context `{Pandas} `{Sklearn}.

(** The directory [DATA_DIR / 'ml_models'] with the two pickled artifacts. *)
Record ModelDir : Type := {
  classifier_model_pkl : option classifier;
  classifier_vectorizer_pkl : option vectorizer;
  model_dir_writable : bool
}.

Definition open_rb {A : Type} (file : option A) (name : string) : result A :=
  match file with
  | Some a => Ok a
  | None => Raise (Exn FileNotFoundError ("[Errno 2] No such file or directory: " ++ name))
  end.

Definition train_classifier (d : disk) (md : ModelDir) : (bool * string) * ModelDir :=
  if negb SKLEARN_AVAILABLE then ((false, "scikit-learn not installed"), md)
  else
    catch_all
      (df <- DataManager.load_dataframe d "" ;;
       let df := filter (fun r => negb (r_note r =? "")%string) df in
       if len df <? Config.MIN_NOTES_FOR_TRAINING then
         Ok ((false, "Need at least " ++ str_of_Z Config.MIN_NOTES_FOR_TRAINING
                      ++ " entries with notes"), md)
       else
         let X := map r_note df in
         let y := map r_category df in
         vec <- fit_vectorizer X ;;
         clf <- fit_classifier vec X y ;;
         if model_dir_writable md then
           Ok ((true, "Classifier trained on " ++ str_of_Z (len df) ++ " entries"),
               {| classifier_model_pkl := Some clf;
                  classifier_vectorizer_pkl := Some vec;
                  model_dir_writable := model_dir_writable md |})
         else Raise (Exn PermissionError "[Errno 13] Permission denied"))
      (fun e => ((false, "Training failed: " ++ exn_str e), md)).

Definition predict_category (md : ModelDir) (note : string) : result CategoryPrediction :=
  if negb SKLEARN_AVAILABLE then
    Ok (NotPredicted "scikit-learn not installed" "Other" None)
  else
    catch
      (clf <- open_rb (classifier_model_pkl md) "classifier_model.pkl" ;;
       vec <- open_rb (classifier_vectorizer_pkl md) "classifier_vectorizer.pkl" ;;
       p <- predict_with clf vec note ;;
       let (category, confidence) := p in
       Ok (Predicted category confidence note (Qltb (1 # 2) confidence)))
      [ValueError; AttributeError; TypeError]
      (fun _ => Ok (NotPredicted "Model not trained yet" "Other" (Some note))).

Definition get_category_keywords (category : string) (d : disk) : result (list string) :=
  df <- DataManager.load_dataframe d "" ;;
  let cat_data := with_category category df in
  match cat_data with
  | [] => Ok []
  | _ =>
      let all_notes := String.concat " " (map r_note cat_data) in
      let words := split (lower all_notes) in
      Ok (map fst
              (filter (fun item => Nat.ltb 3 (String.length (fst item)))
                      (most_common 10 words)))
  end.

End WithLibs.
End CategoryClassifier.

(** [KMeans(n_clusters=k, random_state=42).fit_predict(X)[0]] on the single
    row [X], with [cluster_centers_]. *)
Class SklearnCluster : Type := {
  KMeans_fit_predict : Z -> list Q -> result (Z * list (list Q))
}.

Record ClusterProfile : Type := {
  cluster_key : string;
  cluster_title : string;
  top_categories : list string;
  characteristics : string
}.

Inductive ClusterReport : Type :=
| ClusterError (error : string)
| Clusters (assigned_cluster cluster_name : string) (clusters : list ClusterProfile)
           (num_clusters : Z) (method : string).

Inductive ClusterComparison : Type :=
| ComparisonError (error : string)
| Comparison (total_spending : Q) (category_distribution : list (string * Q))
             (dominant_category : string) (top_3_categories : list string)
             (spending_diversity : Z).

Module SpendingClustering.
Section WithLibs.
Context `{Pandas} `{Sklearn} `{SklearnCluster}.

(** [df.groupby('category')['amount'].sum().reindex(DEFAULT_CATEGORIES,
    fill_value=0)]. *)
Definition category_spending (df : DataFrame) : list Z :=
  map (fun c => sum64 (amounts (with_category c df))) Config.DEFAULT_CATEGORIES.

(** The row handed to k-means. *)
Definition spending_shares (df : DataFrame) : list Q :=
  let total := sum64 (category_spending df) in
  map (fun x => fdiv (float_of_int x) (float_of_int total)) (category_spending df).

(** The profile of centre number [i]. *)
Definition cluster_profile (i : nat) (center : list Q) : ClusterProfile :=
  let top :=
    map fst (firstn 3 (sort_desc snd (combine Config.DEFAULT_CATEGORIES center))) in
  {| cluster_key := "cluster_" ++ str_of_Z (Z.of_nat i);
     cluster_title := "Spending Pattern " ++ str_of_Z (Z.of_nat i + 1);
     top_categories := top;
     characteristics := "High spending in " ++ String.concat ", " top |}.

Definition cluster_spending_patterns (d : disk) : result ClusterReport :=
  if negb SKLEARN_AVAILABLE then Ok (ClusterError "scikit-learn not installed")
  else
    df <- DataManager.load_dataframe d "" ;;
    if len df <? Config.MIN_DATA_POINTS_FOR_ML then Ok (ClusterError "Insufficient data")
    else
      Ok (catch_all
            (if sum64 (category_spending df) =? 0 then Ok (ClusterError "No spending data")
             else
               fitted <- KMeans_fit_predict Config.KMEANS_CLUSTERS (spending_shares df) ;;
               let (cluster_label, centers) := fitted in
               Ok (Clusters ("cluster_" ++ str_of_Z cluster_label)
                            ("Spending Pattern " ++ str_of_Z (cluster_label + 1))
                            (map (fun ic => cluster_profile (fst ic) (snd ic))
                                 (combine (seq 0 (List.length centers)) centers))
                            Config.KMEANS_CLUSTERS "kmeans"))
            (fun e => ClusterError (exn_str e))).

Definition compare_to_clusters (d : disk) : result ClusterComparison :=
  df <- DataManager.load_dataframe d "" ;;
  match df with
  | [] => Ok (ComparisonError "No data")
  | _ =>
      let category_dist := groupby_sum df in
      let total := sum64 (map snd category_dist) in
      if total =? 0 then Ok (ComparisonError "No spending")
      else
        let percentages :=
          map (fun kv => (fst kv, fmul (fdiv (float_of_int (snd kv)) (float_of_int total))
                                       100))
              category_dist in
        let sorted_cats := sort_desc snd percentages in
        Ok (Comparison (float_of_int total) percentages
                       (match sorted_cats with
                        | first :: _ => fst first
                        | [] => "Unknown"
                        end)
                       (map fst (firstn 3 sorted_cats))
                       (len (filter (fun cp => Qltb 5 (snd cp)) sorted_cats)))
  end.

End WithLibs.
End SpendingClustering.

Module InsightGenerator.
Section WithPandas.
Context `{Pandas}.

(** The entries added for the first two trends of the report. *)
Definition trend_recommendations (report : TrendReport) : list string :=
  match report with
  | TrendStatus _ => []
  | Trends trends _ =>
      flat_map (fun ct : string * Trend =>
                  let (cat, trend) := ct in
                  if andb (direction trend =? "increasing")%string
                          (Qltb 20 (percent_change trend))
                  then ["Spending on " ++ cat ++ " increased "
                        ++ format_fixed 0 (percent_change trend)
                        ++ "% - consider reducing"]
                  else [])
               (firstn 2 trends)
  end.

(** [_generate_recommendations]; [now] and [now'] are the clock readings of
    its two analytics calls. An exception of either call is caught by the
    bare [except], which keeps the entries already appended. *)
Definition generate_recommendations (d : disk) (now now' : datetime) : list string :=
  let unable := "Unable to generate recommendations at this time" in
  match Analytics.budget_alert d None now with
  | Raise _ => [unable]
  | Ok budget_status =>
      let over :=
        if 0 <? critical_count budget_status
        then ["Warning: " ++ str_of_Z (critical_count budget_status)
              ++ " categories over budget!"]
        else [] in
      let near :=
        if 0 <? warning_count budget_status
        then ["Caution: " ++ str_of_Z (warning_count budget_status)
              ++ " categories near budget limits"]
        else [] in
      let recommendations := app over near in
      match Analytics.detect_trends d 3 now' with
      | Raise _ => app recommendations [unable]
      | Ok trends =>
          let recommendations := app recommendations (trend_recommendations trends) in
          match recommendations with
          | [] => ["Your spending looks healthy! Keep it up."]
          | _ => recommendations
          end
      end
  end.

End WithPandas.
End InsightGenerator.

Module AICoach.
Section WithPandas.
Context `{Pandas}.

(** [suggest_next_actions]. *)
Definition suggest_next_actions (d : disk) (now : datetime) : result (list string) :=
  actions <-
    catch
      (df <- DataManager.load_dataframe d "" ;;
       match df with
       | [] => Ok (inl ["Start tracking your expenses by adding your first transaction."])
       | first :: others =>
           let used_cats := unique (map r_category df) in
           let unused_cats :=
             filter (fun c => negb (existsb (String.eqb c) used_cats))
                    Config.DEFAULT_CATEGORIES in
           let a1 :=
             match unused_cats with
             | c :: _ =>
                 if len used_cats <? 5
                 then ["Expand tracking to more categories like " ++ c] else []
             | [] => []
             end in
           let last_entry :=
             fold_left Z.max (map row_instant others) (row_instant first) in
           let days_since := (1000 * timestamp now - last_entry) / nanoseconds_per_day in
           let a2 :=
             if 7 <? days_since
             then ["You haven't added any expenses in over a week. Update your records!"]
             else [] in
           let entries_with_notes :=
             len (filter (fun r => negb (r_note r =? "")%string) df) in
           let a3 :=
             if 2 * entries_with_notes <? len df
             then ["Add notes to your expenses to enable smarter category predictions"]
             else [] in
           let actions := app a1 (app a2 a3) in
           Ok (inr (match actions with
                    | [] => ["Review your budget allocation to optimize spending"]
                    | _ => actions
                    end))
       end)
      [ValueError; KeyError; AttributeError]
      (fun _ => Ok (inr [] : list string + list string)%type) ;;
  match actions with
  | inl returned => Ok returned
  | inr [] => Ok ["Check your spending reports in the Analytics section"]
  | inr actions => Ok actions
  end.

End WithPandas.
End AICoach.

(* ===================================================================== *)
(** ** Reference instances of the library entry points *)
(* ===================================================================== *)

(** A pandas that reads the ISO forms [YYYY-MM-DD] and
    [YYYY-MM-DDTHH:MM:SS] of the years pandas 2 can hold, and nothing else;
    a column must be in one of the two forms throughout. On other texts it
    stands for pandas only where pandas rejects them. *)
Definition parse_iso_date (s : string) : option date :=
  match strptime_Ymd s with
  | Ok d =>
      if andb (valid_date d)
              (andb (isoformat d =? s)%string (andb (1678 <=? year d) (year d <=? 2261)))
      then Some d else None
  | Raise _ => None
  end.

(** [HH:MM:SS] as nanoseconds since midnight. *)
Definition parse_clock (s : string) : option Z :=
  match s with
  | String h1 (String h2 (String ":" (String m1 (String m2 (String ":"
      (String s1 (String s2 EmptyString))))))) =>
      match digit h1, digit h2, digit m1, digit m2, digit s1, digit s2 with
      | Some a, Some b, Some c, Some d, Some e, Some f =>
          Some (((10 * a + b) * 3600 + (10 * c + d) * 60 + (10 * e + f)) * 1000000000)
      | _, _, _, _, _, _ => None
      end
  | _ => None
  end.

Definition parse_iso_datetime (s : string) : option (date * Z) :=
  match parse_iso_date (substring 0 10 s), parse_clock (substring 11 8 s) with
  | Some d, Some ns =>
      if andb (andb (substring 10 1 s =? "T")%string (Nat.eqb (String.length s) 19))
              (valid_instant d ns)
      then Some (d, ns) else None
  | _, _ => None
  end.

Definition parse_iso (s : string) : option (date * Z) :=
  match parse_iso_date s with
  | Some d => Some (d, 0)
  | None => parse_iso_datetime s
  end.

Fixpoint all_parsed {A : Type} (f : string -> option A) (col : list string)
  : option (list A) :=
  match col with
  | [] => Some []
  | s :: rest =>
      match f s, all_parsed f rest with
      | Some a, Some l => Some (a :: l)
      | _, _ => None
      end
  end.

Definition iso_column (col : list string) : result (list (date * Z)) :=
  match all_parsed parse_iso_date col with
  | Some ds => Ok (map (fun d => (d, 0)) ds)
  | None =>
      match all_parsed parse_iso_datetime col with
      | Some stamps => Ok stamps
      | None => Raise (Exn ValueError "time data does not match the format of the column")
      end
  end.

Definition iso_Timestamp (s : string) : parsed :=
  if (s =? "")%string then Missing
  else match parse_iso s with
       | Some (d, ns) => Moment d ns
       | None => Unparseable
       end.

#[export] Instance iso_pandas : Pandas.
Proof.
  assert (Hdate : forall s d, parse_iso_date s = Some d -> valid_instant d 0 = true).
  { intros s d. unfold parse_iso_date.
    destruct (strptime_Ymd s) as [d'|]; [|discriminate].
    destruct (valid_date d') eqn:Hv; [|discriminate].
    destruct (andb _ _); [|discriminate].
    intros Heq. injection Heq as <-. unfold valid_instant. now rewrite Hv. }
  assert (Htime : forall s p, parse_iso_datetime s = Some p ->
                              valid_instant (fst p) (snd p) = true).
  { intros s p. unfold parse_iso_datetime.
    destruct (parse_iso_date _) as [d|]; [|discriminate].
    destruct (parse_clock _) as [ns|]; [|discriminate].
    destruct (andb (_ =? _)%string _); [|discriminate].
    destruct (valid_instant d ns) eqn:Hv; [|discriminate].
    intros Heq. injection Heq as <-. exact Hv. }
  assert (Hall : forall (A : Type) (f : string -> option A) (P : A -> Prop),
             (forall s a, f s = Some a -> P a) ->
             forall col l, all_parsed f col = Some l ->
                           Forall P l /\ List.length l = List.length col).
  { intros A f P Hf. induction col as [|s col IH]; intros l; cbn [all_parsed].
    - intros Heq. injection Heq as <-. split; [constructor|reflexivity].
    - destruct (f s) as [a|] eqn:Hs; [|discriminate].
      destruct (all_parsed f col) as [l'|]; [|discriminate].
      intros Heq. injection Heq as <-. destruct (IH l' eq_refl) as [HP Hlen].
      split; [constructor; eauto|cbn [List.length]; now rewrite Hlen]. }
  assert (Hnone : forall (A : Type) (f : string -> option A) col s,
             In s col -> f s = None -> all_parsed f col = None).
  { intros A f. induction col as [|s' col IH]; intros s Hin Hs; [destruct Hin|].
    cbn [all_parsed]. destruct Hin as [-> | Hin].
    - now rewrite Hs.
    - rewrite (IH s Hin Hs). now destruct (f s'). }
  assert (Hcolumn : forall col stamps, iso_column col = Ok stamps ->
             Forall (fun p => valid_instant (fst p) (snd p) = true) stamps
             /\ List.length stamps = List.length col).
  { intros col stamps. unfold iso_column.
    destruct (all_parsed parse_iso_date col) as [ds|] eqn:Hds.
    - intros Heq. injection Heq as <-.
      destruct (Hall _ _ _ Hdate col ds Hds) as [Hv Hlen].
      split; [|now rewrite length_map].
      apply Forall_map. exact Hv.
    - destruct (all_parsed parse_iso_datetime col) as [l|] eqn:Hl; [|discriminate].
      intros Heq. injection Heq as <-. exact (Hall _ _ _ Htime col l Hl). }
  refine {| Timestamp_of := iso_Timestamp;
            to_datetime_column := iso_column;
            to_datetime_None_is_NaT := false |}.
  - reflexivity.
  - intros s d ns. unfold iso_Timestamp, parse_iso.
    destruct (s =? "")%string; [discriminate|].
    destruct (parse_iso_date s) as [d'|] eqn:Hd.
    + intros Heq. injection Heq as <- <-. exact (Hdate s d' Hd).
    + destruct (parse_iso_datetime s) as [[d' ns']|] eqn:Ht; [|discriminate].
      intros Heq. injection Heq as <- <-. exact (Htime s _ Ht).
  - intros col stamps Hc. exact (proj1 (Hcolumn col stamps Hc)).
  - intros col stamps Hc. exact (proj2 (Hcolumn col stamps Hc)).
  - intros col s Hin. unfold iso_Timestamp, parse_iso.
    destruct (s =? "")%string; [discriminate|].
    destruct (parse_iso_date s) as [d|] eqn:Hd; [discriminate|].
    destruct (parse_iso_datetime s) as [[d ns]|] eqn:Ht; [discriminate|].
    intros _. unfold iso_column.
    rewrite (Hnone _ parse_iso_date col s Hin Hd).
    rewrite (Hnone _ parse_iso_datetime col s Hin Ht). eauto.
Defined.

(** Square root rounded down to a multiple of [1/den]. *)
#[export] Instance floor_numpy : Numpy :=
  {| np_sqrt := fun q => Z.sqrt (Qnum q * Z.pos (Qden q)) # Qden q |}.

(** Ordinary least squares with an intercept, in exact arithmetic. *)
Definition ols_fit (X y : list Z) : result LinearModel :=
  match X with
  | [] => Raise (Exn ValueError "Found array with 0 sample(s)")
  | _ =>
      let xbar := np_mean X in
      let ybar := np_mean y in
      let sxx := sumQ (map (fun x => (inject_Z x - xbar) * (inject_Z x - xbar))%Q X) in
      let sxy :=
        sumQ (map (fun p => (inject_Z (fst p) - xbar) * (inject_Z (snd p) - ybar))%Q
                  (combine X y)) in
      let slope := Qred (if Qeq_bool sxx 0 then 0 else sxy / sxx)%Q in
      let intercept := Qred (ybar - slope * xbar)%Q in
      let at_x := fun x : Z => Qred (intercept + slope * inject_Z x)%Q in
      Ok {| coef_ := slope;
            predict := at_x;
            score := fun X' y' =>
              let m := np_mean y' in
              let ss_res :=
                sumQ (map (fun p => (inject_Z (snd p) - at_x (fst p))
                                    * (inject_Z (snd p) - at_x (fst p)))%Q
                          (combine X' y')) in
              let ss_tot :=
                sumQ (map (fun v => (inject_Z v - m) * (inject_Z v - m))%Q y') in
              Qred (if Qeq_bool ss_tot 0
                    then (if Qeq_bool ss_res 0 then 1 else 0)
                    else 1 - ss_res / ss_tot)%Q |}
  end.

(** A classifier that answers the label of its first training sample. *)
#[export] Instance exact_sklearn : Sklearn :=
  {| SKLEARN_AVAILABLE := true;
     LinearRegression_fit := ols_fit;
     vectorizer := list string;
     classifier := string;
     fit_vectorizer := fun X => Ok X;
     fit_classifier := fun _ _ y =>
       match y with
       | [] => Raise (Exn ValueError "Found array with 0 sample(s)")
       | c :: _ => Ok c
       end;
     predict_with := fun clf _ _ => Ok (clf, 1%Q) |}.

(** k-means as scikit-learn runs it on one sample: more clusters than
    samples is a [ValueError]; one cluster has the sample as its centre. *)
#[export] Instance single_sample_kmeans : SklearnCluster :=
  {| KMeans_fit_predict := fun n_clusters X =>
       if n_clusters <=? 1 then Ok (0, [X])
       else Raise (Exn ValueError
                       ("n_samples=1 should be >= n_clusters=" ++ str_of_Z n_clusters)) |}.

(* ===================================================================== *)
(** ** Invariants of the store *)
(* ===================================================================== *)

(** The invariants of a transaction record, as a check. *)
Definition valid_record (e : expense) : bool :=
  andb (andb (Config.MIN_EXPENSE_AMOUNT <=? e_amount e)
             (e_amount e <=? Config.MAX_EXPENSE_AMOUNT))
       (andb (existsb (String.eqb (e_category e)) Config.DEFAULT_CATEGORIES)
             (match strptime_Ymd (e_date e) with Ok _ => true | Raise _ => false end)).

(** The invariants of the store: distinct ids, valid records. *)
Definition store_invariant (data : list expense) : Prop :=
  NoDup (map e_id data) /\ Forall (fun e => valid_record e = true) data.

(* ===================================================================== *)
(** ** Definitions used to state the properties *)
(* ===================================================================== *)

(** A row of the table carries the fields of its record. *)
Definition row_of (e : expense) (r : row) : Prop :=
  r_id r = e_id e /\ r_amount r = e_amount e /\ r_category r = e_category e
  /\ r_note r = e_note e /\ r_username r = e_username e.

(** The date column of a table. *)
Definition stamps_of (df : DataFrame) : list (date * Z) :=
  map (fun r => (r_date r, r_time r)) df.

(** The table [load_dataframe] builds from the records it has selected. *)
Definition table_of_records `{Pandas} (data : list expense) : result DataFrame :=
  match data with
  | [] => Ok []
  | _ =>
      stamps <- to_datetime_column (map e_date data) ;;
      Ok (map (fun p => DataManager.make_row (fst p) (snd p)) (combine data stamps))
  end.

(** A calendar date of the years every pandas can hold in nanoseconds. *)
Definition iso_day (day_of : date) : bool :=
  andb (valid_date day_of) (andb (1678 <=? year day_of) (year day_of <=? 2261)).

(** pandas reads a column of ISO dates [YYYY-MM-DD] as the midnights of
    those days. *)
Definition reads_iso_dates `{Pandas} : Prop :=
  forall days, Forall (fun day_of => iso_day day_of = true) days ->
    to_datetime_column (map isoformat days) = Ok (map (fun day_of => (day_of, 0)) days).

(** The stored dates carry no time of day. *)
Definition plain_dates (df : DataFrame) : Prop := Forall (fun r => r_time r = 0) df.

(** The amounts are small enough for every sum of the table to be exact,
    in 64-bit integers and in doubles. *)
Definition exact_sums (df : DataFrame) : Prop :=
  sumZ (map Z.abs (amounts df)) < 2 ^ 53.

(** The percentage as the specification words it: 0 when the budget is 0. *)
Definition spec_percentage (spend budget : Q) : Q :=
  if Qeq_bool budget 0 then 0%Q else fmul (fdiv spend budget) 100.

(** The percentage of a budget line: 0 unless the budget is positive; the
    quotient and the product are those of doubles. *)
Definition percentage_of_budget (spend budget : Q) : Q :=
  if Qle_bool budget 0 then 0%Q else fmul (fdiv spend budget) 100.

Definition spec_status (percentage : Q) : string :=
  if Qle_bool 100 percentage then "critical"
  else if Qle_bool 80 percentage then "warning"
  else "on_track".

(** Spend of a category in the calendar month of [now]: every row counts
    for its amount when it bears the category and falls in the month, and
    for nothing otherwise. *)
Definition current_month_spend (now : datetime) (df : DataFrame) (category : string) : Z :=
  sumZ (map (fun r =>
               if andb (r_category r =? category)%string
                       (andb (year (r_date r) =? year (dt_date now))
                             (month (r_date r) =? month (dt_date now)))
               then r_amount r else 0) df).

(** The class of a budget line. *)
Definition budget_class (now : datetime) (df : DataFrame) (item : string * Q) : string :=
  spec_status (percentage_of_budget (inject_Z (current_month_spend now df (fst item)))
                                    (snd item)).

(** The budget lines of one class. *)
Definition lines_of_class (now : datetime) (df : DataFrame) (class : string)
           (budgets : list (string * Q)) : list (string * Q) :=
  filter (fun item => (budget_class now df item =? class)%string) budgets.

(** An alert entry reports its budget line. *)
Definition alert_for (now : datetime) (df : DataFrame) (item : string * Q) (a : Alert) : Prop :=
  a_category a = fst item /\ a_budget a = snd item
  /\ a_spending a = inject_Z (current_month_spend now df (fst item))
  /\ a_percentage a = percentage_of_budget (a_spending a) (a_budget a)
  /\ a_status a = spec_status (a_percentage a).

(** [d.get(k)] on a dict kept as a list of items. *)
Fixpoint dict_get {V : Type} (k : string) (items : list (string * V)) : option V :=
  match items with
  | [] => None
  | (k', v) :: items' => if (k' =? k)%string then Some v else dict_get k items'
  end.

(** The ['trends'] entry of a report; a status report has none. *)
Definition trends_of (r : TrendReport) : list (string * Trend) :=
  match r with
  | TrendStatus _ => []
  | Trends trends _ => trends
  end.

(** The look-back date [now - days] exists: the number of days is one a
    [timedelta] holds and the date is one of the years 1 to 9999. *)
Definition window_exists (now : datetime) (days : Z) : Prop :=
  Z.abs days <= 999999999
  /\ timestamp_of_date (Date 1 1 1) <= timestamp now - days * microseconds_per_day
     < timestamp_of_date (Date 9999 12 31) + microseconds_per_day.

(** A row is in the window when its timestamp is at most [days] days
    older than [now]. *)
Definition in_window (now : datetime) (days : Z) (r : row) : bool :=
  1000 * timestamp now - row_instant r <=? days * nanoseconds_per_day.

(** The rows of a category in the window. *)
Definition window_rows (df : DataFrame) (days : Z) (now : datetime) (category : string)
  : DataFrame :=
  filter (fun r => andb (r_category r =? category)%string (in_window now days r)) df.

(** The calendar months, numbered in sequence. *)
Definition month_number (d : date) : Z := 12 * year d + month d.

Definition earliest_month (rows : DataFrame) : Z :=
  match rows with
  | [] => 0
  | r :: rest =>
      fold_right (fun r' m => Z.min (month_number (r_date r')) m)
                 (month_number (r_date r)) rest
  end.

Definition latest_month (rows : DataFrame) : Z :=
  match rows with
  | [] => 0
  | r :: rest =>
      fold_right (fun r' m => Z.max (month_number (r_date r')) m)
                 (month_number (r_date r)) rest
  end.

(** The monthly buckets of some rows run from the month of the earliest row
    to the month of the latest one; no rows, no bucket. *)
Definition bucket_count (rows : DataFrame) : Z :=
  match rows with
  | [] => 0
  | _ => latest_month rows - earliest_month rows + 1
  end.

(** The total of the rows of one calendar month. *)
Definition month_total (rows : DataFrame) (k : Z) : Z :=
  sumZ (map (fun r => if month_number (r_date r) =? k then r_amount r else 0) rows).

(** The monthly buckets, in order. *)
Definition monthly_buckets (rows : DataFrame) : list Z :=
  map (fun n => month_total rows (earliest_month rows + Z.of_nat n))
      (seq 0 (Z.to_nat (bucket_count rows))).

Definition first_bucket (rows : DataFrame) : Z := month_total rows (earliest_month rows).

Definition last_bucket (rows : DataFrame) : Z := month_total rows (latest_month rows).

Definition string_lt (a b : string) : Prop := String.compare a b = Lt.

(** Largest key first. *)
Definition decreasing {A : Type} (key : A -> Q) (a b : A) : Prop := (key b <= key a)%Q.

(** Sample stores: [n] everyday Food records of 100 on one day, followed by
    one Food record of 10000. *)
Definition steady_food (n : nat) : list expense :=
  map (fun k => Expense (Z.of_nat k + 1) 100 "Food" "2024-01-10" "lunch" None) (seq 0 n).

Definition spike_store (n : nat) : list expense :=
  (steady_food n
   ++ [Expense (Z.of_nat n + 1) 10000 "Food" "2024-01-11" "banquet" None])%list.

(** [np.arange(n)]. *)
Definition arange (n : nat) : list Z := map Z.of_nat (seq 0 n).

(** Sample store: [n] Other records of 50 on one day, then Food records of
    300, 600 and 900 in January, February and March 2024. *)
Definition quarter_store (n : nat) : list expense :=
  (map (fun k => Expense (Z.of_nat k + 1) 50 "Other" "2024-03-10" "misc" None) (seq 0 n)
   ++ [Expense (Z.of_nat n + 1) 300 "Food" "2024-01-20" "a" None;
       Expense (Z.of_nat n + 2) 600 "Food" "2024-02-20" "b" None;
       Expense (Z.of_nat n + 3) 900 "Food" "2024-03-20" "c" None])%list.

(** Sample store: [n] Other records of 50 on one day, Food records of 300,
    600 and 901 in January, February and March 2024, and a Food record of
    5000 in June 2023. *)
Definition forecast_store (n : nat) : list expense :=
  (map (fun k => Expense (Z.of_nat k + 1) 50 "Other" "2024-03-10" "misc" None) (seq 0 n)
   ++ [Expense (Z.of_nat n + 1) 300 "Food" "2024-01-20" "a" None;
       Expense (Z.of_nat n + 2) 600 "Food" "2024-02-20" "b" None;
       Expense (Z.of_nat n + 3) 901 "Food" "2024-03-20" "c" None;
       Expense (Z.of_nat n + 4) 5000 "Food" "2023-06-01" "d" None])%list.

(** Sample store: [n] Other records, then three Food records spread over
    February and March 2024 only. *)
Definition two_month_store (n : nat) : list expense :=
  (map (fun k => Expense (Z.of_nat k + 1) 50 "Other" "2024-03-10" "misc" None) (seq 0 n)
   ++ [Expense (Z.of_nat n + 1) 200 "Food" "2024-02-05" "a" None;
       Expense (Z.of_nat n + 2) 300 "Food" "2024-02-20" "b" None;
       Expense (Z.of_nat n + 3) 700 "Food" "2024-03-20" "c" None])%list.

(** Sample store: [n] Food records, each with a note. *)
Definition noted_store (n : nat) : list expense :=
  map (fun k => Expense (Z.of_nat k + 1) 250 "Food" "2024-01-10" "lunch at cafe" None)
      (seq 0 n).

(** The directory of the artifacts before any training. *)
Definition empty_model_dir : CategoryClassifier.ModelDir :=
  {| CategoryClassifier.classifier_model_pkl := None;
     CategoryClassifier.classifier_vectorizer_pkl := None;
     CategoryClassifier.model_dir_writable := true |}.

(** The bound a date filter compares with: none when the argument is absent
    or empty, otherwise the converted text, which is NaT or a point in
    time. *)
Inductive date_bound : Type :=
| NoBound
| NaTBound
| Bound (t : Z).

Definition parsed_bound `{Pandas} (bound : option string) : result date_bound :=
  match truthy bound with
  | None => Ok NoBound
  | Some s =>
      match Timestamp_of s with
      | Unparseable =>
          Raise (Exn TypeError "Invalid comparison between dtype=datetime64[ns] and str")
      | Missing => Ok NaTBound
      | Moment d ns => Ok (Bound (instant d ns))
      end
  end.

(** A row passes a bound when its timestamp is on the right side of it; no
    row passes NaT. *)
Definition passes (keep : Z -> Z -> bool) (b : date_bound) (r : row) : bool :=
  match b with
  | NoBound => true
  | NaTBound => false
  | Bound t => keep (row_instant r) t
  end.

(** The conjunction of the criteria of [filter_expenses] that are given:
    [category] is the truthy category, [lo] and [hi] the parsed bounds. *)
Definition row_matches (category : option string) (lo hi : date_bound)
           (min_amount max_amount : option Z) (r : row) : bool :=
  andb (match category with Some c => (r_category r =? c)%string | None => true end)
  (andb (passes Z.geb lo r)
  (andb (passes Z.leb hi r)
  (andb (match min_amount with Some m => m <=? r_amount r | None => true end)
        (match max_amount with Some m => r_amount r <=? m | None => true end)))).

(** The CSV rows the import keeps, as (amount, category, date, note). *)
Definition converted_rows (rs : list csv_row) : list (Z * string * string * string) :=
  flat_map (fun r =>
              match row_amount r with
              | IntOk a =>
                  [(a, row_category r, row_date r,
                    match row_note r with Some n => n | None => "" end)]
              | _ => []
              end) rs.

Definition expense_fields (e : expense) : Z * string * string * string :=
  (e_amount e, e_category e, e_date e, e_note e).

(** Checks run over all years, months and days to relate [isoformat] and
    [strptime_Ymd]: the year is printed as four digits that [match_Y] reads
    back, and the rest of the text is read back as the month and the day. *)
Definition year_reads_back (y : Z) : bool :=
  match zero_pad 4 (str_of_Z y) with
  | String a (String b (String c (String e EmptyString))) =>
      match digit a, digit b, digit c, digit e with
      | Some w, Some x, Some v, Some z => 1000 * w + 100 * x + 10 * v + z =? y
      | _, _, _, _ => false
      end
  | _ => false
  end.

Definition month_day_text (m dd : Z) : string :=
  "-" ++ zero_pad 2 (str_of_Z m) ++ "-" ++ zero_pad 2 (str_of_Z dd).

Definition month_day_reads_back (m dd : Z) : bool :=
  match match_dash (month_day_text m dd) with
  | Some r =>
      match match_md (match_m r) with
      | Some (m', d', rest) => andb (andb (m' =? m) (d' =? dd)) (rest =? "")%string
      | None => false
      end
  | None => false
  end.

(** [d.get(k)] on a dict with integer keys kept as a list of items. *)
Fixpoint day_get {V : Type} (k : Z) (items : list (Z * V)) : option V :=
  match items with
  | [] => None
  | (k', v) :: items' => if k' =? k then Some v else day_get k items'
  end.

(** The rows of one calendar day. *)
Definition rows_of_day (day_of : date) (df : DataFrame) : DataFrame :=
  filter (fun r => andb (andb (year (r_date r) =? year day_of)
                              (month (r_date r) =? month day_of))
                        (day (r_date r) =? day day_of)) df.

(* ===================================================================== *)
(** ** Lemmas on lists and on the store *)
(* ===================================================================== *)

Lemma fold_left_max_ge (l : list Z) (a : Z) :
  a <= fold_left Z.max l a /\ forall x, In x l -> x <= fold_left Z.max l a.
Proof.
  revert a. induction l as [|b l IH]; intros a; simpl.
  - split; [lia | intros x []].
  - destruct (IH (Z.max a b)) as [H1 H2]. split; [lia|].
    intros x [<- | Hx]; [lia | now apply H2].
Qed.

Lemma py_max_default_ge (l : list Z) (d x : Z) :
  In x l -> x <= py_max_default l d.
Proof.
  destruct l as [|a l]; [intros [] |].
  intros [<- | Hx]; simpl.
  - exact (proj1 (fold_left_max_ge l a)).
  - exact (proj2 (fold_left_max_ge l a) x Hx).
Qed.

Lemma filter_length_le {A : Type} (f : A -> bool) (l : list A) :
  (List.length (filter f l) <= List.length l)%nat.
Proof.
  induction l as [|a l IH]; simpl; [lia|]. destruct (f a); simpl; lia.
Qed.

Lemma filter_keeps_all {A : Type} (f : A -> bool) (l : list A) :
  List.length (filter f l) = List.length l -> filter f l = l.
Proof.
  induction l as [|a l IH]; simpl; [reflexivity|].
  destruct (f a); simpl; intros Hlen.
  - f_equal. apply IH. lia.
  - pose proof (filter_length_le f l). lia.
Qed.

Lemma filter_drops_some {A : Type} (f : A -> bool) (l : list A) (a : A) :
  In a l -> f a = false -> (List.length (filter f l) < List.length l)%nat.
Proof.
  induction l as [|b l IH]; simpl; [intros [] |].
  intros [-> | Hin] Hf.
  - rewrite Hf. pose proof (filter_length_le f l). lia.
  - specialize (IH Hin Hf). destruct (f b); simpl; lia.
Qed.

Lemma filter_id_all {A : Type} (f : A -> bool) (l : list A)
      (Hall : forall a, In a l -> f a = true) :
  filter f l = l.
Proof.
  induction l as [|b l IH]; simpl; [reflexivity|].
  rewrite (Hall b (or_introl eq_refl)). f_equal. apply IH.
  intros a Ha. apply Hall. now right.
Qed.

Lemma existsb_eqb_In (c : string) (l : list string) :
  existsb (String.eqb c) l = true <-> In c l.
Proof.
  rewrite existsb_exists. split.
  - intros [x [Hin Heq]]. apply String.eqb_eq in Heq. now subst.
  - intros Hin. exists c. split; [assumption | apply String.eqb_refl].
Qed.

(** Removing the records of one id from a store with distinct ids removes
    one record. *)
Lemma filter_unique_id_length (data : list expense) (i : Z) :
  NoDup (map e_id data) ->
  (exists e, In e data /\ e_id e = i) ->
  S (List.length (filter (fun e => negb (e_id e =? i)) data)) = List.length data.
Proof.
  induction data as [|a data IH]; simpl; intros Hnd [e [Hin He]]; [contradiction|].
  inversion Hnd as [|? ? Hnotin Hnd']; subst.
  destruct (Z.eqb_spec (e_id a) (e_id e)) as [Heq | Hne]; simpl.
  - f_equal. rewrite filter_id_all; [reflexivity|].
    intros b Hb. apply negb_true_iff. apply Z.eqb_neq. intros Hbe.
    apply Hnotin. rewrite Heq, <- Hbe. now apply in_map.
  - f_equal. apply IH; [assumption|].
    destruct Hin as [-> | Hin]; [contradiction|]. now exists e.
Qed.

(** C1: every valid add whose save succeeds appends exactly one record; its
    id is [max(existing ids, default 0) + 1], strictly greater than every id
    of the prior store. *)
Theorem add_expense_appends_fresh_id
        (amount : Z) (category date note username : string) (d : disk) :
  Config.MIN_EXPENSE_AMOUNT <= amount <= Config.MAX_EXPENSE_AMOUNT ->
  In category Config.DEFAULT_CATEGORIES ->
  (exists dt, strptime_Ymd date = Ok dt) ->
  Z.of_nat (String.length note) <= Config.MAX_NOTE_LENGTH ->
  writable d = true ->
  let new_id := py_max_default (map e_id (DataManager.load_data d)) 0 + 1 in
  exists d',
    DataManager.add_expense amount category date note username d
    = ((true, "Expense added successfully (ID: " ++ str_of_Z new_id ++ ")",
        Some new_id), d')
    /\ DataManager.load_data d'
       = (DataManager.load_data d
          ++ [Expense new_id amount category date note (Some username)])%list
    /\ List.length (DataManager.load_data d')
       = S (List.length (DataManager.load_data d))
    /\ (forall e, In e (DataManager.load_data d) -> e_id e < new_id).
Proof.
  intros [Hlo Hhi] Hcat [dt Hdate] Hnote Hw new_id.
  unfold DataManager.add_expense.
  apply Z.leb_le in Hlo, Hhi. rewrite Hlo, Hhi. cbn [negb andb].
  apply existsb_eqb_In in Hcat. rewrite Hcat. cbn [negb].
  rewrite Hdate.
  destruct (Z.gtb_spec (Z.of_nat (String.length note)) Config.MAX_NOTE_LENGTH) as [Hgt|_];
    [lia|].
  unfold DataManager.save_data. rewrite Hw.
  eexists. split; [reflexivity|].
  split; [reflexivity|].
  split.
  - unfold DataManager.load_data at 1. cbn [expenses_json].
    rewrite length_app. simpl. lia.
  - intros e Hin. unfold new_id.
    pose proof (py_max_default_ge (map e_id (DataManager.load_data d)) 0 (e_id e)
                                  (in_map e_id _ _ Hin)).
    lia.
Qed.

Lemma add_expense_appends_fresh_id_witness :
  exists d',
    DataManager.add_expense 500 "Food" "2024-01-15" "lunch" "alice"
      (Disk (Some [Expense 4 100 "Other" "2024-01-01" "" None]) true)
    = ((true, "Expense added successfully (ID: 5)", Some 5), d')
    /\ DataManager.load_data d'
       = [Expense 4 100 "Other" "2024-01-01" "" None;
          Expense 5 500 "Food" "2024-01-15" "lunch" (Some "alice")]
    /\ List.length (DataManager.load_data d') = 2%nat
    /\ (forall e, In e [Expense 4 100 "Other" "2024-01-01" "" None] -> e_id e < 5).
Proof.
  apply (add_expense_appends_fresh_id 500 "Food" "2024-01-15" "lunch" "alice"
           (Disk (Some [Expense 4 100 "Other" "2024-01-01" "" None]) true)).
  - unfold Config.MIN_EXPENSE_AMOUNT, Config.MAX_EXPENSE_AMOUNT. lia.
  - simpl. tauto.
  - eexists. vm_compute. reflexivity.
  - vm_compute. discriminate.
  - reflexivity.
Defined.

(** C2: deleting an id that no record carries fails with the "not found"
    message, which is not the message of a failed save, and leaves the store
    as it was; deleting an id that some record carries removes the records
    of that id, one record when ids are distinct, and keeps every other
    record, in order. *)
Theorem delete_expense_by_id (expense_id : Z) (d : disk) :
  ((forall e, In e (DataManager.load_data d) -> e_id e <> expense_id) ->
   DataManager.delete_expense expense_id d
   = ((false, "Expense with ID " ++ str_of_Z expense_id ++ " not found"), d)
   /\ "Expense with ID " ++ str_of_Z expense_id ++ " not found"
      <> "Failed to delete expense")
  /\ ((exists e, In e (DataManager.load_data d) /\ e_id e = expense_id) ->
      writable d = true ->
      exists d',
        DataManager.delete_expense expense_id d
        = ((true, "Expense " ++ str_of_Z expense_id ++ " deleted successfully"), d')
        /\ DataManager.load_data d'
           = filter (fun e => negb (e_id e =? expense_id)) (DataManager.load_data d)
        /\ (forall e, In e (DataManager.load_data d')
                      <-> In e (DataManager.load_data d) /\ e_id e <> expense_id)
        /\ (NoDup (map e_id (DataManager.load_data d)) ->
            S (List.length (DataManager.load_data d'))
            = List.length (DataManager.load_data d))).
Proof.
  split.
  - intros Hnone. split; [|simpl; discriminate].
    unfold DataManager.delete_expense.
    rewrite filter_id_all.
    + now rewrite Nat.eqb_refl.
    + intros e He. apply negb_true_iff, Z.eqb_neq. now apply Hnone.
  - intros [e [Hin He]] Hw.
    unfold DataManager.delete_expense.
    assert (Hlt : Nat.lt (List.length (filter (fun e0 => negb (e_id e0 =? expense_id))
                                              (DataManager.load_data d)))
                         (List.length (DataManager.load_data d))).
    { apply (filter_drops_some _ _ e Hin).
      apply negb_false_iff, Z.eqb_eq, He. }
    destruct (Nat.eqb_spec
                (List.length (filter (fun e0 => negb (e_id e0 =? expense_id))
                                     (DataManager.load_data d)))
                (List.length (DataManager.load_data d))) as [Heq | _]; [lia|].
    unfold DataManager.save_data. rewrite Hw.
    eexists. split; [reflexivity|].
    split; [reflexivity|].
    split.
    + intros e'. unfold DataManager.load_data at 1. cbn [expenses_json].
      rewrite filter_In, negb_true_iff, Z.eqb_neq. reflexivity.
    + intros Hnd. unfold DataManager.load_data at 1. cbn [expenses_json].
      apply filter_unique_id_length; [assumption|]. now exists e.
Qed.

Lemma delete_expense_by_id_witness :
  (DataManager.delete_expense 7
     (Disk (Some [Expense 1 500 "Food" "2024-01-15" "lunch" None;
                  Expense 2 80 "Transport" "2024-01-16" "bus" None]) true)
   = ((false, "Expense with ID 7 not found"),
      Disk (Some [Expense 1 500 "Food" "2024-01-15" "lunch" None;
                  Expense 2 80 "Transport" "2024-01-16" "bus" None]) true))
  /\ exists d',
       DataManager.delete_expense 1
         (Disk (Some [Expense 1 500 "Food" "2024-01-15" "lunch" None;
                      Expense 2 80 "Transport" "2024-01-16" "bus" None]) true)
       = ((true, "Expense 1 deleted successfully"), d')
       /\ DataManager.load_data d' = [Expense 2 80 "Transport" "2024-01-16" "bus" None].
Proof.
  split.
  - apply (proj1 (delete_expense_by_id 7
       (Disk (Some [Expense 1 500 "Food" "2024-01-15" "lunch" None;
                    Expense 2 80 "Transport" "2024-01-16" "bus" None]) true))).
    simpl. intros e [<- | [<- | []]]; simpl; lia.
  - destruct (proj2 (delete_expense_by_id 1
       (Disk (Some [Expense 1 500 "Food" "2024-01-15" "lunch" None;
                    Expense 2 80 "Transport" "2024-01-16" "bus" None]) true)))
      as [d' [H1 [H2 _]]].
    + exists (Expense 1 500 "Food" "2024-01-15" "lunch" None). simpl. auto.
    + reflexivity.
    + exists d'. split; [exact H1 | exact H2].
Defined.

(** A failed save reports its own message and leaves the store as it was. *)
Lemma delete_expense_save_failure (expense_id : Z) (d : disk) :
  (exists e, In e (DataManager.load_data d) /\ e_id e = expense_id) ->
  writable d = false ->
  DataManager.delete_expense expense_id d = ((false, "Failed to delete expense"), d).
Proof.
  intros [e [Hin He]] Hw. unfold DataManager.delete_expense.
  assert (Hlt : Nat.lt (List.length (filter (fun e0 => negb (e_id e0 =? expense_id))
                                            (DataManager.load_data d)))
                       (List.length (DataManager.load_data d))).
  { apply (filter_drops_some _ _ e Hin). apply negb_false_iff, Z.eqb_eq, He. }
  destruct (Nat.eqb_spec
              (List.length (filter (fun e0 => negb (e_id e0 =? expense_id))
                                   (DataManager.load_data d)))
              (List.length (DataManager.load_data d))) as [Heq | _]; [lia|].
  unfold DataManager.save_data. now rewrite Hw.
Qed.

(* ===================================================================== *)
(** ** Store invariants under add, delete and import *)
(* ===================================================================== *)

(** Dropping records keeps the ids distinct. *)
Lemma filter_keeps_ids_distinct (keep : expense -> bool) (data : list expense) :
  NoDup (map e_id data) -> NoDup (map e_id (filter keep data)).
Proof.
  induction data as [|e data IH]; simpl; intros Hnd; [constructor|].
  inversion Hnd as [|? ? Hfresh Hnd']; subst.
  destruct (keep e); simpl; [|now apply IH].
  constructor; [|now apply IH].
  intros Hin. apply Hfresh. apply in_map_iff in Hin as [x [Hx Hin]].
  apply filter_In in Hin as [Hin _]. rewrite <- Hx. now apply in_map.
Qed.

Lemma NoDup_map_snoc (data : list expense) (e : expense) :
  NoDup (map e_id data) ->
  (forall x, In x data -> e_id x < e_id e) ->
  NoDup (map e_id (data ++ [e])).
Proof.
  intros Hnd Hlt. rewrite map_app. simpl.
  apply NoDup_app; [assumption | constructor; [intros [] | constructor] |].
  intros a Hin [Ha | []]. apply in_map_iff in Hin as [x [Hx Hin]].
  specialize (Hlt x Hin). lia.
Qed.

(** [delete_expense] keeps the invariants of the store. *)
Lemma delete_expense_preserves_invariant (expense_id : Z) (d : disk) :
  store_invariant (DataManager.load_data d) ->
  store_invariant (DataManager.load_data (snd (DataManager.delete_expense expense_id d))).
Proof.
  intros [Hnd Hall]. unfold DataManager.delete_expense.
  destruct (Nat.eqb _ _); [split; assumption|].
  unfold DataManager.save_data.
  destruct (writable d) eqn:Hw; [|split; assumption].
  unfold DataManager.load_data at 1. cbn [snd expenses_json]. split.
  - now apply filter_keeps_ids_distinct.
  - apply Forall_forall. intros e He. apply filter_In in He as [He _].
    rewrite Forall_forall in Hall. now apply Hall.
Qed.

(** [add_expense] keeps the invariants of the store: it validates the
    amount, the category and the date before it writes. *)
Lemma add_expense_preserves_invariant
      (amount : Z) (category date note username : string) (d : disk) :
  store_invariant (DataManager.load_data d) ->
  store_invariant
    (DataManager.load_data
       (snd (DataManager.add_expense amount category date note username d))).
Proof.
  intros [Hnd Hall]. unfold DataManager.add_expense.
  destruct (andb _ _) eqn:Hamount; cbn [negb]; [|split; assumption].
  destruct (existsb _ _) eqn:Hcat; cbn [negb]; [|split; assumption].
  destruct (strptime_Ymd date) as [dt|] eqn:Hdate; [|split; assumption].
  destruct (_ >? _); [split; assumption|].
  unfold DataManager.save_data.
  destruct (writable d) eqn:Hw; [|split; assumption].
  unfold DataManager.load_data at 1. cbn [snd expenses_json]. split.
  - apply NoDup_map_snoc; [assumption|].
    intros x Hx. cbn [e_id].
    pose proof (py_max_default_ge (map e_id (DataManager.load_data d)) 0 (e_id x)
                                  (in_map e_id _ _ Hx)).
    lia.
  - apply Forall_app. split; [assumption|].
    constructor; [|constructor].
    unfold valid_record. cbn [e_amount e_category e_date].
    now rewrite Hamount, Hcat, Hdate.
Qed.

(** What the import loop appends: records without owner, numbered from
    [next_id] upwards, one per counted row. *)
Lemma import_rows_appends (rs : list csv_row) :
  forall (existing_data : list expense) (next_id imported_count : Z)
         (data : list expense) (n : Z),
    DataManager.import_rows rs existing_data next_id imported_count = Ok (data, n) ->
    exists imported,
      data = (existing_data ++ imported)%list
      /\ len imported = n - imported_count
      /\ Forall (fun e => e_username e = None) imported
      /\ map e_id imported
         = map (fun k => next_id + Z.of_nat k) (seq 0 (List.length imported)).
Proof.
  induction rs as [|r rs IH]; intros existing_data next_id imported_count data n; simpl.
  - intros Heq. injection Heq as <- <-. exists []. rewrite app_nil_r.
    repeat split; [unfold len; simpl; lia | constructor].
  - destruct (row_amount r) as [a| | |]; [| apply IH | apply IH | discriminate].
    intros Hrec. apply IH in Hrec as [imported [Hdata [Hlen [Hnone Hids]]]].
    eexists (_ :: imported). split; [|split; [|split]].
    + rewrite Hdata, <- app_assoc. reflexivity.
    + unfold len in *. simpl List.length. lia.
    + constructor; [reflexivity | assumption].
    + simpl. f_equal; [f_equal; lia|].
      rewrite Hids, <- seq_shift, map_map.
      apply map_ext. intros k. lia.
Qed.

(** A successful import is a run of the loop followed by a save. *)
Lemma import_from_csv_success (src : csv_source) (d d' : disk) (msg : string) (n : Z) :
  DataManager.import_from_csv src d = ((true, msg, n), d') ->
  exists frame data,
    read_csv src = Ok frame
    /\ DataManager.import_rows (rows frame) (DataManager.load_data d)
         (py_max_default (map e_id (DataManager.load_data d)) 0 + 1) 0 = Ok (data, n)
    /\ DataManager.load_data d' = data.
Proof.
  unfold DataManager.import_from_csv.
  destruct (csv_exists src); cbn [negb]; [|discriminate].
  destruct (csv_is_file src); cbn [negb]; [|discriminate].
  destruct (lower (csv_suffix src) =? ".csv")%string; cbn [negb]; [|discriminate].
  destruct (read_csv src) as [frame|e].
  2:{ destruct (issubclass (exn_class e) EmptyDataError); [discriminate|].
      destruct (issubclass (exn_class e) ParserError); [discriminate|].
      destruct (issubclass (exn_class e) OSError); discriminate. }
  destruct (forallb _ _); cbn [negb]; [|discriminate].
  destruct (DataManager.import_rows _ _ _ _) as [[data cnt]|e] eqn:Hrows; [|discriminate].
  unfold DataManager.save_data.
  destruct (writable d); [|discriminate].
  intros Heq. injection Heq as _ <- <-.
  exists frame, data. repeat split. exact Hrows.
Qed.

(** The import numbers its records above every id of the store, so ids stay
    distinct. *)
Lemma import_from_csv_preserves_unique_ids
      (src : csv_source) (d d' : disk) (msg : string) (n : Z) :
  DataManager.import_from_csv src d = ((true, msg, n), d') ->
  NoDup (map e_id (DataManager.load_data d)) ->
  NoDup (map e_id (DataManager.load_data d')).
Proof.
  intros Himp Hnd.
  apply import_from_csv_success in Himp as [frame [data [_ [Hrows <-]]]].
  apply import_rows_appends in Hrows as [imported [-> [_ [_ Hids]]]].
  rewrite map_app, Hids.
  set (m := py_max_default (map e_id (DataManager.load_data d)) 0).
  apply NoDup_app; [assumption | |].
  - clear Hids. generalize 0%nat as k0.
    induction (List.length imported) as [|j IHj]; intros k0; simpl.
    + constructor.
    + constructor; [|apply IHj].
      intros Hin. apply in_map_iff in Hin as [k [Hk Hin]].
      apply in_seq in Hin. lia.
  - intros x Hx Hin. apply in_map_iff in Hin as [k [Hk _]].
    pose proof (py_max_default_ge _ 0 x Hx) as Hle. fold m in Hle. lia.
Qed.

(** C9: the import writes rows as they come, without the checks
    [add_expense] makes: a store that satisfies the record invariants no
    longer does after importing a row with a negative amount, an unknown
    category and a text that is no date. *)
Theorem import_from_csv_breaks_record_invariants :
  let d := Disk (Some [Expense 1 500 "Food" "2024-01-15" "lunch" (Some "alice")]) true in
  let src :=
    CsvSource "bank.csv" true true ".csv"
      (Ok (CsvFrame ["amount"; "category"; "date"]
                    [CsvRow (IntOk (-5)) "Bogus" "yesterday" None])) in
  store_invariant (DataManager.load_data d)
  /\ exists d',
       DataManager.import_from_csv src d
       = ((true, "Imported 1 expenses successfully", 1), d')
       /\ DataManager.load_data d'
          = [Expense 1 500 "Food" "2024-01-15" "lunch" (Some "alice");
             Expense 2 (-5) "Bogus" "yesterday" "" None]
       /\ ~ store_invariant (DataManager.load_data d').
Proof.
  cbv zeta. split.
  - split.
    + simpl. constructor; [intros [] | constructor].
    + constructor; [vm_compute; reflexivity | constructor].
  - eexists. split; [vm_compute; reflexivity|].
    split; [reflexivity|].
    intros [_ Hall]. cbn in Hall.
    inversion Hall as [|? ? _ Hrest]; subst.
    inversion Hrest as [|? ? Hbad _]; subst.
    vm_compute in Hbad. discriminate.
Qed.

(* ===================================================================== *)
(** ** The table view and the owner filter *)
(* ===================================================================== *)

Section TableView.
Context `{Pandas}.

Lemma load_dataframe_unfold (d : disk) (username : string) :
  DataManager.load_dataframe d username
  = table_of_records
      (if (username =? "")%string then DataManager.load_data d
       else filter (fun e => (DataManager.get_username e =? username)%string)
                   (DataManager.load_data d)).
Proof.
  reflexivity.
Qed.

Lemma make_rows_spec (data : list expense) :
  forall stamps, List.length stamps = List.length data ->
    Forall2 row_of data
            (map (fun p => DataManager.make_row (fst p) (snd p)) (combine data stamps))
    /\ stamps_of (map (fun p => DataManager.make_row (fst p) (snd p))
                      (combine data stamps)) = stamps.
Proof.
  induction data as [|e data IH]; intros [|[dt ns] stamps] Hlen;
    try discriminate Hlen; cbn [combine map stamps_of].
  - split; [constructor|reflexivity].
  - injection Hlen as Hlen. destruct (IH stamps Hlen) as [Hrows Hstamps].
    split.
    + constructor; [|exact Hrows]. unfold row_of. cbn. repeat split.
    + cbn. f_equal. exact Hstamps.
Qed.

(** The table has a row for every selected record, with its fields; its
    date column is the converted column of their dates. *)
Lemma table_of_records_spec (data : list expense) (df : DataFrame) :
  table_of_records data = Ok df ->
  Forall2 row_of data df
  /\ (data <> [] -> to_datetime_column (map e_date data) = Ok (stamps_of df))
  /\ Forall (fun r => valid_instant (r_date r) (r_time r) = true) df.
Proof.
  unfold table_of_records. destruct data as [|e data].
  - intros Heq. injection Heq as <-. repeat split; [constructor|congruence|constructor].
  - destruct (to_datetime_column (map e_date (e :: data))) as [stamps|] eqn:Hcol;
      cbn [bind]; [|discriminate].
    intros Heq. injection Heq as <-.
    pose proof (to_datetime_column_length _ _ Hcol) as Hlen. rewrite length_map in Hlen.
    destruct (make_rows_spec (e :: data) stamps Hlen) as [Hrows Hstamps].
    split; [exact Hrows|]. split; [intros _; f_equal; symmetry; exact Hstamps|].
    pose proof (to_datetime_column_valid _ _ Hcol) as Hvalid.
    rewrite <- Hstamps in Hvalid. unfold stamps_of in Hvalid.
    rewrite Forall_map in Hvalid. exact Hvalid.
Qed.

Lemma load_dataframe_rows (d : disk) (df : DataFrame) :
  DataManager.load_dataframe d "" = Ok df ->
  Forall2 row_of (DataManager.load_data d) df.
Proof.
  rewrite load_dataframe_unfold. cbn [String.eqb]. intros Hdf.
  exact (proj1 (table_of_records_spec _ _ Hdf)).
Qed.

Lemma load_dataframe_valid (d : disk) (df : DataFrame) :
  DataManager.load_dataframe d "" = Ok df ->
  Forall (fun r => valid_instant (r_date r) (r_time r) = true) df.
Proof.
  rewrite load_dataframe_unfold. cbn [String.eqb]. intros Hdf.
  exact (proj2 (proj2 (table_of_records_spec _ _ Hdf))).
Qed.

Lemma Forall2_row_of_length (data : list expense) (df : DataFrame) :
  Forall2 row_of data df -> List.length df = List.length data.
Proof.
  induction 1; simpl; congruence.
Qed.


End TableView.


(* ===================================================================== *)
(** ** Sums of the amount column *)
(* ===================================================================== *)

Lemma wrap64_small (z : Z) : - 2 ^ 63 <= z < 2 ^ 63 -> wrap64 z = z.
Proof.
  intros Hz. unfold wrap64. rewrite Z.mod_small; lia.
Qed.

Lemma float_of_int_small (z : Z) : Z.abs z <= 2 ^ 53 -> float_of_int z = inject_Z z.
Proof.
  intros Hz. unfold float_of_int.
  destruct (Z.leb_spec (Z.abs z) (2 ^ 53)) as [_ | Hgt]; [reflexivity | lia].
Qed.

Lemma sumZ_abs (l : list Z) : Z.abs (sumZ l) <= sumZ (map Z.abs l).
Proof.
  induction l as [|a l IH]; cbn [sumZ fold_right map]; [lia|].
  fold (sumZ l). fold (sumZ (map Z.abs l)). lia.
Qed.

Lemma sumZ_abs_nonneg (l : list Z) : 0 <= sumZ (map Z.abs l).
Proof.
  induction l as [|a l IH]; cbn [sumZ fold_right map]; [lia|].
  fold (sumZ (map Z.abs l)). lia.
Qed.

Lemma sumZ_abs_filter (p : row -> bool) (df : DataFrame) :
  sumZ (map Z.abs (amounts (filter p df))) <= sumZ (map Z.abs (amounts df)).
Proof.
  induction df as [|r df IH]; cbn [filter amounts map sumZ fold_right]; [lia|].
  fold (amounts df). fold (sumZ (map Z.abs (amounts df))).
  destruct (p r); cbn [amounts map sumZ fold_right];
    fold (amounts (filter p df)); fold (sumZ (map Z.abs (amounts (filter p df)))); lia.
Qed.

(** The sum of the selected rows, row by row. *)
Lemma sumZ_filter_indicator (p : row -> bool) (df : DataFrame) :
  sumZ (amounts (filter p df)) = sumZ (map (fun r => if p r then r_amount r else 0) df).
Proof.
  induction df as [|r df IH]; cbn [filter amounts map sumZ fold_right]; [reflexivity|].
  fold (sumZ (map (fun r => if p r then r_amount r else 0) df)). rewrite <- IH.
  destruct (p r); cbn [amounts map sumZ fold_right]; reflexivity.
Qed.

(** With small amounts, the sum of any selection of rows is the same in
    64-bit integers, in doubles and in exact arithmetic. *)
Lemma sum64_filter_exact (p : row -> bool) (df : DataFrame) :
  exact_sums df ->
  sum64 (amounts (filter p df)) = sumZ (amounts (filter p df))
  /\ Z.abs (sumZ (amounts (filter p df))) < 2 ^ 53.
Proof.
  unfold exact_sums. intros Hsmall.
  pose proof (sumZ_abs (amounts (filter p df))) as Habs.
  pose proof (sumZ_abs_filter p df) as Hsub.
  split; [|lia]. unfold sum64. apply wrap64_small. lia.
Qed.

Lemma float_sum64_filter_exact (p : row -> bool) (df : DataFrame) :
  exact_sums df ->
  float_of_int (sum64 (amounts (filter p df))) = inject_Z (sumZ (amounts (filter p df))).
Proof.
  intros Hsmall. destruct (sum64_filter_exact p df Hsmall) as [-> Hlt].
  apply float_of_int_small. lia.
Qed.

Lemma exact_sums_filter (p : row -> bool) (df : DataFrame) :
  exact_sums df -> exact_sums (filter p df).
Proof.
  unfold exact_sums. pose proof (sumZ_abs_filter p df). lia.
Qed.

Lemma filter_filter_andb {A : Type} (p q : A -> bool) (l : list A) :
  filter p (filter q l) = filter (fun a => andb (p a) (q a)) l.
Proof.
  induction l as [|a l IH]; cbn [filter]; [reflexivity|].
  destruct (q a); cbn [filter]; destruct (p a); cbn [andb]; now rewrite IH.
Qed.

(* ===================================================================== *)
(** ** Budget alerts *)
(* ===================================================================== *)

Lemma budget_percentage_spec (spend budget : Q) :
  Analytics.budget_percentage spend budget = percentage_of_budget spend budget.
Proof.
  unfold Analytics.budget_percentage, percentage_of_budget, Qltb.
  now destruct (Qle_bool budget 0).
Qed.

(** The spend the loop of [budget_alert] computes for a category. *)
Lemma month_spending_exact (now : datetime) (df : DataFrame) (category : string) :
  exact_sums df ->
  float_of_int
    (sum64 (amounts
              (with_category category
                 (filter (fun r => andb (year (r_date r) =? year (dt_date now))
                                        (month (r_date r) =? month (dt_date now))) df))))
  = inject_Z (current_month_spend now df category).
Proof.
  intros Hsmall. unfold with_category. rewrite filter_filter_andb.
  rewrite (float_sum64_filter_exact _ df Hsmall). f_equal.
  apply sumZ_filter_indicator.
Qed.

Lemma len_snoc {A : Type} (l : list A) (a : A) : len (l ++ [a]) = len l + 1.
Proof. unfold len. rewrite length_app. simpl. lia. Qed.

Lemma len_cons {A : Type} (l : list A) (a : A) : len (a :: l) = len l + 1.
Proof. unfold len. simpl List.length. lia. Qed.

(** What the loop of [budget_alert] adds to its running state. *)
Lemma budget_loop (now : datetime) (df : DataFrame) (budgets : list (string * Q)) :
  exact_sums df ->
  forall st,
  let st' :=
    fold_left (Analytics.budget_step
                 (filter (fun r => andb (year (r_date r) =? year (dt_date now))
                                        (month (r_date r) =? month (dt_date now))) df))
              budgets st in
  exists new_alerts,
    Analytics.alerts st' = (Analytics.alerts st ++ new_alerts)%list
    /\ Forall2 (alert_for now df)
               (filter (fun item => negb (budget_class now df item =? "on_track")%string)
                       budgets)
               new_alerts
    /\ Analytics.on_track st'
       = Analytics.on_track st + len (lines_of_class now df "on_track" budgets)
    /\ Analytics.warning st'
       = Analytics.warning st + len (lines_of_class now df "warning" budgets)
    /\ Analytics.critical st'
       = Analytics.critical st + len (lines_of_class now df "critical" budgets).
Proof.
  intros Hsmall.
  induction budgets as [|[category budget] budgets IH]; intros st; cbn zeta.
  - exists []. rewrite app_nil_r. unfold lines_of_class, len. simpl.
    repeat split; [constructor | lia | lia | lia].
  - cbn [fold_left].
    destruct (IH (Analytics.budget_step
                    (filter (fun r => andb (year (r_date r) =? year (dt_date now))
                                           (month (r_date r) =? month (dt_date now))) df)
                    st (category, budget)))
      as [rest [Ha [Hf [Ho [Hw Hc]]]]].
    rewrite Ha, Ho, Hw, Hc. clear Ha Ho Hw Hc IH.
    set (spending := inject_Z (current_month_spend now df category)).
    set (p := percentage_of_budget spending budget).
    assert (Hcls : budget_class now df (category, budget) = spec_status p) by reflexivity.
    unfold lines_of_class. cbn [filter]. rewrite !Hcls.
    unfold Analytics.budget_step.
    rewrite (month_spending_exact now df category Hsmall), budget_percentage_spec.
    fold spending. fold p.
    unfold spec_status.
    destruct (Qle_bool 100 p) eqn:H100; [|destruct (Qle_bool 80 p) eqn:H80].
    + change ("critical" =? "on_track")%string with false.
      change ("critical" =? "warning")%string with false.
      change ("critical" =? "critical")%string with true.
      cbn [negb Analytics.alerts Analytics.on_track Analytics.warning Analytics.critical].
      eexists (_ :: rest). rewrite <- app_assoc. cbn [app].
      split; [reflexivity|]. rewrite len_cons.
      split; [|split; [lia | split; lia]].
      constructor; [|exact Hf].
      unfold alert_for. cbn [a_category a_budget a_spending a_percentage a_status fst snd].
      fold spending. fold p. unfold spec_status. rewrite H100. repeat split.
    + change ("warning" =? "on_track")%string with false.
      change ("warning" =? "warning")%string with true.
      change ("warning" =? "critical")%string with false.
      cbn [negb Analytics.alerts Analytics.on_track Analytics.warning Analytics.critical].
      eexists (_ :: rest). rewrite <- app_assoc. cbn [app].
      split; [reflexivity|]. rewrite len_cons.
      split; [|split; [lia | split; lia]].
      constructor; [|exact Hf].
      unfold alert_for. cbn [a_category a_budget a_spending a_percentage a_status fst snd].
      fold spending. fold p. unfold spec_status. rewrite H100, H80. repeat split.
    + change ("on_track" =? "on_track")%string with true.
      change ("on_track" =? "warning")%string with false.
      change ("on_track" =? "critical")%string with false.
      cbn [negb Analytics.alerts Analytics.on_track Analytics.warning Analytics.critical].
      exists rest. rewrite len_cons.
      split; [reflexivity|]. split; [exact Hf|]. split; [lia | split; lia].
Qed.

Lemma month_name_defined (m : Z) :
  1 <= m <= 12 -> exists name, py_getitem Config.MONTHS_ABBREVIATION (m - 1) = Ok name.
Proof.
  intros Hm.
  assert (Hcases : m = 1 \/ m = 2 \/ m = 3 \/ m = 4 \/ m = 5 \/ m = 6 \/ m = 7
                   \/ m = 8 \/ m = 9 \/ m = 10 \/ m = 11 \/ m = 12) by lia.
  repeat (destruct Hcases as [-> | Hcases]; [eexists; vm_compute; reflexivity|]).
  subst. eexists. vm_compute. reflexivity.
Qed.

Lemma valid_date_month (d : date) : valid_date d = true -> 1 <= month d <= 12.
Proof.
  unfold valid_date. rewrite !andb_true_iff, !Z.leb_le. tauto.
Qed.

Lemma valid_date_day (d : date) :
  valid_date d = true -> 1 <= day d <= days_in_month (year d) (month d).
Proof.
  unfold valid_date. rewrite !andb_true_iff, !Z.leb_le. tauto.
Qed.

(** C3, as the code has it: for every budget mapping and every table whose amounts are
    small enough for its sums to be exact, [budget_alert] lists one entry per
    budget line whose class is not on_track, in the order of the lines, each
    with the spend of its category in the calendar month of the clock, the
    percentage [spend / budget * 100] of doubles when the budget is positive
    and 0 otherwise, and the class of that percentage (at least 100:
    critical; from 80 up to 100: warning); the three counts are the numbers
    of lines of each class. On an empty store there is no entry, no warning,
    no critical and [on_track_count = total_categories]. With budgets
    [{"Food": 1000}] and a month's Food spend of 850 the only entry is a
    warning at 85 percent. *)
Theorem budget_alert_classifies `{Pandas}
        (d : disk) (budgets : list (string * Q)) (now : datetime) (df : DataFrame) :
  DataManager.load_dataframe d "" = Ok df ->
  valid_date (dt_date now) = true ->
  exact_sums df ->
  exists r,
    Analytics.budget_alert d (Some budgets) now = Ok r
    /\ total_categories r = len budgets
    /\ (df = [] ->
        br_alerts r = [] /\ warning_count r = 0 /\ critical_count r = 0
        /\ on_track_count r = total_categories r)
    /\ (df <> [] ->
        Forall2 (alert_for now df)
                (filter (fun item => negb (budget_class now df item =? "on_track")%string)
                        budgets)
                (br_alerts r)
        /\ on_track_count r = len (lines_of_class now df "on_track" budgets)
        /\ warning_count r = len (lines_of_class now df "warning" budgets)
        /\ critical_count r = len (lines_of_class now df "critical" budgets))
    /\ (budgets = [("Food", 1000 # 1)] ->
        current_month_spend now df "Food" = 850 ->
        exists a,
          br_alerts r = [a] /\ a_category a = "Food" /\ a_status a = "warning"
          /\ (a_percentage a == 85 # 1)%Q
          /\ warning_count r = 1 /\ critical_count r = 0).
Proof.
  intros Hload Hnow Hsmall.
  unfold Analytics.budget_alert. rewrite Hload. cbn [bind].
  destruct df as [|r0 df0].
  - eexists. split; [reflexivity|].
    cbn [total_categories br_alerts on_track_count warning_count critical_count].
    split; [reflexivity|].
    split; [intros _; repeat split|].
    split; [intros Hne; now contradiction Hne|].
    intros _ Hspend. discriminate Hspend.
  - destruct (month_name_defined _ (valid_date_month _ Hnow)) as [name Hname].
    rewrite Hname. cbn [bind].
    destruct (budget_loop now (r0 :: df0) budgets Hsmall
                {| Analytics.alerts := []; Analytics.on_track := 0;
                   Analytics.warning := 0; Analytics.critical := 0 |})
      as [new_alerts [Ha [Hf [Ho [Hw Hc]]]]].
    cbn zeta in Ha, Ho, Hw, Hc.
    cbn [Analytics.alerts Analytics.on_track Analytics.warning Analytics.critical app]
      in Ha, Ho, Hw, Hc.
    eexists. split; [reflexivity|].
    cbn [total_categories br_alerts on_track_count warning_count critical_count].
    rewrite Ha, Ho, Hw, Hc.
    split; [reflexivity|]. split; [discriminate|].
    split; [intros _; split; [exact Hf | split; [lia | split; lia]]|].
    intros -> Hspend.
    unfold lines_of_class in *. cbn [filter] in Hf |- *.
    unfold budget_class in Hf |- *. cbn [fst snd] in Hf |- *.
    rewrite Hspend in Hf |- *.
    change (spec_status (percentage_of_budget (inject_Z 850) (1000 # 1)))
      with "warning" in Hf |- *.
    cbn in Hf |- *.
    inversion Hf as [|item a l l' Hfor Hnil]; subst.
    inversion Hnil; subst.
    destruct Hfor as [Hcat [Hbud [Hsp [Hpc Hst]]]]. cbn [fst snd] in *.
    exists a. split; [reflexivity|]. split; [exact Hcat|].
    rewrite Hspend in Hsp. rewrite Hsp, Hbud in Hpc. rewrite Hpc in Hst.
    split; [exact Hst|]. split; [rewrite Hpc; vm_compute; reflexivity|].
    split; reflexivity.
Qed.

Lemma budget_alert_classifies_witness :
  exists r a,
    Analytics.budget_alert
      (Disk (Some [Expense 1 500 "Food" "2024-01-15" "lunch" (Some "alice");
                   Expense 2 400 "Transport" "2024-01-16" "taxi" (Some "alice");
                   Expense 3 350 "Food" "2024-01-18" "dinner" (Some "alice");
                   Expense 4 900 "Food" "2023-12-30" "party" (Some "alice");
                   Expense 5 700 "Health" "2023-01-10" "clinic" (Some "alice")]) true)
      (Some [("Food", 1000 # 1); ("Transport", 2000 # 1); ("Health", 500 # 1)])
      (DateTime (Date 2024 1 20) 43200000000)
    = Ok r
    /\ br_alerts r = [a] /\ a_category a = "Food" /\ a_status a = "warning"
    /\ a_spending a = 850 # 1 /\ a_percentage a = 85 # 1
    /\ a_message a = "Food at 85.0% of budget"
    /\ on_track_count r = 2 /\ warning_count r = 1 /\ critical_count r = 0.
Proof.
  destruct (budget_alert_classifies
              (Disk (Some [Expense 1 500 "Food" "2024-01-15" "lunch" (Some "alice");
                           Expense 2 400 "Transport" "2024-01-16" "taxi" (Some "alice");
                           Expense 3 350 "Food" "2024-01-18" "dinner" (Some "alice");
                           Expense 4 900 "Food" "2023-12-30" "party" (Some "alice");
                           Expense 5 700 "Health" "2023-01-10" "clinic" (Some "alice")]) true)
              [("Food", 1000 # 1); ("Transport", 2000 # 1); ("Health", 500 # 1)]
              (DateTime (Date 2024 1 20) 43200000000)
              [Row 1 500 "Food" (Date 2024 1 15) 0 "lunch" (Some "alice");
               Row 2 400 "Transport" (Date 2024 1 16) 0 "taxi" (Some "alice");
               Row 3 350 "Food" (Date 2024 1 18) 0 "dinner" (Some "alice");
               Row 4 900 "Food" (Date 2023 12 30) 0 "party" (Some "alice");
               Row 5 700 "Health" (Date 2023 1 10) 0 "clinic" (Some "alice")])
    as [r [Hr [_ [_ [Hrows _]]]]].
  - vm_compute. reflexivity.
  - reflexivity.
  - vm_compute. reflexivity.
  - destruct (Hrows ltac:(discriminate)) as [Hf [Ho [Hw Hc]]].
    assert (Hrun : Analytics.budget_alert
                     (Disk (Some [Expense 1 500 "Food" "2024-01-15" "lunch" (Some "alice");
                                  Expense 2 400 "Transport" "2024-01-16" "taxi" (Some "alice");
                                  Expense 3 350 "Food" "2024-01-18" "dinner" (Some "alice");
                                  Expense 4 900 "Food" "2023-12-30" "party" (Some "alice");
                                  Expense 5 700 "Health" "2023-01-10" "clinic" (Some "alice")])
                           true)
                     (Some [("Food", 1000 # 1); ("Transport", 2000 # 1); ("Health", 500 # 1)])
                     (DateTime (Date 2024 1 20) 43200000000) = Ok r) by exact Hr.
    vm_compute in Hrun. injection Hrun as <-.
    eexists. eexists. split; [exact Hr|]. repeat split.
Defined.

(** C3 as stated fails for a negative limit: with a Food limit of -1000 and
    a month's Food spend of -850 (a refund, as the CSV import stores it), the
    percentage [spend / budget * 100] is 85, a warning; the limit not being
    positive, [budget_alert] takes the percentage to be 0, lists no entry and
    counts the line on track. *)
Lemma budget_alert_negative_limit :
  exists df r,
    DataManager.load_dataframe
      (Disk (Some [Expense 1 (-850) "Food" "2024-01-15" "refund" None]) true) "" = Ok df
    /\ current_month_spend (DateTime (Date 2024 1 20) 0) df "Food" = -850
    /\ spec_percentage (inject_Z (-850)) (-1000 # 1) = 85 # 1
    /\ spec_status (spec_percentage (inject_Z (-850)) (-1000 # 1)) = "warning"
    /\ Analytics.budget_alert
         (Disk (Some [Expense 1 (-850) "Food" "2024-01-15" "refund" None]) true)
         (Some [("Food", -1000 # 1)]) (DateTime (Date 2024 1 20) 0) = Ok r
    /\ br_alerts r = [] /\ warning_count r = 0 /\ on_track_count r = 1.
Proof.
  eexists. eexists. split; [vm_compute; reflexivity|].
  split; [vm_compute; reflexivity|].
  split; [vm_compute; reflexivity|].
  split; [vm_compute; reflexivity|].
  split; [vm_compute; reflexivity|].
  repeat split.
Qed.

(* ===================================================================== *)
(** ** Trend detection *)
(* ===================================================================== *)

Lemma dict_get_flat_map {V : Type} (f : string -> option V) (c : string) (keys : list string) :
  In c keys ->
  dict_get c (flat_map (fun k => match f k with Some v => [(k, v)] | None => [] end) keys)
  = f c.
Proof.
  induction keys as [|k keys IH]; [intros []|].
  intros Hin. cbn [flat_map].
  destruct (String.eqb_spec k c) as [-> | Hne].
  - destruct (f c) as [v|] eqn:Hf; cbn [app dict_get].
    + now rewrite String.eqb_refl.
    + clear IH Hin. induction keys as [|k' keys IH']; [reflexivity|].
      cbn [flat_map]. destruct (f k') as [v'|] eqn:Hf'; cbn [app dict_get]; [|exact IH'].
      destruct (String.eqb_spec k' c) as [-> | _]; [congruence | exact IH'].
  - destruct Hin as [-> | Hin]; [contradiction|].
    destruct (f k) as [v|]; cbn [app dict_get]; [|now apply IH].
    destruct (String.eqb_spec k c) as [-> | _]; [contradiction | now apply IH].
Qed.

Lemma dict_get_flat_map_other {V : Type} (f : string -> option V) (c : string)
      (keys : list string) :
  ~ In c keys ->
  dict_get c (flat_map (fun k => match f k with Some v => [(k, v)] | None => [] end) keys)
  = None.
Proof.
  induction keys as [|k keys IH]; [reflexivity|].
  intros Hnot. cbn [flat_map].
  assert (Hk : k <> c) by (intros ->; apply Hnot; now left).
  assert (Hrest : ~ In c keys) by (intros Hin; apply Hnot; now right).
  destruct (f k) as [v|]; cbn [app dict_get]; [|now apply IH].
  destruct (String.eqb_spec k c) as [-> | _]; [contradiction | now apply IH].
Qed.

Lemma fold_left_min_last (l : list Z) :
  forall i x, fold_left Z.min l (Z.min i x) = Z.min x (fold_left Z.min l i).
Proof.
  induction l as [|a l IH]; intros i x; cbn [fold_left]; [lia|].
  replace (Z.min (Z.min i x) a) with (Z.min (Z.min i a) x) by lia. apply IH.
Qed.

Lemma fold_left_max_last (l : list Z) :
  forall i x, fold_left Z.max l (Z.max i x) = Z.max x (fold_left Z.max l i).
Proof.
  induction l as [|a l IH]; intros i x; cbn [fold_left]; [lia|].
  replace (Z.max (Z.max i x) a) with (Z.max (Z.max i a) x) by lia. apply IH.
Qed.

Lemma fold_left_min_le (l : list Z) : forall i, fold_left Z.min l i <= i.
Proof.
  induction l as [|a l IH]; intros i; cbn [fold_left]; [lia|].
  specialize (IH (Z.min i a)). lia.
Qed.

Lemma fold_left_max_le (l : list Z) : forall i, i <= fold_left Z.max l i.
Proof.
  induction l as [|a l IH]; intros i; cbn [fold_left]; [lia|].
  specialize (IH (Z.max i a)). lia.
Qed.

(** The first and the last month of [resample_MS], in the numbering of
    [month_number]. *)
Lemma earliest_month_fold (r : row) (rest : DataFrame) :
  earliest_month (r :: rest)
  = fold_left Z.min (map (fun r' => month_index (r_date r')) rest)
              (month_index (r_date r)) + 1.
Proof.
  cbn [earliest_month].
  assert (Hgen : forall i,
             fold_right (fun r' m => Z.min (month_number (r_date r')) m) (i + 1) rest
             = fold_left Z.min (map (fun r' => month_index (r_date r')) rest) i + 1).
  { induction rest as [|a rest IH]; intros i; cbn [fold_right map fold_left]; [reflexivity|].
    rewrite IH, fold_left_min_last. unfold month_number, month_index. lia. }
  rewrite <- Hgen. f_equal. unfold month_number, month_index. lia.
Qed.

Lemma latest_month_fold (r : row) (rest : DataFrame) :
  latest_month (r :: rest)
  = fold_left Z.max (map (fun r' => month_index (r_date r')) rest)
              (month_index (r_date r)) + 1.
Proof.
  cbn [latest_month].
  assert (Hgen : forall i,
             fold_right (fun r' m => Z.max (month_number (r_date r')) m) (i + 1) rest
             = fold_left Z.max (map (fun r' => month_index (r_date r')) rest) i + 1).
  { induction rest as [|a rest IH]; intros i; cbn [fold_right map fold_left]; [reflexivity|].
    rewrite IH, fold_left_max_last. unfold month_number, month_index. lia. }
  rewrite <- Hgen. f_equal. unfold month_number, month_index. lia.
Qed.

Lemma earliest_le_latest (rows : DataFrame) : earliest_month rows <= latest_month rows.
Proof.
  destruct rows as [|r rest]; [reflexivity|].
  rewrite earliest_month_fold, latest_month_fold.
  pose proof (fold_left_min_le (map (fun r' => month_index (r_date r')) rest)
                               (month_index (r_date r))).
  pose proof (fold_left_max_le (map (fun r' => month_index (r_date r')) rest)
                               (month_index (r_date r))).
  lia.
Qed.

(** With small amounts, the buckets of [resample_MS] are the totals of the
    calendar months from the earliest to the latest. *)
Lemma resample_MS_buckets (rows : DataFrame) :
  rows <> [] -> exact_sums rows ->
  resample_MS rows
  = map (fun n => month_total rows (earliest_month rows + Z.of_nat n))
        (seq 0 (Z.to_nat (bucket_count rows))).
Proof.
  intros Hne Hsmall. destruct rows as [|r rest]; [contradiction|].
  unfold resample_MS, bucket_count. cbn [map].
  rewrite earliest_month_fold, latest_month_fold.
  set (lo := fold_left Z.min _ _). set (hi := fold_left Z.max _ _).
  replace (hi + 1 - (lo + 1) + 1) with (hi - lo + 1) by lia.
  apply map_ext. intros n.
  destruct (sum64_filter_exact (fun r0 => month_index (r_date r0) =? lo + Z.of_nat n)
                               (r :: rest) Hsmall) as [-> _].
  rewrite sumZ_filter_indicator. unfold month_total. f_equal.
  apply map_ext. intros r0. unfold month_number, month_index.
  destruct (Z.eqb_spec (year (r_date r0) * 12 + (month (r_date r0) - 1)) (lo + Z.of_nat n));
    destruct (Z.eqb_spec (12 * year (r_date r0) + month (r_date r0)) (lo + 1 + Z.of_nat n));
    try lia; reflexivity.
Qed.

Lemma resample_MS_monthly_buckets (rows : DataFrame) :
  exact_sums rows -> resample_MS rows = monthly_buckets rows.
Proof.
  intros Hsmall. destruct rows as [|r rows]; [reflexivity|].
  apply resample_MS_buckets; [discriminate | exact Hsmall].
Qed.

Lemma bucket_count_short (rows : DataFrame) :
  (List.length rows <= 1)%nat -> bucket_count rows <= 1.
Proof.
  destruct rows as [|r [|r' rows]]; cbn [List.length]; try lia.
  - intros _. cbn [bucket_count]. lia.
  - intros _. cbn [bucket_count latest_month earliest_month fold_right]. lia.
Qed.

Lemma bucket_count_nonneg (rows : DataFrame) : 0 <= bucket_count rows.
Proof.
  destruct rows as [|r rows]; cbn [bucket_count]; [lia|].
  pose proof (earliest_le_latest (r :: rows)). lia.
Qed.

Lemma bucket_count_months (rows : DataFrame) :
  rows <> [] -> bucket_count rows = latest_month rows - earliest_month rows + 1.
Proof.
  destruct rows; [contradiction | reflexivity].
Qed.

Lemma hd_map_seq (f : nat -> Z) (n : nat) :
  (0 < n)%nat -> hd 0 (map f (seq 0 n)) = f 0%nat.
Proof.
  destruct n; [lia | reflexivity].
Qed.

Lemma last_map_seq (f : nat -> Z) (n : nat) :
  (0 < n)%nat -> List.last (map f (seq 0 n)) 0 = f (n - 1)%nat.
Proof.
  intros Hn. destruct n as [|n]; [lia|].
  rewrite seq_S, map_app. cbn [map]. rewrite last_last. f_equal. lia.
Qed.

(** Two calendar months share no row. *)
Lemma month_totals_disjoint (rows : DataFrame) (j k : Z) :
  j <> k ->
  Z.abs (month_total rows j) + Z.abs (month_total rows k)
  <= sumZ (map Z.abs (amounts rows)).
Proof.
  intros Hjk. unfold month_total.
  induction rows as [|r rows IH]; cbn [map amounts sumZ fold_right]; [lia|].
  fold (amounts rows). fold (sumZ (map Z.abs (amounts rows))).
  fold (sumZ (map (fun r0 => if month_number (r_date r0) =? j then r_amount r0 else 0) rows)).
  fold (sumZ (map (fun r0 => if month_number (r_date r0) =? k then r_amount r0 else 0) rows)).
  destruct (Z.eqb_spec (month_number (r_date r)) j);
    destruct (Z.eqb_spec (month_number (r_date r)) k); lia.
Qed.

(** The window of [detect_trends], row by row. *)
Lemma since_window (now : datetime) (days : Z) (category : string) (df : DataFrame) :
  with_category category (since (timestamp now - days * microseconds_per_day) df)
  = window_rows df days now category.
Proof.
  unfold with_category, since, window_rows. rewrite filter_filter_andb.
  apply filter_ext. intros r. f_equal. unfold in_window.
  unfold nanoseconds_per_day, microseconds_per_day.
  destruct (Z.leb_spec (1000 * (timestamp now - days * (86400 * 1000000))) (row_instant r));
    destruct (Z.leb_spec (1000 * timestamp now - row_instant r) (days * (86400 * 1000000000)));
    try lia; reflexivity.
Qed.

Lemma minus_days_exists (now : datetime) (days : Z) :
  window_exists now days ->
  minus_days now days = Ok (timestamp now - days * microseconds_per_day).
Proof.
  intros [Hdays [Hlo Hhi]]. unfold minus_days, timedelta_days.
  destruct (Z.leb_spec (Z.abs days) 999999999) as [_ | Hgt]; [|lia]. cbn [bind].
  destruct (Z.leb_spec (timestamp_of_date (Date 1 1 1))
                       (timestamp now - days * microseconds_per_day)) as [_ | Hlt]; [|lia].
  destruct (Z.ltb_spec (timestamp now - days * microseconds_per_day)
                       (timestamp_of_date (Date 9999 12 31) + microseconds_per_day))
    as [_ | Hge]; [reflexivity | lia].
Qed.

(** The entry [trend_of] makes for a category, from the buckets of its rows
    in the window. *)
Lemma trend_of_buckets (recent : DataFrame) (category : string) :
  exact_sums recent ->
  let rows := with_category category recent in
  let first := first_bucket rows in
  let last := last_bucket rows in
  (bucket_count rows < 2 -> Analytics.trend_of recent category = None)
  /\ (2 <= bucket_count rows ->
      Analytics.trend_of recent category
      = Some {| direction := if first <? last then "increasing" else "decreasing";
                percent_change :=
                  if 0 <? first
                  then fmul (fdiv (inject_Z (last - first)) (inject_Z first)) 100
                  else 0%Q;
                current_average := inject_Z last;
                previous_average := inject_Z first |}).
Proof.
  intros Hsmall rows first last. unfold Analytics.trend_of. fold rows.
  assert (Hrows : exact_sums rows) by (apply exact_sums_filter; exact Hsmall).
  destruct (Z.ltb_spec (len rows) 2) as [Hfew | Hmany].
  - split; [reflexivity|]. intros Hb. exfalso.
    assert (bucket_count rows <= 1) by (apply bucket_count_short; unfold len in Hfew; lia).
    lia.
  - assert (Hne : rows <> []) by (intros Heq; rewrite Heq in Hmany; cbn in Hmany; lia).
    rewrite (resample_MS_buckets rows Hne Hrows).
    set (f := fun n => month_total rows (earliest_month rows + Z.of_nat n)).
    assert (Hlen : len (map f (seq 0 (Z.to_nat (bucket_count rows)))) = bucket_count rows).
    { unfold len. rewrite length_map, length_seq.
      pose proof (bucket_count_nonneg rows). lia. }
    rewrite Hlen.
    split.
    + intros Hb. destruct (Z.leb_spec 2 (bucket_count rows)); [lia | reflexivity].
    + intros Hb. destruct (Z.leb_spec 2 (bucket_count rows)) as [_ | Hlt]; [|lia].
      assert (Hpos : (0 < Z.to_nat (bucket_count rows))%nat) by lia.
      rewrite (hd_map_seq f _ Hpos), (last_map_seq f _ Hpos).
      assert (Hfirst : f 0%nat = first).
      { unfold f, first, first_bucket. f_equal. lia. }
      assert (Hlast : f (Z.to_nat (bucket_count rows) - 1)%nat = last).
      { unfold f, last, last_bucket. f_equal.
        pose proof (bucket_count_months rows Hne). lia. }
      rewrite Hfirst, Hlast.
      assert (Hdisjoint : Z.abs first + Z.abs last < 2 ^ 53).
      { pose proof (month_totals_disjoint rows (earliest_month rows) (latest_month rows)).
        unfold exact_sums in Hrows. unfold first, last, first_bucket, last_bucket.
        pose proof (bucket_count_months rows Hne). lia. }
      rewrite (wrap64_small (last - first)) by lia.
      rewrite !float_of_int_small by lia. reflexivity.
Qed.

(** C4, as the code has it: whenever the look-back date [now - months * 30 days]
    exists and the amounts of the table are small enough for its sums to be
    exact, [detect_trends] returns a report in which a category outside the
    configured ones has no entry, a category with fewer than 2 monthly
    buckets in the window has no entry, and a configured category with at
    least 2 buckets has an entry whose direction is increasing when the last
    bucket exceeds the first and decreasing otherwise, whose percent change
    is [(last - first) / first * 100] in doubles when the first bucket is
    positive and 0 otherwise, and whose current and previous averages are
    the last and the first bucket. *)
Theorem detect_trends_by_buckets `{Pandas}
        (d : disk) (months : Z) (now : datetime) (df : DataFrame) (category : string) :
  DataManager.load_dataframe d "" = Ok df ->
  window_exists now (months * 30) ->
  exact_sums df ->
  let rows := window_rows df (months * 30) now category in
  let first := first_bucket rows in
  let last := last_bucket rows in
  exists report,
    Analytics.detect_trends d months now = Ok report
    /\ (~ In category Config.DEFAULT_CATEGORIES ->
        dict_get category (trends_of report) = None)
    /\ (bucket_count rows < 2 -> dict_get category (trends_of report) = None)
    /\ (In category Config.DEFAULT_CATEGORIES -> 2 <= bucket_count rows ->
        exists t,
          dict_get category (trends_of report) = Some t
          /\ direction t = (if first <? last then "increasing" else "decreasing")
          /\ percent_change t
             = (if 0 <? first
                then fmul (fdiv (inject_Z (last - first)) (inject_Z first)) 100
                else 0%Q)
          /\ current_average t = inject_Z last
          /\ previous_average t = inject_Z first).
Proof.
  intros Hload Hwindow Hsmall rows first last.
  unfold Analytics.detect_trends. rewrite Hload. cbn [bind].
  assert (Hsub : (List.length rows <= List.length df)%nat)
    by (unfold rows, window_rows; apply filter_length_le).
  destruct (Z.ltb_spec (len df) 2) as [Hfew | Hmany].
  - eexists. split; [reflexivity|]. split; [reflexivity|]. split; [reflexivity|].
    intros _ Hb. exfalso.
    assert (bucket_count rows <= 1)
      by (apply bucket_count_short; unfold len in Hfew; lia).
    lia.
  - rewrite (minus_days_exists now (months * 30) Hwindow). cbn [bind].
    pose proof (since_window now (months * 30) category df) as Hrows. fold rows in Hrows.
    destruct (since (timestamp now - months * 30 * microseconds_per_day) df)
      as [|r0 recent] eqn:Hrecent.
    + eexists. split; [reflexivity|]. split; [reflexivity|]. split; [reflexivity|].
      intros _ Hb. exfalso. rewrite <- Hrows in Hb. cbn in Hb. lia.
    + eexists. split; [reflexivity|]. cbn [trends_of].
      assert (Hrecent_small : exact_sums (r0 :: recent)).
      { rewrite <- Hrecent. unfold since. apply exact_sums_filter. exact Hsmall. }
      destruct (trend_of_buckets (r0 :: recent) category Hrecent_small) as [Hnone Hsome].
      rewrite Hrows in Hnone, Hsome. fold first in Hsome. fold last in Hsome.
      split; [apply dict_get_flat_map_other|].
      split.
      * intros Hb. destruct (in_dec string_dec category Config.DEFAULT_CATEGORIES) as [Hin | Hout].
        -- rewrite (dict_get_flat_map (Analytics.trend_of (r0 :: recent)) category _ Hin).
           now apply Hnone.
        -- now apply dict_get_flat_map_other.
      * intros Hin Hb.
        rewrite (dict_get_flat_map (Analytics.trend_of (r0 :: recent)) category _ Hin).
        rewrite (Hsome Hb). eexists. split; [reflexivity|].
        cbn [direction percent_change current_average previous_average].
        repeat split.
Qed.

Lemma detect_trends_by_buckets_witness :
  exists report t,
    Analytics.detect_trends
      (Disk (Some [Expense 1 400 "Food" "2024-01-15" "lunch" None;
                   Expense 2 500 "Food" "2024-02-10" "dinner" None;
                   Expense 3 90 "Travel" "2024-02-11" "bus" None;
                   Expense 4 1000 "Food" "2023-10-05" "party" None]) true)
      3 (DateTime (Date 2024 2 20) 0)
    = Ok report
    /\ dict_get "Travel" (trends_of report) = None
    /\ dict_get "Food" (trends_of report) = Some t
    /\ direction t = "increasing"
    /\ percent_change t = 25 # 1
    /\ current_average t = 500 # 1
    /\ previous_average t = 400 # 1.
Proof.
  pose (d := Disk (Some [Expense 1 400 "Food" "2024-01-15" "lunch" None;
                         Expense 2 500 "Food" "2024-02-10" "dinner" None;
                         Expense 3 90 "Travel" "2024-02-11" "bus" None;
                         Expense 4 1000 "Food" "2023-10-05" "party" None]) true).
  pose (df := [Row 1 400 "Food" (Date 2024 1 15) 0 "lunch" None;
               Row 2 500 "Food" (Date 2024 2 10) 0 "dinner" None;
               Row 3 90 "Travel" (Date 2024 2 11) 0 "bus" None;
               Row 4 1000 "Food" (Date 2023 10 5) 0 "party" None]).
  assert (Hload : DataManager.load_dataframe d "" = Ok df) by (vm_compute; reflexivity).
  assert (Hwindow : window_exists (DateTime (Date 2024 2 20) 0) (3 * 30))
    by (vm_compute; repeat split; discriminate).
  assert (Hsmall : exact_sums df) by (vm_compute; reflexivity).
  destruct (detect_trends_by_buckets d 3 (DateTime (Date 2024 2 20) 0) df "Food"
              Hload Hwindow Hsmall)
    as [report [Hreport [_ [_ Hfood]]]].
  destruct (detect_trends_by_buckets d 3 (DateTime (Date 2024 2 20) 0) df "Travel"
              Hload Hwindow Hsmall)
    as [report' [Hreport' [_ [Htravel _]]]].
  destruct Hfood as [t [Hget [Hdir [Hpc [Hcur Hprev]]]]];
    [simpl; tauto | vm_compute; discriminate|].
  exists report, t. split; [exact Hreport|].
  split.
  - assert (Heq : report' = report) by congruence. rewrite <- Heq.
    apply Htravel. vm_compute. reflexivity.
  - split; [exact Hget|]. split; [exact Hdir|].
    split; [rewrite Hpc; vm_compute; reflexivity|].
    split; [rewrite Hcur | rewrite Hprev]; vm_compute; reflexivity.
Defined.

(** C4 as stated fails in two ways. A category that is not one of the
    configured ones (the CSV import stores any category) has two monthly
    buckets in the window and no entry; and Food, whose first bucket is
    negative (a refund of 200), is reported with a percent change of 0 where
    [(last - first) / first * 100] is -150. *)
Lemma detect_trends_outside_claim :
  exists df report t,
    DataManager.load_dataframe
      (Disk (Some [Expense 1 400 "Crypto" "2024-01-15" "coins" None;
                   Expense 2 500 "Crypto" "2024-02-10" "coins" None;
                   Expense 3 (-200) "Food" "2024-01-15" "refund" None;
                   Expense 4 100 "Food" "2024-02-12" "lunch" None]) true) "" = Ok df
    /\ Analytics.detect_trends
         (Disk (Some [Expense 1 400 "Crypto" "2024-01-15" "coins" None;
                      Expense 2 500 "Crypto" "2024-02-10" "coins" None;
                      Expense 3 (-200) "Food" "2024-01-15" "refund" None;
                      Expense 4 100 "Food" "2024-02-12" "lunch" None]) true)
         3 (DateTime (Date 2024 2 20) 0) = Ok report
    /\ bucket_count (window_rows df (3 * 30) (DateTime (Date 2024 2 20) 0) "Crypto") = 2
    /\ dict_get "Crypto" (trends_of report) = None
    /\ first_bucket (window_rows df (3 * 30) (DateTime (Date 2024 2 20) 0) "Food") = -200
    /\ last_bucket (window_rows df (3 * 30) (DateTime (Date 2024 2 20) 0) "Food") = 100
    /\ dict_get "Food" (trends_of report) = Some t
    /\ percent_change t = 0%Q
    /\ fmul (fdiv (inject_Z (100 - -200)) (inject_Z (-200))) 100 = -150 # 1.
Proof.
  eexists. eexists. eexists. split; [vm_compute; reflexivity|].
  split; [vm_compute; reflexivity|].
  split; [vm_compute; reflexivity|].
  split; [vm_compute; reflexivity|].
  split; [vm_compute; reflexivity|].
  split; [vm_compute; reflexivity|].
  split; [vm_compute; reflexivity|].
  split; vm_compute; reflexivity.
Qed.

(* ===================================================================== *)
(** ** Group-by sums *)
(* ===================================================================== *)

Lemma string_compare_refl (s : string) : String.compare s s = Eq.
Proof.
  induction s as [|c s IH]; simpl; [reflexivity|].
  unfold Ascii.compare. now rewrite N.compare_refl.
Qed.

Lemma string_compare_lt_trans (a : string) :
  forall b c, String.compare a b = Lt -> String.compare b c = Lt -> String.compare a c = Lt.
Proof.
  induction a as [|x a IH]; intros [|y b] [|z c]; simpl; try discriminate; auto.
  unfold Ascii.compare.
  destruct (N.compare_spec (N_of_ascii x) (N_of_ascii y)) as [Hxy | Hxy | Hxy];
    destruct (N.compare_spec (N_of_ascii y) (N_of_ascii z)) as [Hyz | Hyz | Hyz];
    try discriminate; intros H1 H2.
  - rewrite Hxy, Hyz, N.compare_refl. now apply (IH b c).
  - rewrite Hxy. now apply N.compare_lt_iff in Hyz as ->.
  - rewrite <- Hyz. now apply N.compare_lt_iff in Hxy as ->.
  - assert (Hxz : (N_of_ascii x < N_of_ascii z)%N) by lia.
    now apply N.compare_lt_iff in Hxz as ->.
Qed.

Lemma insert_key_In (k x : string) (ks : list string) :
  In x (insert_key k ks) <-> x = k \/ In x ks.
Proof.
  induction ks as [|k' ks IH]; simpl.
  - intuition.
  - destruct (String.compare k k') eqn:Hc; simpl.
    + apply String.compare_eq_iff in Hc. subst. intuition.
    + intuition.
    + rewrite IH. intuition.
Qed.

Lemma insert_key_sorted (k : string) (ks : list string) :
  StronglySorted string_lt ks -> StronglySorted string_lt (insert_key k ks).
Proof.
  induction 1 as [|k' ks Hs IH Hall]; simpl.
  - constructor; constructor.
  - destruct (String.compare k k') eqn:Hc.
    + now constructor.
    + constructor; [now constructor|].
      constructor; [exact Hc|].
      rewrite Forall_forall in *. intros x Hx.
      apply (string_compare_lt_trans k k' x Hc). now apply Hall.
    + constructor; [exact IH|].
      apply Forall_forall. intros x Hx. apply insert_key_In in Hx as [-> | Hx].
      * unfold string_lt. rewrite String.compare_antisym, Hc. reflexivity.
      * rewrite Forall_forall in Hall. now apply Hall.
Qed.

Lemma group_keys_sorted (df : DataFrame) : StronglySorted string_lt (group_keys df).
Proof.
  unfold group_keys. induction (map r_category df) as [|c cs IH]; simpl.
  - constructor.
  - now apply insert_key_sorted.
Qed.

Lemma sorted_keys_NoDup (ks : list string) : StronglySorted string_lt ks -> NoDup ks.
Proof.
  induction 1 as [|k ks Hs IH Hall]; constructor; [|exact IH].
  intros Hin. rewrite Forall_forall in Hall. specialize (Hall k Hin).
  unfold string_lt in Hall. rewrite string_compare_refl in Hall. discriminate.
Qed.

Lemma group_keys_complete (df : DataFrame) (r : row) :
  In r df -> In (r_category r) (group_keys df).
Proof.
  unfold group_keys. induction df as [|r' df IH]; simpl; [intros []|].
  intros [-> | Hin]; apply insert_key_In; [now left | right; now apply IH].
Qed.

Lemma sumZ_map_add {A : Type} (f g : A -> Z) (l : list A) :
  sumZ (map (fun k => f k + g k) l) = sumZ (map f l) + sumZ (map g l).
Proof.
  induction l as [|a l IH]; simpl; lia.
Qed.

Lemma sumZ_indicator (c : string) (a : Z) (keys : list string) :
  NoDup keys ->
  sumZ (map (fun k => if (c =? k)%string then a else 0) keys)
  = if existsb (String.eqb c) keys then a else 0.
Proof.
  induction 1 as [|k keys Hnotin Hnd IH]; simpl; [reflexivity|].
  rewrite IH. destruct (String.eqb_spec c k) as [-> | Hne]; simpl; [|reflexivity].
  destruct (existsb (String.eqb k) keys) eqn:Hex; [|lia].
  apply existsb_eqb_In in Hex. contradiction.
Qed.

(** The group sums over distinct keys that cover the table add up to the
    sum of the table. *)
Lemma sum_of_group_sums (keys : list string) (df : DataFrame) :
  NoDup keys ->
  (forall r, In r df -> In (r_category r) keys) ->
  sumZ (map (fun k => sumZ (amounts (with_category k df))) keys) = sumZ (amounts df).
Proof.
  intros Hnd. induction df as [|r df IH]; intros Hcover.
  - simpl. clear Hnd Hcover. induction keys as [|k keys IHk]; simpl; [reflexivity|].
    exact IHk.
  - rewrite (map_ext _ (fun k => (if (r_category r =? k)%string then r_amount r else 0)
                                 + sumZ (amounts (with_category k df)))).
    + rewrite sumZ_map_add, sumZ_indicator by assumption.
      rewrite IH by (intros r' Hr'; apply Hcover; now right).
      assert (Hin : existsb (String.eqb (r_category r)) keys = true)
        by (apply existsb_eqb_In, Hcover; now left).
      rewrite Hin. reflexivity.
    + intros k. unfold with_category. cbn [filter].
      destruct (r_category r =? k)%string; reflexivity.
Qed.

(** With small amounts, the group sums are exact and add up to the sum of
    the table. *)
Lemma groupby_sum_exact (df : DataFrame) :
  exact_sums df ->
  groupby_sum df = map (fun k => (k, sumZ (amounts (with_category k df)))) (group_keys df).
Proof.
  intros Hsmall. unfold groupby_sum. apply map_ext. intros k. f_equal.
  unfold with_category. now destruct (sum64_filter_exact (fun r => (r_category r =? k)%string)
                                                         df Hsmall) as [-> _].
Qed.

Lemma groupby_sum_total (df : DataFrame) :
  exact_sums df ->
  sumZ (map snd (groupby_sum df)) = sumZ (amounts df).
Proof.
  intros Hsmall. rewrite (groupby_sum_exact df Hsmall), map_map. cbn [snd].
  apply sum_of_group_sums.
  - apply sorted_keys_NoDup, group_keys_sorted.
  - apply group_keys_complete.
Qed.

Lemma sum64_exact (df : DataFrame) :
  exact_sums df ->
  sum64 (amounts df) = sumZ (amounts df)
  /\ float_of_int (sum64 (amounts df)) = inject_Z (sumZ (amounts df)).
Proof.
  intros Hsmall.
  pose proof (sum64_filter_exact (fun _ => true) df Hsmall) as [Hsum Hlt].
  pose proof (float_sum64_filter_exact (fun _ => true) df Hsmall) as Hfloat.
  assert (Hall : filter (fun _ : row => true) df = df).
  { clear. induction df as [|r df IH]; cbn [filter]; [reflexivity | now rewrite IH]. }
  rewrite Hall in Hsum, Hfloat. split; assumption.
Qed.

Lemma sumQ_inject_Z {A : Type} (f : A -> Z) (l : list A) :
  (sumQ (map (fun a => inject_Z (f a)) l) == inject_Z (sumZ (map f l)))%Q.
Proof.
  induction l as [|a l IH]; simpl; [reflexivity|].
  rewrite IH, inject_Z_plus. reflexivity.
Qed.

(* ===================================================================== *)
(** ** The calendar *)
(* ===================================================================== *)

Lemma year_length (y : Z) :
  days_before_year (y + 1) = days_before_year y + (if is_leap y then 366 else 365).
Proof.
  unfold days_before_year, is_leap. cbv zeta.
  replace (y + 1 - 1) with y by lia.
  destruct (Z.eqb_spec (y mod 4) 0); destruct (Z.eqb_spec (y mod 100) 0);
    destruct (Z.eqb_spec (y mod 400) 0); cbn [andb orb negb];
    Z.to_euclidean_division_equations; lia.
Qed.

Lemma days_before_year_step (y : Z) :
  days_before_year (y + 1) - days_before_year y >= 365.
Proof.
  rewrite year_length. destruct (is_leap y); lia.
Qed.

Lemma days_before_year_add (a : Z) (n : nat) :
  days_before_year a + 365 * Z.of_nat n <= days_before_year (a + Z.of_nat n).
Proof.
  induction n as [|n IH].
  - replace (a + Z.of_nat 0) with a by lia. lia.
  - pose proof (days_before_year_step (a + Z.of_nat n)).
    replace (a + Z.of_nat (S n)) with (a + Z.of_nat n + 1) by lia. lia.
Qed.

Lemma days_before_year_mono (a b : Z) :
  a <= b -> days_before_year a + 365 * (b - a) <= days_before_year b.
Proof.
  intros Hab. pose proof (days_before_year_add a (Z.to_nat (b - a))) as Hadd.
  replace (a + Z.of_nat (Z.to_nat (b - a))) with b in Hadd by lia. lia.
Qed.

Ltac eval_months :=
  repeat match goal with
         | |- context [Z.to_nat ?e] =>
             let n := eval vm_compute in (Z.to_nat e) in
             progress change (Z.to_nat e) with n
         end.

Lemma day_of_year_bounds (d : date) :
  valid_date d = true ->
  1 <= days_before_month (year d) (month d) + day d
    <= (if is_leap (year d) then 366 else 365).
Proof.
  intros Hv. assert (Hm := valid_date_month d Hv). assert (Hd := valid_date_day d Hv).
  destruct d as [y m dd]. simpl in *.
  assert (Hcases : m = 1 \/ m = 2 \/ m = 3 \/ m = 4 \/ m = 5 \/ m = 6 \/ m = 7 \/ m = 8
                   \/ m = 9 \/ m = 10 \/ m = 11 \/ m = 12) by lia.
  unfold days_before_month.
  repeat (destruct Hcases as [-> | Hcases]); try subst m;
    eval_months; cbn -[Z.add] in *; destruct (is_leap y); lia.
Qed.

Lemma day_of_year_mono (y m1 d1 m2 d2 : Z) :
  valid_date (Date y m1 d1) = true ->
  valid_date (Date y m2 d2) = true ->
  m1 < m2 ->
  days_before_month y m1 + d1 < days_before_month y m2 + d2.
Proof.
  intros H1 H2 Hlt.
  assert (Hm1 := valid_date_month _ H1). assert (Hd1 := valid_date_day _ H1).
  assert (Hm2 := valid_date_month _ H2). assert (Hd2 := valid_date_day _ H2).
  simpl in *.
  assert (C1 : m1 = 1 \/ m1 = 2 \/ m1 = 3 \/ m1 = 4 \/ m1 = 5 \/ m1 = 6 \/ m1 = 7 \/ m1 = 8
               \/ m1 = 9 \/ m1 = 10 \/ m1 = 11 \/ m1 = 12) by lia.
  assert (C2 : m2 = 1 \/ m2 = 2 \/ m2 = 3 \/ m2 = 4 \/ m2 = 5 \/ m2 = 6 \/ m2 = 7 \/ m2 = 8
               \/ m2 = 9 \/ m2 = 10 \/ m2 = 11 \/ m2 = 12) by lia.
  unfold days_before_month.
  repeat (destruct C1 as [-> | C1]); try subst m1;
    repeat (destruct C2 as [-> | C2]); try subst m2; try lia;
    eval_months; cbn -[Z.add] in *; destruct (is_leap y); lia.
Qed.

Lemma toordinal_mono (a b : date) :
  valid_date a = true -> valid_date b = true ->
  date_leb a b = true -> toordinal a <= toordinal b.
Proof.
  intros Ha Hb. unfold date_leb, toordinal.
  pose proof (day_of_year_bounds a Ha) as Ba. pose proof (day_of_year_bounds b Hb) as Bb.
  destruct (year a <? year b) eqn:Ey.
  - intros _. apply Z.ltb_lt in Ey.
    pose proof (days_before_year_mono (year a + 1) (year b) ltac:(lia)).
    pose proof (year_length (year a)).
    destruct (is_leap (year a)); lia.
  - destruct (year b <? year a) eqn:Ey'; [discriminate|].
    assert (Hy : year a = year b) by lia.
    destruct a as [ya ma da], b as [yb mb db]. simpl in *. subst yb.
    destruct (ma <? mb) eqn:Em.
    + intros _. apply Z.ltb_lt in Em.
      pose proof (day_of_year_mono ya ma da mb db Ha Hb Em). lia.
    + destruct (mb <? ma) eqn:Em'; [discriminate|].
      intros Hd. apply Z.leb_le in Hd. assert (ma = mb) by lia. subst mb. lia.
Qed.

(** A later date has a larger ordinal. *)
Lemma toordinal_lt (a b : date) :
  valid_date a = true -> valid_date b = true ->
  date_leb b a = false -> toordinal a < toordinal b.
Proof.
  intros Ha Hb. unfold date_leb, toordinal.
  pose proof (day_of_year_bounds a Ha) as Ba. pose proof (day_of_year_bounds b Hb) as Bb.
  destruct (Z.ltb_spec (year b) (year a)) as [Hlt | Hge]; [discriminate|].
  destruct (Z.ltb_spec (year a) (year b)) as [Hlt | Hge'].
  - intros _.
    pose proof (days_before_year_mono (year a + 1) (year b) ltac:(lia)).
    pose proof (year_length (year a)).
    destruct (is_leap (year a)); lia.
  - assert (Hy : year a = year b) by lia.
    destruct a as [ya ma da], b as [yb mb db]. simpl in *. subst yb.
    destruct (Z.ltb_spec mb ma) as [Hlt | Hmge]; [discriminate|].
    destruct (Z.ltb_spec ma mb) as [Hlt | Hmge'].
    + intros _. pose proof (day_of_year_mono ya ma da mb db Ha Hb Hlt). lia.
    + intros Hd. apply Z.leb_gt in Hd. assert (ma = mb) by lia. subst mb. lia.
Qed.

(** The order of the ordinals is the order of the calendar. *)
Lemma toordinal_leb (a b : date) :
  valid_date a = true -> valid_date b = true ->
  (toordinal a <=? toordinal b) = date_leb a b.
Proof.
  intros Ha Hb. destruct (date_leb a b) eqn:Hab.
  - apply Z.leb_le. now apply toordinal_mono.
  - apply Z.leb_gt. now apply toordinal_lt.
Qed.

Lemma date_range_is_month (y m : Z) (x : date) :
  valid_date x = true ->
  andb (date_leb (Date y m 1) x) (date_leb x (Date y m (days_in_month y m)))
  = andb (year x =? y) (month x =? m).
Proof.
  intros Hv. apply valid_date_day in Hv. unfold date_leb. cbn [year month day].
  repeat match goal with
         | |- context [?a <? ?b] => destruct (Z.ltb_spec a b)
         | |- context [?a =? ?b] => destruct (Z.eqb_spec a b)
         | |- context [?a <=? ?b] => destruct (Z.leb_spec a b)
         end;
    cbn [andb]; try reflexivity; try lia; subst; lia.
Qed.

Lemma valid_instant_date (d : date) (ns : Z) :
  valid_instant d ns = true -> valid_date d = true /\ 0 <= ns < nanoseconds_per_day.
Proof.
  unfold valid_instant. rewrite !andb_true_iff, Z.leb_le, Z.ltb_lt. tauto.
Qed.

(** A midnight lies between the first and the last midnight of a month
    exactly when it is a day of that month. *)
Lemma midnights_of_month (y m : Z) (x : date) :
  valid_date x = true ->
  valid_date (Date y m 1) = true ->
  valid_date (Date y m (days_in_month y m)) = true ->
  andb (instant x 0 >=? instant (Date y m 1) 0)
       (instant x 0 <=? instant (Date y m (days_in_month y m)) 0)
  = andb (year x =? y) (month x =? m).
Proof.
  intros Hx Hlo Hhi. rewrite <- (date_range_is_month y m x Hx).
  rewrite <- (toordinal_leb _ _ Hlo Hx), <- (toordinal_leb _ _ Hx Hhi).
  unfold instant, nanoseconds_per_day. rewrite Z.geb_leb.
  f_equal.
  - destruct (Z.leb_spec (toordinal (Date y m 1)) (toordinal x));
      [apply Z.leb_le | apply Z.leb_gt]; lia.
  - destruct (Z.leb_spec (toordinal x) (toordinal (Date y m (days_in_month y m))));
      [apply Z.leb_le | apply Z.leb_gt]; lia.
Qed.

(* ===================================================================== *)
(** ** Monthly and category summaries *)
(* ===================================================================== *)

Lemma filter_twice {A : Type} (f g : A -> bool) (l : list A) :
  filter g (filter f l) = filter (fun a => andb (f a) (g a)) l.
Proof.
  induction l as [|a l IH]; simpl; [reflexivity|].
  destruct (f a); simpl; [destruct (g a)|]; now rewrite IH.
Qed.

Lemma load_dataframe_valid_dates `{Pandas} (d : disk) (df : DataFrame) :
  DataManager.load_dataframe d "" = Ok df ->
  Forall (fun r => valid_date (r_date r) = true) df.
Proof.
  intros Hload. apply load_dataframe_valid in Hload.
  apply Forall_forall. intros r Hr. rewrite Forall_forall in Hload.
  exact (proj1 (valid_instant_date _ _ (Hload r Hr))).
Qed.

Lemma category_totals_sum (total_spending : Z) (df : DataFrame) :
  exact_sums df ->
  (sumQ (map (fun kv => cs_total (snd kv))
             (map (fun kv => (fst kv, Analytics.category_stats total_spending (snd kv)))
                  (groupby_sum_count df)))
   == inject_Z (sumZ (amounts df)))%Q.
Proof.
  intros Hsmall.
  unfold groupby_sum_count. rewrite !map_map. cbn [fst snd Analytics.category_stats cs_total].
  rewrite (map_ext _ (fun k => inject_Z (sumZ (amounts (with_category k df))))).
  2:{ intros k. unfold with_category. apply float_sum64_filter_exact. exact Hsmall. }
  rewrite (sumQ_inject_Z (fun k => sumZ (amounts (with_category k df)))).
  rewrite sum_of_group_sums; [reflexivity | |].
  - apply sorted_keys_NoDup, group_keys_sorted.
  - apply group_keys_complete.
Qed.

(** C8, as the code has it: when the stored dates carry no time of day and the amounts
    are small enough for the sums to be exact, then over the date range from
    the first to the last day of the calendar month [y]-[m] the total of
    [monthly_summary] is the sum over the categories of the totals of
    [category_summary]. *)
Theorem monthly_total_is_sum_of_category_totals `{Pandas}
        (d : disk) (y m : Z) (now : datetime) (start_date end_date : string)
        (df : DataFrame) :
  DataManager.load_dataframe d "" = Ok df ->
  plain_dates df ->
  exact_sums df ->
  start_date <> "" -> end_date <> "" ->
  Timestamp_of start_date = Moment (Date y m 1) 0 ->
  Timestamp_of end_date = Moment (Date y m (days_in_month y m)) 0 ->
  exists ms cs,
    Analytics.monthly_summary d (Some y) (Some m) now = Ok ms
    /\ Analytics.category_summary d (Some start_date) (Some end_date) = Ok cs
    /\ (ms_total ms == sumQ (map (fun kv => cs_total (snd kv)) cs))%Q.
Proof.
  intros Hload Hplain Hsmall Hs He Hstart Hend.
  pose proof (load_dataframe_valid_dates d df Hload) as Hvalid.
  destruct (valid_instant_date _ _ (Timestamp_of_valid _ _ _ Hstart)) as [Hlo _].
  destruct (valid_instant_date _ _ (Timestamp_of_valid _ _ _ Hend)) as [Hhi _].
  destruct (month_name_defined m (valid_date_month _ Hlo)) as [name Hname].
  unfold Analytics.monthly_summary, Analytics.category_summary.
  rewrite Hload. cbn [bind]. rewrite Hname. cbn [bind].
  destruct df as [|r0 df0].
  - eexists. eexists. split; [reflexivity|]. split; [reflexivity|]. reflexivity.
  - unfold Analytics.filter_from, Analytics.filter_to, DataManager.compare_dates.
    destruct (String.eqb_spec start_date "") as [Heq | _]; [contradiction|].
    destruct (String.eqb_spec end_date "") as [Heq | _]; [contradiction|].
    rewrite Hstart. cbn [bind]. rewrite Hend.
    rewrite filter_twice.
    rewrite (filter_ext_in
               (fun r => andb (row_instant r >=? instant (Date y m 1) 0)
                              (row_instant r <=? instant (Date y m (days_in_month y m)) 0))
               (fun r => andb (year (r_date r) =? y) (month (r_date r) =? m))).
    2:{ intros r Hr. unfold plain_dates in Hplain. rewrite Forall_forall in Hplain, Hvalid.
        unfold row_instant. rewrite (Hplain r Hr).
        apply midnights_of_month; auto. }
    set (month_data := filter (fun r => andb (year (r_date r) =? y) (month (r_date r) =? m))
                              (r0 :: df0)).
    assert (Hmonth : exact_sums month_data) by (apply exact_sums_filter; exact Hsmall).
    destruct (sum64_exact month_data Hmonth) as [Hsum Hfloat].
    destruct month_data as [|r1 rest] eqn:Hmd.
    + eexists. eexists. split; [reflexivity|]. split; [reflexivity|]. reflexivity.
    + eexists. eexists. split; [reflexivity|]. split; [reflexivity|].
      cbn [ms_total]. rewrite Hfloat. symmetry. apply category_totals_sum. exact Hmonth.
Qed.

Lemma monthly_total_is_sum_of_category_totals_witness :
  exists ms cs,
    Analytics.monthly_summary
      (Disk (Some [Expense 1 500 "Food" "2024-01-15" "lunch" None;
                   Expense 2 120 "Transport" "2024-01-31" "taxi" None;
                   Expense 3 75 "Food" "2024-02-01" "snack" None;
                   Expense 4 60 "Food" "2023-12-31" "tea" None]) true)
      (Some 2024) (Some 1) (DateTime (Date 2024 3 5) 0)
    = Ok ms
    /\ Analytics.category_summary
         (Disk (Some [Expense 1 500 "Food" "2024-01-15" "lunch" None;
                      Expense 2 120 "Transport" "2024-01-31" "taxi" None;
                      Expense 3 75 "Food" "2024-02-01" "snack" None;
                      Expense 4 60 "Food" "2023-12-31" "tea" None]) true)
         (Some "2024-01-01") (Some "2024-01-31")
       = Ok cs
    /\ (ms_total ms == sumQ (map (fun kv => cs_total (snd kv)) cs))%Q.
Proof.
  apply (monthly_total_is_sum_of_category_totals
           (Disk (Some [Expense 1 500 "Food" "2024-01-15" "lunch" None;
                        Expense 2 120 "Transport" "2024-01-31" "taxi" None;
                        Expense 3 75 "Food" "2024-02-01" "snack" None;
                        Expense 4 60 "Food" "2023-12-31" "tea" None]) true)
           2024 1 (DateTime (Date 2024 3 5) 0) "2024-01-01" "2024-01-31"
           [Row 1 500 "Food" (Date 2024 1 15) 0 "lunch" None;
            Row 2 120 "Transport" (Date 2024 1 31) 0 "taxi" None;
            Row 3 75 "Food" (Date 2024 2 1) 0 "snack" None;
            Row 4 60 "Food" (Date 2023 12 31) 0 "tea" None]).
  - vm_compute. reflexivity.
  - repeat constructor.
  - vm_compute. reflexivity.
  - discriminate.
  - discriminate.
  - vm_compute. reflexivity.
  - vm_compute. reflexivity.
Defined.

(** C8 as stated fails when a stored date carries a time of day: a record
    dated 2024-01-31T10:30:00 is counted by [monthly_summary] for January
    2024, and left out by [category_summary] over 2024-01-01 to 2024-01-31,
    whose end bound is the midnight that begins the 31st. *)
Lemma monthly_total_time_of_day :
  exists ms,
    Analytics.monthly_summary
      (Disk (Some [Expense 1 500 "Food" "2024-01-31T10:30:00" "dinner" None]) true)
      (Some 2024) (Some 1) (DateTime (Date 2024 3 5) 0)
    = Ok ms
    /\ ms_total ms = 500 # 1
    /\ Analytics.category_summary
         (Disk (Some [Expense 1 500 "Food" "2024-01-31T10:30:00" "dinner" None]) true)
         (Some "2024-01-01") (Some "2024-01-31")
       = Ok []
    /\ ~ (ms_total ms
          == sumQ (map (fun kv : string * CategoryStats => cs_total (snd kv)) []))%Q.
Proof.
  eexists. split; [vm_compute; reflexivity|].
  split; [reflexivity|]. split; [vm_compute; reflexivity|].
  vm_compute. discriminate.
Qed.

(** The scenario of the specification: one January record of 500. *)
Example monthly_summary_scenario :
  exists ms,
    Analytics.monthly_summary
      (Disk (Some [Expense 1 500 "Food" "2024-01-15" "lunch" None]) true)
      (Some 2024) (Some 1) (DateTime (Date 2024 3 5) 0)
    = Ok ms
    /\ ms_total ms = inject_Z 500 /\ ms_transaction_count ms = 1
    /\ ms_by_category ms = [("Food", 500)].
Proof.
  eexists. split; [vm_compute; reflexivity|]. repeat split.
Qed.

(* ===================================================================== *)
(** ** Sorting by decreasing key *)
(* ===================================================================== *)

Lemma Qltb_lt (a b : Q) : Qltb a b = true <-> (a < b)%Q.
Proof.
  unfold Qltb. rewrite negb_true_iff. split.
  - intros Hle. apply Qnot_le_lt. intros Hba. apply Qle_bool_iff in Hba. congruence.
  - intros Hlt. destruct (Qle_bool b a) eqn:Hle; [|reflexivity].
    apply Qle_bool_iff in Hle. exfalso. now apply (Qlt_not_le a b).
Qed.

Lemma Qltb_ge (a b : Q) : Qltb a b = false <-> (b <= a)%Q.
Proof.
  unfold Qltb. rewrite negb_false_iff. apply Qle_bool_iff.
Qed.

Lemma insert_desc_perm {A : Type} (key : A -> Q) (x : A) (l : list A) :
  Permutation (insert_desc key x l) (x :: l).
Proof.
  induction l as [|y l IH]; simpl; [reflexivity|].
  destruct (Qltb (key x) (key y)); [|reflexivity].
  rewrite IH. apply perm_swap.
Qed.

Lemma sort_desc_perm {A : Type} (key : A -> Q) (l : list A) :
  Permutation (sort_desc key l) l.
Proof.
  induction l as [|x l IH]; simpl; [reflexivity|].
  unfold sort_desc in *. simpl. rewrite insert_desc_perm. now constructor.
Qed.

Lemma insert_desc_sorted {A : Type} (key : A -> Q) (x : A) (l : list A) :
  StronglySorted (decreasing key) l -> StronglySorted (decreasing key) (insert_desc key x l).
Proof.
  induction 1 as [|y l Hs IH Hall]; simpl.
  - constructor; constructor.
  - destruct (Qltb (key x) (key y)) eqn:Hc.
    + constructor; [exact IH|].
      apply Forall_forall. intros z Hz.
      apply (Permutation_in _ (insert_desc_perm key x l)) in Hz.
      destruct Hz as [<- | Hz].
      * apply Qltb_lt in Hc. unfold decreasing. now apply Qlt_le_weak.
      * rewrite Forall_forall in Hall. now apply Hall.
    + apply Qltb_ge in Hc. constructor; [now constructor|].
      constructor; [exact Hc|].
      rewrite Forall_forall in *. intros z Hz. unfold decreasing.
      apply Qle_trans with (y := key y); [now apply Hall | exact Hc].
Qed.

Lemma sort_desc_sorted {A : Type} (key : A -> Q) (l : list A) :
  StronglySorted (decreasing key) (sort_desc key l).
Proof.
  unfold sort_desc. induction l as [|x l IH]; simpl; [constructor|].
  now apply insert_desc_sorted.
Qed.

Lemma firstn_incl {A : Type} (n : nat) (l : list A) (a : A) :
  In a (firstn n l) -> In a l.
Proof.
  revert l. induction n as [|n IH]; intros [|x l]; simpl; try tauto.
  intros [-> | Hin]; [now left | right; now apply IH].
Qed.

Lemma firstn_sorted {A : Type} (R : A -> A -> Prop) (n : nat) (l : list A) :
  StronglySorted R l -> StronglySorted R (firstn n l).
Proof.
  intros Hs. revert n. induction Hs as [|x l Hs IH Hall]; intros [|n]; simpl;
    try constructor.
  - apply IH.
  - apply Forall_forall. intros y Hy. apply firstn_incl in Hy.
    rewrite Forall_forall in Hall. now apply Hall.
Qed.

(* ===================================================================== *)
(** ** Anomaly detection *)
(* ===================================================================== *)

Section Anomalies.
Context `{Pandas} `{Numpy}.

(** An entry of the pooled list comes from a configured category with at
    least 5 rows, and carries the z-score of the code. *)
Lemma pooled_anomalies_origin (df : DataFrame) (a : Anomaly) :
  In a (AnomalyDetector.pooled_anomalies df) ->
  In (an_category a) Config.DEFAULT_CATEGORIES
  /\ 5 <= len (with_category (an_category a) df)
  /\ z_score a
     = AnomalyDetector.compute_z_score (an_amount a)
         (np_mean (amounts (with_category (an_category a) df)))
         (np_std (amounts (with_category (an_category a) df))).
Proof.
  unfold AnomalyDetector.pooled_anomalies. rewrite in_flat_map.
  intros [category [Hcat Hin]]. unfold AnomalyDetector.category_anomalies in Hin.
  destruct (Z.ltb_spec (len (with_category category df)) 5) as [_ | Hlen]; [contradiction|].
  apply in_map_iff in Hin as [expense [<- _]]. cbn [an_category an_amount z_score].
  repeat split; assumption.
Qed.

(** C5, as the code has it: below 20 records the detector reports
    "Insufficient data" with no entry and no count. From 20 records on, the
    returned list is the first 10 entries of the pooled anomalies sorted by
    decreasing z-score, and the count is the number of pooled anomalies. In
    both cases no returned entry belongs to a category with fewer than 5
    records, and an entry of a category whose standard deviation is 0 has
    z-score 0. *)
Theorem detect_anomalies_report (d : disk) (df : DataFrame) :
  DataManager.load_dataframe d "" = Ok df ->
  exists report,
    AnomalyDetector.detect_anomalies d = Ok report
    /\ (len df < Config.MIN_DATA_POINTS_FOR_ML ->
        report = AnomalyInsufficient "Insufficient data")
    /\ (Config.MIN_DATA_POINTS_FOR_ML <= len df ->
        let sorted := sort_desc z_score (AnomalyDetector.pooled_anomalies df) in
        report = Anomalies (firstn 10 sorted)
                           (len (AnomalyDetector.pooled_anomalies df))
                           Config.ANOMALY_THRESHOLD_SIGMA "statistical_zscore"
        /\ Permutation sorted (AnomalyDetector.pooled_anomalies df)
        /\ StronglySorted (decreasing z_score) sorted
        /\ len (anomalies_of report) <= 10)
    /\ (forall a, In a (anomalies_of report) ->
        5 <= len (with_category (an_category a) df))
    /\ (forall a, In a (anomalies_of report) ->
        (np_std (amounts (with_category (an_category a) df)) == 0)%Q ->
        z_score a = 0%Q).
Proof.
  intros Hload. unfold AnomalyDetector.detect_anomalies. rewrite Hload. cbn [bind].
  destruct (Z.ltb_spec (len df) Config.MIN_DATA_POINTS_FOR_ML) as [Hfew | Hmany].
  - eexists. split; [reflexivity|]. split; [reflexivity|].
    split; [lia|]. split; intros a [].
  - eexists. split; [reflexivity|]. split; [lia|].
    set (sorted := sort_desc z_score (AnomalyDetector.pooled_anomalies df)).
    assert (Hperm : Permutation sorted (AnomalyDetector.pooled_anomalies df))
      by apply sort_desc_perm.
    assert (Horigin : forall a, In a (firstn 10 sorted) ->
                                In a (AnomalyDetector.pooled_anomalies df)).
    { intros a Ha. apply firstn_incl in Ha. now apply (Permutation_in _ Hperm). }
    split; [|split].
    + intros _. cbn zeta. fold sorted. split; [|split; [exact Hperm | split]].
      * unfold len. now rewrite (Permutation_length Hperm).
      * apply sort_desc_sorted.
      * cbn [anomalies_of]. unfold len. pose proof (firstn_le_length 10 sorted). lia.
    + intros a Ha. now apply pooled_anomalies_origin, Horigin.
    + intros a Ha Hstd.
      destruct (pooled_anomalies_origin df a (Horigin a Ha)) as [_ [_ ->]].
      unfold AnomalyDetector.compute_z_score.
      assert (Hz : Qltb 0 (np_std (amounts (with_category (an_category a) df))) = false).
      { apply Qltb_ge. rewrite Hstd. apply Qle_refl. }
      now rewrite Hz.
Qed.

End Anomalies.

Lemma detect_anomalies_report_witness :
  exists report,
    AnomalyDetector.detect_anomalies (Disk (Some (spike_store 19)) true) = Ok report
    /\ map an_id (anomalies_of report) = [20]
    /\ len (anomalies_of report) <= 10.
Proof.
  assert (Hload : { df | DataManager.load_dataframe (Disk (Some (spike_store 19)) true) ""
                         = Ok df })
    by (eexists; vm_compute; reflexivity).
  destruct Hload as [df Hload].
  destruct (detect_anomalies_report (Disk (Some (spike_store 19)) true) df Hload)
    as [report [Hreport [_ [Hmany _]]]].
  exists report. split; [exact Hreport|].
  assert (Hlen : Config.MIN_DATA_POINTS_FOR_ML <= len df).
  { apply load_dataframe_rows, Forall2_row_of_length in Hload.
    unfold len. rewrite Hload. vm_compute. discriminate. }
  destruct (Hmany Hlen) as [_ [_ [_ Hten]]].
  split; [|exact Hten].
  assert (Hrun : AnomalyDetector.detect_anomalies (Disk (Some (spike_store 19)) true)
                 = Ok report) by exact Hreport.
  vm_compute in Hrun. injection Hrun as <-. reflexivity.
Defined.

(** C5 as stated fails below 20 records: six Food records, the last one far
    above the others, make one pooled anomaly, yet the detector returns the
    "Insufficient data" report, with no entry and no count. *)
Lemma detect_anomalies_small_store :
  exists df,
    DataManager.load_dataframe (Disk (Some (spike_store 5)) true) "" = Ok df
    /\ len (with_category "Food" df) = 6
    /\ map an_id (sort_desc z_score (AnomalyDetector.pooled_anomalies df)) = [6]
    /\ AnomalyDetector.detect_anomalies (Disk (Some (spike_store 5)) true)
       = Ok (AnomalyInsufficient "Insufficient data")
    /\ anomalies_of (AnomalyInsufficient "Insufficient data")
       <> firstn 10 (sort_desc z_score (AnomalyDetector.pooled_anomalies df)).
Proof.
  eexists. split; [vm_compute; reflexivity|].
  split; [vm_compute; reflexivity|].
  split; [vm_compute; reflexivity|].
  split; [vm_compute; reflexivity|].
  vm_compute. discriminate.
Qed.

(* ===================================================================== *)
(** ** Next-month forecast *)
(* ===================================================================== *)

Lemma in_flat_map_option {V : Type} (f : string -> option V) (c : string) (v : V)
      (keys : list string) :
  In (c, v) (flat_map (fun k => match f k with Some x => [(k, x)] | None => [] end) keys) ->
  In c keys /\ f c = Some v.
Proof.
  rewrite in_flat_map. intros [k [Hk Hin]].
  destruct (f k) as [x|] eqn:Hf; [|contradiction].
  destruct Hin as [Heq | []]. injection Heq as <- <-. now split.
Qed.

Lemma len_monthly_buckets (rows : DataFrame) : len (monthly_buckets rows) = bucket_count rows.
Proof.
  unfold monthly_buckets, len. rewrite length_map, length_seq.
  pose proof (bucket_count_nonneg rows). lia.
Qed.

Section Forecast.
Context `{Pandas} `{Sklearn}.

(** C6, as the code has it, for a clock at least 180 days after the start of
    the calendar and amounts small enough for the sums to be exact: below 20
    records nothing is predicted. From 20 records on, a configured category
    with fewer than 2 monthly buckets in the window of the last 180 days has
    no entry, and one with at least 3 records over at least 3 monthly
    buckets whose regression fits has an entry. Every predicted amount is
    the integer part of the regression at index = bucket count, floored at
    zero. *)
Theorem predict_next_month_report (d : disk) (now now' : datetime) (df : DataFrame) :
  DataManager.load_dataframe d "" = Ok df ->
  SKLEARN_AVAILABLE = true ->
  window_exists now (Config.PREDICTION_WINDOW_MONTHS * 30) ->
  exact_sums df ->
  exists report,
    SpendingPredictor.predict_next_month d now now' = Ok report
    /\ (len df < Config.MIN_DATA_POINTS_FOR_ML -> predictions_of report = [])
    /\ (Config.MIN_DATA_POINTS_FOR_ML <= len df ->
        forall category, In category Config.DEFAULT_CATEGORIES ->
          let rows := window_rows df (Config.PREDICTION_WINDOW_MONTHS * 30) now category in
          let buckets := monthly_buckets rows in
          (bucket_count rows < 2 -> dict_get category (predictions_of report) = None)
          /\ (3 <= len rows -> 3 <= bucket_count rows ->
              forall model,
                LinearRegression_fit (arange (List.length buckets)) buckets = Ok model ->
                exists p,
                  dict_get category (predictions_of report) = Some p
                  /\ data_points p = bucket_count rows))
    /\ (forall category p, In (category, p) (predictions_of report) ->
        let rows := window_rows df (Config.PREDICTION_WINDOW_MONTHS * 30) now category in
        let buckets := monthly_buckets rows in
        In category Config.DEFAULT_CATEGORIES
        /\ 0 <= predicted_amount p
        /\ exists model,
             LinearRegression_fit (arange (List.length buckets)) buckets = Ok model
             /\ predicted_amount p
                = Z.max 0 (int_of_float (predict model (bucket_count rows)))).
Proof.
  intros Hload Havail Hwindow Hsmall. unfold SpendingPredictor.predict_next_month.
  rewrite Havail, Hload. cbn [negb bind].
  destruct (Z.ltb_spec (len df) Config.MIN_DATA_POINTS_FOR_ML) as [Hfew | Hmany].
  - eexists. split; [reflexivity|]. split; [reflexivity|].
    split; [lia|]. intros category p [].
  - rewrite (minus_days_exists now _ Hwindow). cbn [bind].
    eexists. split; [reflexivity|]. split; [lia|]. cbn [predictions_of].
    set (historical :=
           since (timestamp now - Config.PREDICTION_WINDOW_MONTHS * 30 * microseconds_per_day)
                 df).
    assert (Hcat_rows : forall category,
               SpendingPredictor.predict_category_amount historical category
               = let rows := window_rows df (Config.PREDICTION_WINDOW_MONTHS * 30) now
                                         category in
                 let monthly := monthly_buckets rows in
                 if len rows <? 3 then None
                 else if bucket_count rows <? 2 then None
                 else match LinearRegression_fit (arange (List.length monthly)) monthly with
                      | Raise _ => None
                      | Ok model =>
                          Some {| predicted_amount :=
                                    Z.max 0 (int_of_float (predict model (bucket_count rows)));
                                  confidence := score model (arange (List.length monthly))
                                                      monthly;
                                  trend :=
                                    if Qltb 0 (coef_ model) then "increasing"
                                    else if Qltb (coef_ model) 0 then "decreasing"
                                    else "stable";
                                  historical_average := np_mean monthly;
                                  historical_min :=
                                    inject_Z (fold_right Z.min (hd 0 monthly) monthly);
                                  historical_max :=
                                    inject_Z (fold_right Z.max (hd 0 monthly) monthly);
                                  data_points := bucket_count rows |}
                      end).
    { intros category. unfold SpendingPredictor.predict_category_amount, historical.
      rewrite since_window.
      rewrite resample_MS_monthly_buckets
        by (unfold window_rows; apply exact_sums_filter; exact Hsmall).
      rewrite len_monthly_buckets. reflexivity. }
    split.
    + intros _ category Hcat.
      set (rows := window_rows df (Config.PREDICTION_WINDOW_MONTHS * 30) now category).
      set (buckets := monthly_buckets rows).
      rewrite (dict_get_flat_map
                 (SpendingPredictor.predict_category_amount historical) category _ Hcat).
      rewrite Hcat_rows. cbv zeta. fold rows. fold buckets. split.
      * intros Hb. destruct (_ <? 3); [reflexivity|].
        destruct (Z.ltb_spec (bucket_count rows) 2); [reflexivity | lia].
      * intros Hrows Hb model Hfit.
        destruct (Z.ltb_spec (len rows) 3); [lia|].
        destruct (Z.ltb_spec (bucket_count rows) 2); [lia|].
        rewrite Hfit. eexists. split; reflexivity.
    + intros category p Hin.
      set (rows := window_rows df (Config.PREDICTION_WINDOW_MONTHS * 30) now category).
      set (buckets := monthly_buckets rows).
      apply in_flat_map_option in Hin as [Hcat Hp]. split; [exact Hcat|].
      rewrite Hcat_rows in Hp. cbv zeta in Hp. fold rows in Hp. fold buckets in Hp.
      destruct (_ <? 3); [discriminate|].
      destruct (_ <? 2); [discriminate|].
      destruct (LinearRegression_fit (arange (List.length buckets)) buckets)
        as [model|] eqn:Hfit; [|discriminate].
      injection Hp as <-. cbn [predicted_amount].
      split; [lia|]. exists model. split; reflexivity.
Qed.

End Forecast.

Lemma predict_next_month_report_witness :
  exists report p,
    SpendingPredictor.predict_next_month
      (Disk (Some (forecast_store 17)) true)
      (DateTime (Date 2024 3 25) 0) (DateTime (Date 2024 3 25) 1)
    = Ok report
    /\ dict_get "Food" (predictions_of report) = Some p
    /\ data_points p = 3
    /\ predicted_amount p = 1201
    /\ dict_get "Other" (predictions_of report) = None.
Proof.
  assert (Hload : { df | DataManager.load_dataframe (Disk (Some (forecast_store 17)) true) ""
                         = Ok df })
    by (eexists; vm_compute; reflexivity).
  destruct Hload as [df Hload].
  destruct (predict_next_month_report
              (Disk (Some (forecast_store 17)) true)
              (DateTime (Date 2024 3 25) 0) (DateTime (Date 2024 3 25) 1) df Hload)
    as [report [Hreport _]].
  - reflexivity.
  - vm_compute. repeat split; discriminate.
  - injection Hload as <-. vm_compute. reflexivity.
  - assert (Hrun : SpendingPredictor.predict_next_month
                     (Disk (Some (forecast_store 17)) true)
                     (DateTime (Date 2024 3 25) 0) (DateTime (Date 2024 3 25) 1)
                   = Ok report) by exact Hreport.
    vm_compute in Hrun. injection Hrun as <-.
    eexists. eexists. split; [exact Hreport|].
    split; [vm_compute; reflexivity|]. repeat split.
Defined.

(** C6 as stated fails below 20 records: Food has 3 monthly buckets in the
    window, yet with 4 records in the store nothing is predicted. *)
Lemma predict_next_month_small_store :
  exists df,
    DataManager.load_dataframe (Disk (Some (forecast_store 0)) true) "" = Ok df
    /\ bucket_count (window_rows df (Config.PREDICTION_WINDOW_MONTHS * 30)
                                 (DateTime (Date 2024 3 25) 0) "Food") = 3
    /\ SpendingPredictor.predict_next_month
         (Disk (Some (forecast_store 0)) true)
         (DateTime (Date 2024 3 25) 0) (DateTime (Date 2024 3 25) 1)
       = Ok (ForecastInsufficient "Insufficient data" 20 4)
    /\ dict_get "Food" (predictions_of (ForecastInsufficient "Insufficient data" 20 4))
       = None.
Proof.
  eexists. split; [vm_compute; reflexivity|].
  split; [vm_compute; reflexivity|].
  split; [vm_compute; reflexivity|].
  reflexivity.
Qed.

(** The guard of the loop counts records where its comment speaks of
    months: three Food records over two months are forecast from 2 monthly
    buckets. *)
Example predict_next_month_two_buckets :
  exists report p,
    SpendingPredictor.predict_next_month
      (Disk (Some (two_month_store 17)) true)
      (DateTime (Date 2024 3 25) 0) (DateTime (Date 2024 3 25) 1)
    = Ok report
    /\ dict_get "Food" (predictions_of report) = Some p
    /\ data_points p = 2.
Proof.
  eexists. eexists. split; [vm_compute; reflexivity|].
  split; [vm_compute; reflexivity|]. reflexivity.
Qed.

(* ===================================================================== *)
(** ** Category classifier *)
(* ===================================================================== *)

Section Classifier.
Context `{Pandas} `{Sklearn}.

(** Training on fewer noted records than the minimum fails with a message
    that names the minimum and writes nothing. *)
Lemma train_classifier_too_few_notes
      (d : disk) (md : CategoryClassifier.ModelDir) (df : DataFrame) :
  SKLEARN_AVAILABLE = true ->
  DataManager.load_dataframe d "" = Ok df ->
  len (filter (fun r => negb (r_note r =? "")%string) df) < Config.MIN_NOTES_FOR_TRAINING ->
  CategoryClassifier.train_classifier d md
  = ((false, "Need at least 50 entries with notes"), md).
Proof.
  intros Havail Hload Hfew. unfold CategoryClassifier.train_classifier.
  rewrite Havail, Hload. cbn [negb bind].
  destruct (Z.ltb_spec (len (filter (fun r => negb (r_note r =? "")%string) df))
                       Config.MIN_NOTES_FOR_TRAINING) as [_ | Hge]; [|lia].
  reflexivity.
Qed.

(** Without a pickled model the [open] of [predict_category] raises
    [FileNotFoundError], which its [except] clause does not list. *)
Lemma predict_category_without_model (md : CategoryClassifier.ModelDir) (note : string) :
  SKLEARN_AVAILABLE = true ->
  CategoryClassifier.classifier_model_pkl md = None ->
  CategoryClassifier.predict_category md note
  = Raise (Exn FileNotFoundError
               "[Errno 2] No such file or directory: classifier_model.pkl").
Proof.
  intros Havail Hnone. unfold CategoryClassifier.predict_category.
  rewrite Havail, Hnone. reflexivity.
Qed.

End Classifier.

(** C7: training on 10 noted records fails with the message naming the
    minimum of 50 and leaves the directory without artifacts; the predict
    call that follows does not return the "Model not trained yet" default:
    it raises [FileNotFoundError]. *)
Theorem predict_category_untrained_raises :
  CategoryClassifier.train_classifier (Disk (Some (noted_store 10)) true) empty_model_dir
  = ((false, "Need at least 50 entries with notes"), empty_model_dir)
  /\ CategoryClassifier.predict_category empty_model_dir "lunch at cafe"
     = Raise (Exn FileNotFoundError
                  "[Errno 2] No such file or directory: classifier_model.pkl")
  /\ CategoryClassifier.predict_category empty_model_dir "lunch at cafe"
     <> Ok (NotPredicted "Model not trained yet" "Other" (Some "lunch at cafe")).
Proof.
  split; [|split].
  - eapply train_classifier_too_few_notes;
      [reflexivity | vm_compute; reflexivity | vm_compute; reflexivity].
  - apply predict_category_without_model; reflexivity.
  - rewrite predict_category_without_model by reflexivity. discriminate.
Qed.

(* ===================================================================== *)
(** ** Lookup, add and delete together *)
(* ===================================================================== *)

Lemma add_expense_success (amount : Z) (category date note username msg : string)
      (i : Z) (d d' : disk) :
  DataManager.add_expense amount category date note username d = ((true, msg, Some i), d') ->
  i = py_max_default (map e_id (DataManager.load_data d)) 0 + 1
  /\ DataManager.load_data d'
     = (DataManager.load_data d ++ [Expense i amount category date note (Some username)])%list
  /\ writable d' = true.
Proof.
  unfold DataManager.add_expense.
  destruct (negb _); [discriminate|].
  destruct (negb _); [discriminate|].
  destruct (strptime_Ymd date); [|discriminate].
  destruct (_ >? _); [discriminate|].
  unfold DataManager.save_data. destruct (writable d) eqn:Hw; [|discriminate].
  intros Heq. injection Heq as _ <- <-. cbn. repeat split; try exact Hw.
Qed.

Lemma delete_expense_success (expense_id : Z) (msg : string) (d d' : disk) :
  DataManager.delete_expense expense_id d = ((true, msg), d') ->
  DataManager.load_data d'
  = filter (fun e => negb (e_id e =? expense_id)) (DataManager.load_data d).
Proof.
  unfold DataManager.delete_expense.
  destruct (Nat.eqb _ _); [discriminate|].
  unfold DataManager.save_data. destruct (writable d); [|discriminate].
  intros Heq. injection Heq as _ <-. reflexivity.
Qed.

Lemma find_id_absent (i : Z) (data : list expense) :
  (forall e, In e data -> e_id e <> i) -> find (fun e => e_id e =? i) data = None.
Proof.
  induction data as [|e data IH]; simpl; intros Hne; [reflexivity|].
  destruct (Z.eqb_spec (e_id e) i) as [Heq | _].
  - exfalso. apply (Hne e); [now left | exact Heq].
  - apply IH. intros x Hx. apply Hne. now right.
Qed.

Lemma find_id_snoc (j : Z) (data : list expense) (e : expense) :
  find (fun x => e_id x =? j) (data ++ [e])
  = match find (fun x => e_id x =? j) data with
    | Some x => Some x
    | None => if e_id e =? j then Some e else None
    end.
Proof.
  induction data as [|x data IH]; simpl; [reflexivity|].
  destruct (e_id x =? j); [reflexivity | exact IH].
Qed.

Lemma find_id_filter (i j : Z) (data : list expense) :
  j <> i ->
  find (fun x => e_id x =? j) (filter (fun e => negb (e_id e =? i)) data)
  = find (fun x => e_id x =? j) data.
Proof.
  intros Hne. induction data as [|x data IH]; simpl; [reflexivity|].
  destruct (Z.eqb_spec (e_id x) i) as [Hi | Hi]; simpl.
  - destruct (Z.eqb_spec (e_id x) j) as [Hj | _]; [congruence | exact IH].
  - destruct (e_id x =? j); [reflexivity | exact IH].
Qed.

(** X1: after a successful add, looking the new id up gives the record just
    written, and every other id is looked up as before. *)
Theorem get_expense_after_add
        (amount : Z) (category date note username msg : string) (i : Z) (d d' : disk) :
  DataManager.add_expense amount category date note username d = ((true, msg, Some i), d') ->
  DataManager.get_expense i d' = Some (Expense i amount category date note (Some username))
  /\ (forall j, j <> i -> DataManager.get_expense j d' = DataManager.get_expense j d).
Proof.
  intros Hadd. apply add_expense_success in Hadd as [Hid [Hload _]].
  unfold DataManager.get_expense. rewrite Hload. split.
  - rewrite find_id_snoc, find_id_absent.
    + cbn [e_id]. now rewrite Z.eqb_refl.
    + intros e He.
      pose proof (py_max_default_ge _ 0 _ (in_map e_id _ _ He)). lia.
  - intros j Hj. rewrite find_id_snoc. cbn [e_id].
    destruct (find _ _); [reflexivity|].
    destruct (Z.eqb_spec i j); [congruence | reflexivity].
Qed.

Lemma get_expense_after_add_witness :
  DataManager.get_expense 5
    (Disk (Some [Expense 4 100 "Other" "2024-01-01" "" None;
                 Expense 5 500 "Food" "2024-01-15" "lunch" (Some "alice")]) true)
  = Some (Expense 5 500 "Food" "2024-01-15" "lunch" (Some "alice")).
Proof.
  apply (get_expense_after_add 500 "Food" "2024-01-15" "lunch" "alice"
           "Expense added successfully (ID: 5)" 5
           (Disk (Some [Expense 4 100 "Other" "2024-01-01" "" None]) true)).
  vm_compute. reflexivity.
Defined.

(** X2: after a successful delete the id is no longer found, and every other id
    is looked up as before. *)
Theorem get_expense_after_delete (expense_id : Z) (msg : string) (d d' : disk) :
  DataManager.delete_expense expense_id d = ((true, msg), d') ->
  DataManager.get_expense expense_id d' = None
  /\ (forall j, j <> expense_id ->
      DataManager.get_expense j d' = DataManager.get_expense j d).
Proof.
  intros Hdel. apply delete_expense_success in Hdel.
  unfold DataManager.get_expense. rewrite Hdel. split.
  - apply find_id_absent. intros e He. apply filter_In in He as [_ He].
    now apply negb_true_iff, Z.eqb_neq in He.
  - intros j Hj. now apply find_id_filter.
Qed.

Lemma get_expense_after_delete_witness :
  DataManager.get_expense 1
    (Disk (Some [Expense 2 80 "Transport" "2024-01-16" "bus" None]) true) = None.
Proof.
  apply (get_expense_after_delete 1 "Expense 1 deleted successfully"
           (Disk (Some [Expense 1 500 "Food" "2024-01-15" "lunch" None;
                        Expense 2 80 "Transport" "2024-01-16" "bus" None]) true)).
  vm_compute. reflexivity.
Defined.

(** X3: deleting the id a successful add returned succeeds and gives back the
    records the store had before the add. *)
Theorem delete_undoes_add
        (amount : Z) (category date note username msg : string) (i : Z) (d d1 : disk) :
  DataManager.add_expense amount category date note username d = ((true, msg, Some i), d1) ->
  exists d2,
    DataManager.delete_expense i d1
    = ((true, "Expense " ++ str_of_Z i ++ " deleted successfully"), d2)
    /\ DataManager.load_data d2 = DataManager.load_data d.
Proof.
  intros Hadd. apply add_expense_success in Hadd as [Hid [Hload Hw]].
  destruct (proj2 (delete_expense_by_id i d1)) as [d2 [Hdel [Hstore _]]].
  - rewrite Hload. eexists. split; [apply in_or_app; right; now left | reflexivity].
  - exact Hw.
  - exists d2. split; [exact Hdel|].
    rewrite Hstore, Hload, filter_app. cbn [filter e_id]. rewrite Z.eqb_refl.
    cbn [negb]. rewrite app_nil_r. apply filter_id_all.
    intros e He. apply negb_true_iff, Z.eqb_neq.
    pose proof (py_max_default_ge _ 0 _ (in_map e_id _ _ He)). lia.
Qed.

Lemma delete_undoes_add_witness :
  exists d2,
    DataManager.delete_expense 5
      (Disk (Some [Expense 4 100 "Other" "2024-01-01" "" None;
                   Expense 5 500 "Food" "2024-01-15" "lunch" (Some "alice")]) true)
    = ((true, "Expense 5 deleted successfully"), d2)
    /\ DataManager.load_data d2 = [Expense 4 100 "Other" "2024-01-01" "" None].
Proof.
  apply (delete_undoes_add 500 "Food" "2024-01-15" "lunch" "alice"
           "Expense added successfully (ID: 5)" 5
           (Disk (Some [Expense 4 100 "Other" "2024-01-01" "" None]) true)).
  vm_compute. reflexivity.
Defined.

(** X4: an add that fails a validation touches nothing: the result is a failure
    without id and the disk is the one given. *)
Theorem add_expense_invalid_no_write
        (amount : Z) (category date note username : string) (d : disk) :
  amount < Config.MIN_EXPENSE_AMOUNT \/ Config.MAX_EXPENSE_AMOUNT < amount
  \/ ~ In category Config.DEFAULT_CATEGORIES
  \/ (exists e, strptime_Ymd date = Raise e)
  \/ Config.MAX_NOTE_LENGTH < Z.of_nat (String.length note) ->
  exists msg,
    DataManager.add_expense amount category date note username d
    = ((false, msg, None), d).
Proof.
  intros Hbad. unfold DataManager.add_expense.
  destruct (andb _ _) eqn:Hamount; cbn [negb]; [|eexists; reflexivity].
  apply andb_true_iff in Hamount as [Hlo Hhi]. apply Z.leb_le in Hlo, Hhi.
  destruct (existsb _ _) eqn:Hcat; cbn [negb]; [|eexists; reflexivity].
  apply existsb_eqb_In in Hcat.
  destruct (strptime_Ymd date) as [dt|e] eqn:Hdate; [|eexists; reflexivity].
  destruct (Z.gtb_spec (Z.of_nat (String.length note)) Config.MAX_NOTE_LENGTH) as [Hlong | Hshort];
    [eexists; reflexivity|].
  exfalso. destruct Hbad as [H | [H | [H | [[e H] | H]]]]; try lia; try contradiction.
  discriminate.
Qed.

Lemma add_expense_invalid_no_write_witness :
  exists msg,
    DataManager.add_expense 500 "Food" "2024-02-30" "lunch" "alice"
      (Disk (Some [Expense 4 100 "Other" "2024-01-01" "" None]) true)
    = ((false, msg, None), Disk (Some [Expense 4 100 "Other" "2024-01-01" "" None]) true).
Proof.
  apply (add_expense_invalid_no_write 500 "Food" "2024-02-30" "lunch" "alice").
  right. right. right. left. eexists. vm_compute. reflexivity.
Defined.

(* ===================================================================== *)
(** ** Filtering, export and import *)
(* ===================================================================== *)

Lemma filter_all {A : Type} (l : list A) : filter (fun _ => true) l = l.
Proof.
  induction l as [|a l IH]; simpl; [reflexivity | now rewrite IH].
Qed.

Section FilterExport.
Context `{Pandas}.

Lemma filter_none {A : Type} (l : list A) : filter (fun _ => false) l = [].
Proof.
  induction l as [|a l IH]; simpl; [reflexivity | exact IH].
Qed.

Lemma compare_dates_filter (keep : Z -> Z -> bool) (bound : option string)
      (df out : DataFrame) :
  match truthy bound with
  | None => Ok df
  | Some s => DataManager.compare_dates keep s df
  end = Ok out ->
  exists b, parsed_bound bound = Ok b /\ out = filter (passes keep b) df.
Proof.
  unfold parsed_bound, DataManager.compare_dates.
  destruct (truthy bound) as [s|].
  - destruct (Timestamp_of s) as [| |dt ns]; [discriminate| |].
    + intros Heq. injection Heq as <-. exists NaTBound.
      split; [reflexivity|]. cbn [passes]. now rewrite filter_none.
    + intros Heq. injection Heq as <-. now exists (Bound (instant dt ns)).
  - intros Heq. injection Heq as <-. exists NoBound.
    split; [reflexivity|]. cbn [passes]. now rewrite filter_all.
Qed.

Lemma rows_from_filter (bound : option string) (df out : DataFrame) :
  DataManager.rows_from bound df = Ok out ->
  exists lo, parsed_bound bound = Ok lo /\ out = filter (passes Z.geb lo) df.
Proof.
  apply compare_dates_filter.
Qed.

Lemma rows_until_filter (bound : option string) (df out : DataFrame) :
  DataManager.rows_until bound df = Ok out ->
  exists hi, parsed_bound bound = Ok hi /\ out = filter (passes Z.leb hi) df.
Proof.
  apply compare_dates_filter.
Qed.

(** X5: [filter_expenses] returns, in table order, the rows that meet every
    criterion given: a category that is absent or empty and a bound that is
    absent or empty select nothing out, while an amount bound of 0 is
    applied. An empty table is returned as it is, before any bound is
    parsed. *)
Theorem filter_expenses_selects
        (d : disk) (category start_date end_date : option string)
        (min_amount max_amount : option Z) (df rows : DataFrame) :
  DataManager.load_dataframe d "" = Ok df ->
  DataManager.filter_expenses d category start_date end_date min_amount max_amount
  = Ok rows ->
  (df = [] -> rows = [])
  /\ (df <> [] ->
      exists lo hi,
        parsed_bound start_date = Ok lo
        /\ parsed_bound end_date = Ok hi
        /\ rows = filter (row_matches (truthy category) lo hi min_amount max_amount) df).
Proof.
  intros Hload. unfold DataManager.filter_expenses. rewrite Hload. cbn [bind].
  destruct df as [|r0 df0].
  - intros Heq. injection Heq as <-. split; [reflexivity | intros Hne; now contradiction Hne].
  - set (df := r0 :: df0).
    set (by_category :=
           match truthy category with
           | Some c => filter (fun r => (r_category r =? c)%string) df
           | None => df
           end).
    assert (Hcat : by_category
                   = filter (fun r => match truthy category with
                                      | Some c => (r_category r =? c)%string
                                      | None => true
                                      end) df).
    { unfold by_category. destruct (truthy category); [reflexivity | now rewrite filter_all]. }
    clearbody by_category.
    destruct (DataManager.rows_from start_date by_category) as [from|] eqn:Hfrom;
      cbn [bind]; [|discriminate].
    destruct (DataManager.rows_until end_date from) as [upto|] eqn:Huntil;
      cbn [bind]; [|discriminate].
    intros Heq. injection Heq as <-. split; [discriminate|]. intros _.
    apply rows_from_filter in Hfrom as [lo [Hlo ->]].
    apply rows_until_filter in Huntil as [hi [Hhi ->]].
    exists lo, hi. split; [exact Hlo|]. split; [exact Hhi|].
    rewrite Hcat.
    assert (Hmin : forall l,
               match min_amount with
               | Some m => filter (fun r => m <=? r_amount r) l
               | None => l
               end
               = filter (fun r => match min_amount with
                                  | Some m => m <=? r_amount r
                                  | None => true
                                  end) l).
    { intros l. destruct min_amount; [reflexivity | now rewrite filter_all]. }
    assert (Hmax : forall l,
               match max_amount with
               | Some m => filter (fun r => r_amount r <=? m) l
               | None => l
               end
               = filter (fun r => match max_amount with
                                  | Some m => r_amount r <=? m
                                  | None => true
                                  end) l).
    { intros l. destruct max_amount; [reflexivity | now rewrite filter_all]. }
    rewrite Hmax, Hmin, !filter_twice.
    apply filter_ext. intros r. cbv beta. unfold row_matches.
    now rewrite !andb_assoc.
Qed.

(** X6: a file is written only on success, only for a non-empty table, and
    never at a given path whose text contains [..]; it then holds the whole
    unscoped table and the message counts its rows. *)
Theorem export_to_csv_writes_only_safe
        (data_dir : string) (write : string -> result unit) (d : disk)
        (output_path : option string) (ok : bool) (msg p : string) (table : DataFrame) :
  DataManager.export_to_csv data_dir write d output_path = ((ok, msg), Some (p, table)) ->
  ok = true
  /\ DataManager.load_dataframe d "" = Ok table
  /\ table <> []
  /\ write p = Ok tt
  /\ msg = "Exported " ++ str_of_Z (len table) ++ " expenses to " ++ p
  /\ match output_path with
     | Some given => p = given /\ contains ".." given = false
     | None => p = data_dir ++ "/expenses_export.csv"
     end.
Proof.
  unfold DataManager.export_to_csv.
  destruct (DataManager.load_dataframe d "") as [[|r0 df0]|e]; try discriminate.
  destruct output_path as [given|].
  - destruct (contains ".." given) eqn:Hdots; [discriminate|].
    destruct (write given) as [[]|e] eqn:Hwrite.
    + intros Heq. injection Heq as <- <- <- <-. repeat split; try assumption. discriminate.
    + destruct (issubclass (exn_class e) OSError); discriminate.
  - destruct (write (data_dir ++ "/expenses_export.csv")) as [[]|e] eqn:Hwrite.
    + intros Heq. injection Heq as <- <- <- <-. repeat split; try assumption. discriminate.
    + destruct (issubclass (exn_class e) OSError); discriminate.
Qed.

End FilterExport.

Lemma prefix_app (n s : string) : String.prefix n (n ++ s) = true.
Proof.
  induction n as [|c n IH]; simpl; [now destruct s|].
  destruct (Ascii.ascii_dec c c) as [_ | Hne]; [exact IH | now contradiction Hne].
Qed.

(** [contains needle] finds every occurrence. *)
Lemma contains_app (needle a b : string) : contains needle (a ++ needle ++ b) = true.
Proof.
  induction a as [|c a IH]; cbn [append].
  - destruct (needle ++ b) eqn:Hs; cbn [contains]; rewrite <- Hs, prefix_app; reflexivity.
  - cbn [contains]. destruct (String.prefix needle (String c (a ++ needle ++ b)));
      [reflexivity | exact IH].
Qed.

Lemma filter_expenses_selects_witness :
  DataManager.filter_expenses
    (Disk (Some [Expense 1 500 "Food" "2024-01-15" "lunch" None;
                 Expense 2 0 "Food" "2024-01-20" "voucher" None;
                 Expense 3 90 "Travel" "2024-02-11" "bus" None]) true)
    (Some "Food") (Some "") (Some "2024-01-31") (Some 0) None
  = Ok [Row 1 500 "Food" (Date 2024 1 15) 0 "lunch" None;
        Row 2 0 "Food" (Date 2024 1 20) 0 "voucher" None].
Proof.
  pose (d := Disk (Some [Expense 1 500 "Food" "2024-01-15" "lunch" None;
                         Expense 2 0 "Food" "2024-01-20" "voucher" None;
                         Expense 3 90 "Travel" "2024-02-11" "bus" None]) true).
  pose (df := [Row 1 500 "Food" (Date 2024 1 15) 0 "lunch" None;
               Row 2 0 "Food" (Date 2024 1 20) 0 "voucher" None;
               Row 3 90 "Travel" (Date 2024 2 11) 0 "bus" None]).
  destruct (DataManager.filter_expenses d (Some "Food") (Some "") (Some "2024-01-31")
                                        (Some 0) None) as [rows|e] eqn:Hrun;
    [|vm_compute in Hrun; discriminate].
  destruct (filter_expenses_selects d (Some "Food") (Some "") (Some "2024-01-31")
                                    (Some 0) None df rows) as [_ Hsel].
  - vm_compute. reflexivity.
  - exact Hrun.
  - destruct Hsel as [lo [hi [Hlo [Hhi ->]]]]; [discriminate|].
    vm_compute in Hlo, Hhi. injection Hlo as <-. injection Hhi as <-.
    vm_compute. reflexivity.
Defined.

Lemma export_to_csv_writes_only_safe_witness :
  DataManager.load_dataframe
    (Disk (Some [Expense 1 500 "Food" "2024-01-15" "lunch" None]) true) ""
  = Ok [Row 1 500 "Food" (Date 2024 1 15) 0 "lunch" None]
  /\ contains ".." "out/jan.csv" = false.
Proof.
  destruct (export_to_csv_writes_only_safe "data" (fun _ => Ok tt)
              (Disk (Some [Expense 1 500 "Food" "2024-01-15" "lunch" None]) true)
              (Some "out/jan.csv") true "Exported 1 expenses to out/jan.csv" "out/jan.csv"
              [Row 1 500 "Food" (Date 2024 1 15) 0 "lunch" None])
    as [_ [Hload [_ [_ [_ [_ Hsafe]]]]]].
  - vm_compute. reflexivity.
  - split; [exact Hload | exact Hsafe].
Defined.

(** X7: an export to a given path whose text has [..] anywhere in it, a harmless
    file name like [report..csv] included, writes nothing; on a non-empty
    table it answers with the path-traversal message. *)
Theorem export_to_csv_rejects_dotdot `{Pandas}
        (data_dir : string) (write : string -> result unit) (d : disk) (a b : string)
        (df : DataFrame) :
  DataManager.load_dataframe d "" = Ok df ->
  df <> [] ->
  DataManager.export_to_csv data_dir write d (Some (a ++ ".." ++ b))
  = ((false, "Output path cannot contain '..' (path traversal not allowed)"), None).
Proof.
  intros Hload Hne. unfold DataManager.export_to_csv. rewrite Hload.
  destruct df as [|r0 df0]; [now contradiction Hne|].
  now rewrite contains_app.
Qed.

Lemma export_to_csv_rejects_dotdot_witness :
  DataManager.export_to_csv "data" (fun _ => Ok tt)
    (Disk (Some [Expense 1 500 "Food" "2024-01-15" "lunch" None]) true)
    (Some ("report" ++ ".." ++ "csv"))
  = ((false, "Output path cannot contain '..' (path traversal not allowed)"), None).
Proof.
  apply (export_to_csv_rejects_dotdot "data" (fun _ => Ok tt)
           (Disk (Some [Expense 1 500 "Food" "2024-01-15" "lunch" None]) true)
           "report" "csv" [Row 1 500 "Food" (Date 2024 1 15) 0 "lunch" None]).
  - vm_compute. reflexivity.
  - discriminate.
Defined.

Lemma import_rows_fields (rs : list csv_row) :
  forall (existing_data : list expense) (next_id imported_count : Z)
         (data : list expense) (n : Z),
    DataManager.import_rows rs existing_data next_id imported_count = Ok (data, n) ->
    exists imported,
      data = (existing_data ++ imported)%list
      /\ map expense_fields imported = converted_rows rs.
Proof.
  induction rs as [|r rs IH]; intros existing_data next_id imported_count data n; simpl.
  - intros Heq. injection Heq as <- <-. exists []. now rewrite app_nil_r.
  - unfold converted_rows. cbn [flat_map]. fold (converted_rows rs).
    destruct (row_amount r) as [a| | |]; [| apply IH | apply IH | discriminate].
    intros Hrec. apply IH in Hrec as [imported [Hdata Hfields]].
    eexists (_ :: imported). split.
    + rewrite Hdata, <- app_assoc. reflexivity.
    + cbn [map app expense_fields e_amount e_category e_date e_note].
      now rewrite Hfields.
Qed.

(** X8: a successful import appends one record per row whose amount converts,
    in row order, with the row's amount, category, date and note and with
    consecutive ids above the largest id of the store; rows whose amount
    does not convert are skipped, and the reported count is the number of
    rows kept. *)
Theorem import_from_csv_keeps_convertible_rows
        (src : csv_source) (d d' : disk) (msg : string) (n : Z) :
  DataManager.import_from_csv src d = ((true, msg, n), d') ->
  exists frame imported,
    read_csv src = Ok frame
    /\ DataManager.load_data d' = (DataManager.load_data d ++ imported)%list
    /\ map expense_fields imported = converted_rows (rows frame)
    /\ n = len (converted_rows (rows frame))
    /\ map e_id imported
       = map (fun k => py_max_default (map e_id (DataManager.load_data d)) 0 + 1
                       + Z.of_nat k)
             (seq 0 (List.length imported))
    /\ msg = "Imported " ++ str_of_Z n ++ " expenses successfully".
Proof.
  intros Himp.
  assert (Hmsg : msg = "Imported " ++ str_of_Z n ++ " expenses successfully").
  { revert Himp. unfold DataManager.import_from_csv.
    destruct (csv_exists src); cbn [negb]; [|discriminate].
    destruct (csv_is_file src); cbn [negb]; [|discriminate].
    destruct (lower (csv_suffix src) =? ".csv")%string; cbn [negb]; [|discriminate].
    destruct (read_csv src) as [frame|e].
    2:{ destruct (issubclass (exn_class e) EmptyDataError); [discriminate|].
        destruct (issubclass (exn_class e) ParserError); [discriminate|].
        destruct (issubclass (exn_class e) OSError); discriminate. }
    destruct (forallb _ _); cbn [negb]; [|discriminate].
    destruct (DataManager.import_rows _ _ _ _) as [[data cnt]|e]; [|discriminate].
    destruct (DataManager.save_data data d) as [[|] d0]; [|discriminate].
    intros Heq. injection Heq as <- <- _. reflexivity. }
  apply import_from_csv_success in Himp as [frame [data [Hread [Hrows Hload]]]].
  destruct (import_rows_appends _ _ _ _ _ _ Hrows) as [imported [Hdata [Hlen [_ Hids]]]].
  destruct (import_rows_fields _ _ _ _ _ _ Hrows) as [imported' [Hdata' Hfields]].
  assert (imported' = imported) by (rewrite Hdata in Hdata'; now apply app_inv_head in Hdata').
  subst imported'.
  exists frame, imported. split; [exact Hread|]. split; [now rewrite Hload|].
  split; [exact Hfields|]. split; [|split; [exact Hids | exact Hmsg]].
  rewrite <- Hfields. unfold len in *. rewrite length_map. lia.
Qed.

Lemma import_from_csv_keeps_convertible_rows_witness :
  exists frame imported,
    read_csv (CsvSource "bank.csv" true true ".CSV"
                (Ok (CsvFrame ["amount"; "category"; "date"; "note"]
                       [CsvRow (IntOk 80) "Transport" "2024-01-16" (Some "");
                        CsvRow IntValueError "Food" "2024-01-17" (Some "n/a")])))
    = Ok frame
    /\ map expense_fields imported = converted_rows (rows frame)
    /\ 1 = len (converted_rows (rows frame)).
Proof.
  destruct (import_from_csv_keeps_convertible_rows
              (CsvSource "bank.csv" true true ".CSV"
                 (Ok (CsvFrame ["amount"; "category"; "date"; "note"]
                        [CsvRow (IntOk 80) "Transport" "2024-01-16" (Some "");
                         CsvRow IntValueError "Food" "2024-01-17" (Some "n/a")])))
              (Disk (Some [Expense 1 500 "Food" "2024-01-15" "lunch" (Some "alice")]) true)
              (Disk (Some [Expense 1 500 "Food" "2024-01-15" "lunch" (Some "alice");
                           Expense 2 80 "Transport" "2024-01-16" "" None]) true)
              "Imported 1 expenses successfully" 1)
    as [frame [imported [H1 [_ [H3 [H4 _]]]]]].
  - vm_compute. reflexivity.
  - exists frame, imported. split; [exact H1 | split; [exact H3 | exact H4]].
Defined.

(** X9: an import that reports failure leaves the disk as it was and counts no
    row, whatever made it fail. *)
Theorem import_from_csv_failure_keeps_store
        (src : csv_source) (d d' : disk) (msg : string) (n : Z) :
  DataManager.import_from_csv src d = ((false, msg, n), d') ->
  d' = d /\ n = 0.
Proof.
  unfold DataManager.import_from_csv.
  destruct (csv_exists src); cbn [negb];
    [|intros Heq; injection Heq as _ <- <-; now split].
  destruct (csv_is_file src); cbn [negb];
    [|intros Heq; injection Heq as _ <- <-; now split].
  destruct (lower (csv_suffix src) =? ".csv")%string; cbn [negb];
    [|intros Heq; injection Heq as _ <- <-; now split].
  destruct (read_csv src) as [frame|e].
  2:{ destruct (issubclass (exn_class e) EmptyDataError);
        [intros Heq; injection Heq as _ <- <-; now split|].
      destruct (issubclass (exn_class e) ParserError);
        [intros Heq; injection Heq as _ <- <-; now split|].
      destruct (issubclass (exn_class e) OSError);
        intros Heq; injection Heq as _ <- <-; now split. }
  destruct (forallb _ _); cbn [negb];
    [|intros Heq; injection Heq as _ <- <-; now split].
  destruct (DataManager.import_rows _ _ _ _) as [[data cnt]|e];
    [|intros Heq; injection Heq as _ <- <-; now split].
  unfold DataManager.save_data. destruct (writable d); [discriminate|].
  intros Heq. injection Heq as _ <- <-. now split.
Qed.

Lemma import_from_csv_failure_keeps_store_witness :
  Disk (Some [Expense 1 500 "Food" "2024-01-15" "lunch" None]) true
  = Disk (Some [Expense 1 500 "Food" "2024-01-15" "lunch" None]) true
  /\ 0 = 0.
Proof.
  apply (import_from_csv_failure_keeps_store
           (CsvSource "bank.csv" true true ".csv"
              (Ok (CsvFrame ["amount"; "category"; "date"]
                     [CsvRow (IntOk 80) "Transport" "2024-01-16" None;
                      CsvRow IntOverflowError "Food" "2024-01-17" None])))
           (Disk (Some [Expense 1 500 "Food" "2024-01-15" "lunch" None]) true)
           (Disk (Some [Expense 1 500 "Food" "2024-01-15" "lunch" None]) true)
           "Import failed: cannot convert float infinity to integer" 0).
  vm_compute. reflexivity.
Defined.

(* ===================================================================== *)
(** ** Printing and reading dates *)
(* ===================================================================== *)

Lemma all_years_read_back :
  forallb year_reads_back (map Z.of_nat (seq 1 (Z.to_nat 9999))) = true.
Proof. vm_compute. reflexivity. Qed.

Lemma all_month_days_read_back :
  forallb (fun m => forallb (month_day_reads_back m)
                           (map Z.of_nat (seq 1 (Z.to_nat 31))))
          (map Z.of_nat (seq 1 (Z.to_nat 12))) = true.
Proof. vm_compute. reflexivity. Qed.

Lemma in_range_seq (n z : Z) :
  1 <= z <= n -> In z (map Z.of_nat (seq 1 (Z.to_nat n))).
Proof.
  intros Hz. apply in_map_iff. exists (Z.to_nat z). split; [lia|].
  apply in_seq. lia.
Qed.

Lemma match_Y_isoformat (y : Z) (rest : string) :
  1 <= y <= 9999 ->
  match_Y (zero_pad 4 (str_of_Z y) ++ rest) = Some (y, rest).
Proof.
  intros Hy.
  pose proof all_years_read_back as Hall. rewrite forallb_forall in Hall.
  specialize (Hall y (in_range_seq 9999 y Hy)).
  unfold year_reads_back in Hall.
  destruct (zero_pad 4 (str_of_Z y)) as [|a [|b [|c [|e [|? ?]]]]]; try discriminate.
  cbn [append match_Y].
  destruct (digit a) as [w|]; [|discriminate].
  destruct (digit b) as [x|]; [|discriminate].
  destruct (digit c) as [v|]; [|discriminate].
  destruct (digit e) as [z|]; [|discriminate].
  apply Z.eqb_eq in Hall. now rewrite Hall.
Qed.

Lemma strptime_of_isoformat (d : date) :
  valid_date d = true -> strptime_Ymd (isoformat d) = Ok d.
Proof.
  intros Hv. destruct d as [y m dd].
  pose proof Hv as Hv'. unfold valid_date in Hv'. cbn [year month day] in Hv'.
  rewrite !andb_true_iff, !Z.leb_le in Hv'.
  destruct Hv' as [[Hy1 Hy2] [[Hm1 Hm2] [Hd1 Hd2]]].
  assert (Hd31 : dd <= 31).
  { unfold days_in_month in Hd2.
    destruct (m =? 2); [destruct (is_leap y); lia|].
    destruct (orb _ _); lia. }
  unfold strptime_Ymd, isoformat. cbn [year month day].
  rewrite match_Y_isoformat by lia.
  fold (month_day_text m dd).
  pose proof all_month_days_read_back as Hall. rewrite forallb_forall in Hall.
  specialize (Hall m (in_range_seq 12 m (conj Hm1 Hm2))).
  rewrite forallb_forall in Hall.
  specialize (Hall dd (in_range_seq 31 dd (conj Hd1 Hd31))).
  unfold month_day_reads_back in Hall.
  destruct (match_dash (month_day_text m dd)) as [r|]; [|discriminate].
  destruct (match_md (match_m r)) as [[[m' d'] rest]|]; [|discriminate].
  rewrite !andb_true_iff in Hall. destruct Hall as [[Hm Hd] Hrest].
  apply Z.eqb_eq in Hm, Hd. subst m' d'. rewrite Hrest. now rewrite Hv.
Qed.

(** X10: a valid date printed by [isoformat] is read back by [strptime_Ymd] as
    the same date: the date text of a report entry is one [add_expense]
    accepts, for the same day. *)
Theorem strptime_reads_isoformat (d : date) :
  valid_date d = true -> strptime_Ymd (isoformat d) = Ok d.
Proof.
  exact (strptime_of_isoformat d).
Qed.

Lemma strptime_reads_isoformat_witness :
  strptime_Ymd (isoformat (Date 2024 2 29)) = Ok (Date 2024 2 29).
Proof.
  apply (strptime_reads_isoformat (Date 2024 2 29)). vm_compute. reflexivity.
Defined.

(** Two valid dates with the same text are the same date. *)
Lemma isoformat_injective (a b : date) :
  valid_date a = true -> valid_date b = true -> isoformat a = isoformat b -> a = b.
Proof.
  intros Ha Hb Heq. apply strptime_of_isoformat in Ha, Hb.
  rewrite Heq in Ha. congruence.
Qed.

(* ===================================================================== *)
(** ** Daily, monthly and category summaries together *)
(* ===================================================================== *)

Lemma sumZ_by_key (key : row -> Z) (keys : list Z) (df : DataFrame) :
  NoDup keys ->
  (forall r, In r df -> In (key r) keys) ->
  sumZ (map (fun k => sumZ (amounts (filter (fun r => key r =? k) df))) keys)
  = sumZ (amounts df).
Proof.
  intros Hnd. induction df as [|r df IH]; intros Hcover.
  - simpl. clear Hnd Hcover. induction keys as [|k keys IHk]; simpl; [reflexivity | exact IHk].
  - rewrite (map_ext _ (fun k => (if key r =? k then r_amount r else 0)
                                 + sumZ (amounts (filter (fun r => key r =? k) df)))).
    + rewrite sumZ_map_add, IH by (intros r' Hr'; apply Hcover; now right).
      f_equal.
      assert (Hin : In (key r) keys) by (apply Hcover; now left).
      clear IH Hcover. induction Hnd as [|k keys Hnotin Hnd IHk]; [contradiction|].
      simpl. destruct (Z.eqb_spec (key r) k) as [Heq | Hne].
      * assert (Hzero : sumZ (map (fun k0 => if key r =? k0 then r_amount r else 0) keys) = 0).
        { clear IHk Hin Hnd. induction keys as [|k' keys IH']; simpl; [reflexivity|].
          destruct (Z.eqb_spec (key r) k') as [Heq' | _].
          - exfalso. apply Hnotin. left. congruence.
          - apply IH'. intros Hin. apply Hnotin. now right. }
        rewrite Hzero. simpl. lia.
      * destruct Hin as [Heq | Hin]; [congruence|]. now apply IHk.
    + intros k. cbn [filter]. destruct (key r =? k); reflexivity.
Qed.

Lemma day_get_flat_map {V : Type} (f : nat -> option V) (k : nat) (keys : list nat) :
  NoDup keys -> In k keys ->
  day_get (Z.of_nat k)
          (flat_map (fun n => match f n with Some v => [(Z.of_nat n, v)] | None => [] end) keys)
  = f k.
Proof.
  induction 1 as [|n keys Hnotin Hnd IH]; [intros []|].
  intros Hin. cbn [flat_map].
  destruct (Nat.eq_dec n k) as [-> | Hne].
  - destruct (f k) as [v|] eqn:Hf; cbn [app day_get].
    + now rewrite Z.eqb_refl.
    + clear IH Hin Hnd. induction keys as [|n' keys IH']; [reflexivity|].
      cbn [flat_map].
      assert (Hn' : n' <> k) by (intros ->; apply Hnotin; now left).
      assert (Hrest : ~ In k keys) by (intros Hk; apply Hnotin; now right).
      destruct (f n') as [v'|]; cbn [app day_get]; [|now apply IH'].
      destruct (Z.eqb_spec (Z.of_nat n') (Z.of_nat k)) as [Heq | _]; [lia | now apply IH'].
  - destruct Hin as [-> | Hin]; [contradiction|].
    destruct (f n) as [v|]; cbn [app day_get]; [|now apply IH].
    destruct (Z.eqb_spec (Z.of_nat n) (Z.of_nat k)) as [Heq | _]; [lia | now apply IH].
Qed.

Lemma sumQ_app (l1 l2 : list Q) : (sumQ (l1 ++ l2) == sumQ l1 + sumQ l2)%Q.
Proof.
  induction l1 as [|q l1 IH]; simpl.
  - now rewrite Qplus_0_l.
  - rewrite IH. apply Qplus_assoc.
Qed.

Lemma daily_breakdown_sum (rows : DataFrame) (days : list nat) :
  exact_sums rows ->
  (sumQ (map snd
           (flat_map (fun n =>
                        let dd := Z.of_nat n in
                        let day_data := filter (fun r => day (r_date r) =? dd) rows in
                        if 0 <? len day_data
                        then [(dd, float_of_int (sum64 (amounts day_data)))] else [])
                     days))
   == inject_Z (sumZ (map (fun n => sumZ (amounts (filter (fun r => day (r_date r) =? Z.of_nat n)
                                                          rows)))
                          days)))%Q.
Proof.
  intros Hsmall.
  induction days as [|n days IH]; [simpl; reflexivity|].
  cbn [flat_map map]. rewrite map_app, sumQ_app, IH.
  cbn [sumZ fold_right]. fold (sumZ (map (fun n0 => sumZ (amounts (filter (fun r => day (r_date r) =? Z.of_nat n0) rows))) days)).
  rewrite inject_Z_plus. apply Qplus_comp; [|reflexivity].
  cbv zeta.
  destruct (Z.ltb_spec 0 (len (filter (fun r => day (r_date r) =? Z.of_nat n) rows)))
    as [_ | Hempty].
  - cbn [map snd sumQ fold_right]. rewrite (float_sum64_filter_exact _ rows Hsmall).
    apply Qplus_0_r.
  - assert (Hnil : filter (fun r => day (r_date r) =? Z.of_nat n) rows = []).
    { destruct (filter _ rows); [reflexivity|]. unfold len in Hempty.
      simpl in Hempty. lia. }
    rewrite Hnil. simpl. reflexivity.
Qed.

Section Summaries.
Context `{Pandas}.

(** X11: when the amounts of the table are small enough for its sums to be
    exact, the numbers of one [monthly_summary] agree with each other: the
    daily breakdown and the by-category totals each add up to the total, and
    the transaction count is the number of rows of the month. *)
Theorem monthly_summary_adds_up
        (d : disk) (y m : Z) (now : datetime) (df : DataFrame) (ms : MonthlySummary) :
  DataManager.load_dataframe d "" = Ok df ->
  exact_sums df ->
  Analytics.monthly_summary d (Some y) (Some m) now = Ok ms ->
  (sumQ (map snd (ms_daily_breakdown ms)) == ms_total ms)%Q
  /\ (inject_Z (sumZ (map snd (ms_by_category ms))) == ms_total ms)%Q
  /\ ms_transaction_count ms
     = len (filter (fun r => andb (year (r_date r) =? y) (month (r_date r) =? m)) df).
Proof.
  intros Hload Hsmall. pose proof (load_dataframe_valid_dates d df Hload) as Hvalid.
  unfold Analytics.monthly_summary. rewrite Hload. cbn [bind].
  destruct df as [|r0 df0].
  - destruct (py_getitem Config.MONTHS_ABBREVIATION (m - 1)); cbn [bind]; [|discriminate].
    intros Heq. injection Heq as <-. cbn. repeat split; reflexivity.
  - set (month_data := filter (fun r => andb (year (r_date r) =? y) (month (r_date r) =? m))
                              (r0 :: df0)).
    assert (Hmonth : exact_sums month_data) by (apply exact_sums_filter; exact Hsmall).
    destruct (sum64_exact month_data Hmonth) as [_ Hfloat].
    destruct (py_getitem Config.MONTHS_ABBREVIATION (m - 1)); cbn [bind]; [|discriminate].
    intros Heq. injection Heq as <-.
    cbn [ms_daily_breakdown ms_total ms_by_category ms_transaction_count].
    rewrite Hfloat.
    split; [|split; [|reflexivity]].
    + transitivity
        (inject_Z (sumZ (map (fun n => sumZ (amounts (filter (fun r => day (r_date r)
                                                                     =? Z.of_nat n)
                                                             month_data)))
                             (seq 1 31)))).
      * exact (daily_breakdown_sum month_data (seq 1 31) Hmonth).
      * rewrite <- (map_map Z.of_nat
                            (fun k => sumZ (amounts (filter (fun r => day (r_date r) =? k)
                                                            month_data)))).
        rewrite (sumZ_by_key (fun r => day (r_date r))); [reflexivity | |].
        -- apply Finite.Injective_map_NoDup; [intros a' b' Hab; lia | apply seq_NoDup].
        -- intros r Hr. apply filter_In in Hr as [Hr _].
           rewrite Forall_forall in Hvalid. specialize (Hvalid r Hr).
           apply valid_date_day in Hvalid.
           assert (Hdim : days_in_month (year (r_date r)) (month (r_date r)) <= 31).
           { unfold days_in_month.
             destruct (_ =? 2); [destruct (is_leap _); lia|]. destruct (orb _ _); lia. }
           apply in_map_iff. exists (Z.to_nat (day (r_date r))). split; [lia|].
           apply in_seq. lia.
    + now rewrite groupby_sum_total.
Qed.

End Summaries.

Lemma monthly_summary_adds_up_witness :
  exists ms,
    Analytics.monthly_summary
      (Disk (Some [Expense 1 500 "Food" "2024-01-15" "lunch" None;
                   Expense 2 120 "Transport" "2024-01-31" "taxi" None;
                   Expense 3 80 "Food" "2024-01-15" "tea" None;
                   Expense 4 75 "Food" "2024-02-01" "snack" None]) true)
      (Some 2024) (Some 1) (DateTime (Date 2024 3 5) 0)
    = Ok ms
    /\ ms_daily_breakdown ms = [(15, inject_Z 580); (31, inject_Z 120)]
    /\ (sumQ (map snd (ms_daily_breakdown ms)) == ms_total ms)%Q
    /\ (inject_Z (sumZ (map snd (ms_by_category ms))) == ms_total ms)%Q
    /\ ms_transaction_count ms = 3.
Proof.
  eexists. split; [vm_compute; reflexivity|]. split; [reflexivity|].
  apply (monthly_summary_adds_up
           (Disk (Some [Expense 1 500 "Food" "2024-01-15" "lunch" None;
                        Expense 2 120 "Transport" "2024-01-31" "taxi" None;
                        Expense 3 80 "Food" "2024-01-15" "tea" None;
                        Expense 4 75 "Food" "2024-02-01" "snack" None]) true)
           2024 1 (DateTime (Date 2024 3 5) 0)
           [Row 1 500 "Food" (Date 2024 1 15) 0 "lunch" None;
            Row 2 120 "Transport" (Date 2024 1 31) 0 "taxi" None;
            Row 3 80 "Food" (Date 2024 1 15) 0 "tea" None;
            Row 4 75 "Food" (Date 2024 2 1) 0 "snack" None]);
    vm_compute; reflexivity.
Defined.

(* ===================================================================== *)
(** ** Date ranges, summaries and advice *)
(* ===================================================================== *)

Section RangeSummaries.
Context `{Pandas}.

(** X12: with both bounds given, a range summary that counts some transaction
    has a day count of the whole days from the start to the end bound plus
    one, which is at least 1; its averages are the total divided, in
    doubles, by the day count and by the transaction count; and, the amounts
    being small enough for the sums to be exact, the category totals add up
    to the total. *)
Theorem date_range_summary_averages
        (d : disk) (s e : string) (df : DataFrame) (rs : RangeSummary) :
  DataManager.load_dataframe d "" = Ok df ->
  exact_sums df ->
  s <> "" -> e <> "" ->
  Analytics.get_date_range_summary d (Some s) (Some e) = Ok rs ->
  0 < rs_transaction_count rs ->
  exists lo lo_ns hi hi_ns,
    Timestamp_of s = Moment lo lo_ns /\ Timestamp_of e = Moment hi hi_ns
    /\ rs_day_count rs
       = Some ((instant hi hi_ns - instant lo lo_ns) / nanoseconds_per_day + 1)
    /\ 1 <= (instant hi hi_ns - instant lo lo_ns) / nanoseconds_per_day + 1
    /\ rs_average_daily rs
       = fdiv (rs_total rs)
              (inject_Z ((instant hi hi_ns - instant lo lo_ns) / nanoseconds_per_day + 1))
    /\ rs_average_transaction rs
       = fdiv (rs_total rs) (float_of_int (rs_transaction_count rs))
    /\ inject_Z (sumZ (map snd (rs_by_category rs))) = rs_total rs.
Proof.
  intros Hload Hsmall Hs He. apply String.eqb_neq in Hs, He.
  unfold Analytics.get_date_range_summary, DataManager.filter_expenses.
  rewrite Hload. cbn [bind].
  destruct df as [|r0 df0].
  - cbn [bind]. intros Heq. injection Heq as <-. cbn. lia.
  - unfold DataManager.rows_from, DataManager.rows_until, DataManager.compare_dates,
      Analytics.to_datetime_bound, truthy.
    rewrite Hs, He.
    destruct (Timestamp_of s) as [| |lo lo_ns] eqn:Hlo; cbn [bind]; [discriminate| |].
    { destruct (Timestamp_of e); cbn [bind]; try discriminate;
        intros Heq; injection Heq as <-; cbn; lia. }
    destruct (Timestamp_of e) as [| |hi hi_ns] eqn:Hhi; cbn [bind]; [discriminate| |].
    { intros Heq. injection Heq as <-. cbn. lia. }
    set (rows := filter (fun r => row_instant r <=? instant hi hi_ns)
                        (filter (fun r => row_instant r >=? instant lo lo_ns) (r0 :: df0))).
    assert (Hrows_small : exact_sums rows).
    { unfold rows. now apply exact_sums_filter, exact_sums_filter. }
    destruct (sum64_exact rows Hrows_small) as [_ Hfloat].
    pose proof (groupby_sum_total rows Hrows_small) as Hgroups.
    destruct rows as [|r rows'] eqn:Hrows.
    + intros Heq. injection Heq as <-. cbn. lia.
    + cbn [Analytics.days_between].
      assert (Hr : In r (filter (fun r => row_instant r <=? instant hi hi_ns)
                     (filter (fun r => row_instant r >=? instant lo lo_ns) (r0 :: df0)))).
      { fold rows. rewrite Hrows. now left. }
      apply filter_In in Hr as [Hr Hhi_r]. apply filter_In in Hr as [Hr Hlo_r].
      apply Z.leb_le in Hhi_r. rewrite Z.geb_leb in Hlo_r. apply Z.leb_le in Hlo_r.
      set (delta := instant hi hi_ns - instant lo lo_ns) in *.
      assert (Hdelta : 0 <= delta) by (unfold delta; lia).
      assert (Hdays : 0 <= delta / nanoseconds_per_day)
        by (apply Z.div_pos; [exact Hdelta | reflexivity]).
      destruct (Z.ltb_spec (Z.abs delta) (2 ^ 63)) as [Hfit | _]; cbn [bind]; [|discriminate].
      intros Heq. injection Heq as <-.
      cbn [rs_day_count rs_average_daily rs_total rs_average_transaction
           rs_transaction_count rs_by_category].
      intros _. exists lo, lo_ns, hi, hi_ns.
      split; [reflexivity|]. split; [reflexivity|]. split; [reflexivity|].
      fold delta. change (r_amount r :: amounts rows') with (amounts (r :: rows')).
      split; [lia|].
      assert (Hsmall_days : Z.abs (delta / nanoseconds_per_day + 1) <= 2 ^ 53).
      { assert (delta / nanoseconds_per_day <= delta / 1).
        { apply Z.div_le_compat_l; [exact Hdelta | unfold nanoseconds_per_day; lia]. }
        rewrite Z.div_1_r in *. 
        assert (delta / nanoseconds_per_day < 2 ^ 47); [|lia].
        apply Z.div_lt_upper_bound; [reflexivity|].
        unfold nanoseconds_per_day. lia. }
      destruct (Z.ltb_spec 0 (delta / nanoseconds_per_day + 1)); [|lia].
      destruct (Z.ltb_spec 0 (len (r :: rows'))) as [_ | Hnone];
        [|unfold len in Hnone; cbn [List.length] in Hnone; lia].
      rewrite (float_of_int_small _ Hsmall_days), Hfloat, Hgroups.
      repeat split.
Qed.

(** X13: without a start date and once some row passes the filter, the day
    count cannot be computed. Where [pd.to_datetime(None)] is [None], the
    subtraction of the bounds raises [TypeError]; where it is NaT, the
    summary is returned with a day count of NaN and a daily average of 0. *)
Theorem date_range_summary_without_start (d : disk) (end_date : option string)
        (r : row) (rows : DataFrame) :
  DataManager.filter_expenses d None None end_date None None = Ok (r :: rows) ->
  if to_datetime_None_is_NaT
  then exists rs, Analytics.get_date_range_summary d None end_date = Ok rs
                  /\ rs_day_count rs = None /\ rs_average_daily rs = 0%Q
                  /\ rs_transaction_count rs = len (r :: rows)
  else exists e, Analytics.get_date_range_summary d None end_date = Raise e
                 /\ exn_class e = TypeError.
Proof.
  intros Hfilter. unfold Analytics.get_date_range_summary. rewrite Hfilter. cbn [bind].
  assert (Hfinish : exists b, Analytics.to_datetime_bound end_date = Ok b
                              /\ (to_datetime_None_is_NaT = true -> b <> NoTime)).
  { unfold Analytics.to_datetime_bound. destruct end_date as [s|].
    - destruct (Timestamp_of s) as [| |t ns] eqn:Hs;
        [|eexists; split; [reflexivity | discriminate]
         |eexists; split; [reflexivity | discriminate]].
      exfalso. revert Hfilter. unfold DataManager.filter_expenses.
      destruct (DataManager.load_dataframe d "") as [[|r0 df0]|]; cbn [bind];
        try discriminate.
      unfold DataManager.rows_from, DataManager.rows_until, DataManager.compare_dates, truthy.
      cbn [bind].
      destruct (s =? "")%string eqn:Es.
      + apply String.eqb_eq in Es. subst s. rewrite Timestamp_of_empty in Hs. discriminate.
      + rewrite Hs. discriminate.
    - eexists. split; [reflexivity|]. intros ->. discriminate. }
  destruct Hfinish as [b [Hb Hnone]]. rewrite Hb. unfold Analytics.to_datetime_bound.
  destruct to_datetime_None_is_NaT; cbn [bind Analytics.days_between].
  - destruct b; [now contradiction Hnone| |]; cbn [bind]; eexists; repeat split.
  - destruct b; cbn [bind]; eexists; split; reflexivity.
Qed.

End RangeSummaries.

Lemma date_range_summary_averages_witness :
  exists rs,
    Analytics.get_date_range_summary
      (Disk (Some [Expense 1 500 "Food" "2024-01-15" "lunch" None;
                   Expense 2 120 "Transport" "2024-01-31" "taxi" None;
                   Expense 3 75 "Food" "2024-02-01" "snack" None]) true)
      (Some "2024-01-01") (Some "2024-01-31")
    = Ok rs
    /\ rs_day_count rs = Some 31
    /\ rs_total rs = 620 # 1
    /\ rs_average_daily rs = 20 # 1
    /\ rs_average_transaction rs = 310 # 1
    /\ rs_by_category rs = [("Food", 500); ("Transport", 120)].
Proof.
  destruct (date_range_summary_averages
              (Disk (Some [Expense 1 500 "Food" "2024-01-15" "lunch" None;
                           Expense 2 120 "Transport" "2024-01-31" "taxi" None;
                           Expense 3 75 "Food" "2024-02-01" "snack" None]) true)
              "2024-01-01" "2024-01-31"
              [Row 1 500 "Food" (Date 2024 1 15) 0 "lunch" None;
               Row 2 120 "Transport" (Date 2024 1 31) 0 "taxi" None;
               Row 3 75 "Food" (Date 2024 2 1) 0 "snack" None]
              {| rs_period := "2024-01-01 to 2024-01-31"; rs_total := 620 # 1;
                 rs_average_daily := 20 # 1; rs_average_transaction := 310 # 1;
                 rs_by_category := [("Food", 500); ("Transport", 120)];
                 rs_transaction_count := 2; rs_day_count := Some 31 |})
    as [lo [lo_ns [hi [hi_ns [Hlo [Hhi [Hcount _]]]]]]].
  - vm_compute. reflexivity.
  - vm_compute. reflexivity.
  - discriminate.
  - discriminate.
  - vm_compute. reflexivity.
  - reflexivity.
  - eexists. split; [vm_compute; reflexivity|]. repeat split.
Defined.

Lemma date_range_summary_without_start_witness :
  exists e,
    Analytics.get_date_range_summary
      (Disk (Some [Expense 1 500 "Food" "2024-01-15" "lunch" None]) true)
      None (Some "2024-01-31")
    = Raise e
    /\ exn_class e = TypeError.
Proof.
  assert (Hfilter : DataManager.filter_expenses
                      (Disk (Some [Expense 1 500 "Food" "2024-01-15" "lunch" None]) true)
                      None None (Some "2024-01-31") None None
                    = Ok [Row 1 500 "Food" (Date 2024 1 15) 0 "lunch" None])
    by (vm_compute; reflexivity).
  exact (date_range_summary_without_start
           (Disk (Some [Expense 1 500 "Food" "2024-01-15" "lunch" None]) true)
           (Some "2024-01-31")
           (Row 1 500 "Food" (Date 2024 1 15) 0 "lunch" None) [] Hfilter).
Defined.

Lemma Ok_injective {A : Type} (a b : A) : Ok a = Ok b -> a = b.
Proof. congruence. Qed.

Lemma rows_of_day_isoformat (day_of : date) (df : DataFrame) :
  valid_date day_of = true ->
  Forall (fun r => valid_date (r_date r) = true) df ->
  filter (fun r => (isoformat (r_date r) =? isoformat day_of)%string) df
  = rows_of_day day_of df.
Proof.
  intros Hday Hvalid. unfold rows_of_day. apply filter_ext_in.
  intros r Hr. rewrite Forall_forall in Hvalid. specialize (Hvalid r Hr).
  destruct (String.eqb_spec (isoformat (r_date r)) (isoformat day_of)) as [Heq | Hne].
  - apply isoformat_injective in Heq; [|assumption|assumption].
    rewrite Heq, !Z.eqb_refl. reflexivity.
  - symmetry. apply not_true_is_false. intros Hall.
    rewrite !andb_true_iff, !Z.eqb_eq in Hall. destruct Hall as [[Hy Hm] Hd].
    apply Hne. destruct (r_date r), day_of. simpl in *. now subst.
Qed.

Section DailyAndMonthly.
Context `{Pandas}.

(** X14: the entry of a day in the monthly breakdown is the total of that day's
    [daily_summary], and there is an entry exactly when the day has rows. *)
Theorem monthly_breakdown_is_daily_total
        (d : disk) (day_of : date) (now now' : datetime) (df : DataFrame)
        (ms : MonthlySummary) (ds : DailySummary) :
  valid_date day_of = true ->
  DataManager.load_dataframe d "" = Ok df ->
  Analytics.monthly_summary d (Some (year day_of)) (Some (month day_of)) now = Ok ms ->
  Analytics.daily_summary d (Some (isoformat day_of)) now' = Ok ds ->
  ds_transaction_count ds = len (rows_of_day day_of df)
  /\ ds_total ds = float_of_int (sum64 (amounts (rows_of_day day_of df)))
  /\ day_get (day day_of) (ms_daily_breakdown ms)
     = (if 0 <? ds_transaction_count ds then Some (ds_total ds) else None).
Proof.
  intros Hday Hload.
  cbv beta zeta match delta [Analytics.monthly_summary Analytics.daily_summary].
  rewrite Hload. cbv beta zeta match delta [bind].
  pose proof (load_dataframe_valid_dates d df Hload) as Hvalid.
  destruct df as [|r0 df0].
  - destruct (py_getitem Config.MONTHS_ABBREVIATION (month day_of - 1));
      cbv beta zeta match delta [bind]; [|discriminate].
    intros Hms Hds. apply Ok_injective in Hms, Hds. subst ms ds.
    split; [|split]; reflexivity.
  - destruct (py_getitem Config.MONTHS_ABBREVIATION (month day_of - 1));
      cbv beta zeta match delta [bind]; [|discriminate].
    remember (r0 :: df0) as rows eqn:Hrows. clear Hrows.
    intros Hms Hds. apply Ok_injective in Hms, Hds. subst ms ds.
    cbv beta match delta [ms_daily_breakdown ds_transaction_count ds_total].
    rewrite (rows_of_day_isoformat day_of rows Hday Hvalid).
    split; [reflexivity|]. split; [reflexivity|].
    set (month_data := filter (fun r => andb (year (r_date r) =? year day_of)
                                             (month (r_date r) =? month day_of)) rows).
    assert (Hsame : filter (fun r => day (r_date r) =? day day_of) month_data
                    = rows_of_day day_of rows).
    { unfold month_data, rows_of_day. now rewrite filter_twice. }
    rewrite <- Hsame.
    pose proof (valid_date_day day_of Hday) as Hd.
    assert (Hdim : days_in_month (year day_of) (month day_of) <= 31).
    { unfold days_in_month.
      destruct (_ =? 2); [destruct (is_leap _); lia|]. destruct (orb _ _); lia. }
    rewrite <- (Z2Nat.id (day day_of)) at 1 by lia.
    rewrite (flat_map_ext _
               (fun n => match (if 0 <? len (filter (fun r => day (r_date r) =? Z.of_nat n)
                                                     month_data)
                                then Some (float_of_int (sum64 (amounts
                                       (filter (fun r => day (r_date r) =? Z.of_nat n)
                                               month_data))))
                                else None)
                         with Some v => [(Z.of_nat n, v)] | None => [] end)).
    + rewrite (day_get_flat_map _ (Z.to_nat (day day_of)) (seq 1 31)).
      * rewrite Z2Nat.id by lia. reflexivity.
      * apply seq_NoDup.
      * apply in_seq. lia.
    + intros n. now destruct (0 <? len _).
Qed.

End DailyAndMonthly.

Lemma monthly_breakdown_is_daily_total_witness :
  exists ms ds,
    Analytics.monthly_summary
      (Disk (Some [Expense 1 500 "Food" "2024-01-15" "lunch" None;
                   Expense 2 120 "Transport" "2024-01-31" "taxi" None;
                   Expense 3 80 "Food" "2024-01-15" "tea" None]) true)
      (Some 2024) (Some 1) (DateTime (Date 2024 3 5) 0) = Ok ms
    /\ Analytics.daily_summary
         (Disk (Some [Expense 1 500 "Food" "2024-01-15" "lunch" None;
                      Expense 2 120 "Transport" "2024-01-31" "taxi" None;
                      Expense 3 80 "Food" "2024-01-15" "tea" None]) true)
         (Some "2024-01-15") (DateTime (Date 2024 3 5) 0) = Ok ds
    /\ ds_transaction_count ds = 2
    /\ ds_total ds = inject_Z 580
    /\ day_get 15 (ms_daily_breakdown ms) = Some (ds_total ds).
Proof.
  eexists. eexists. split; [vm_compute; reflexivity|]. split; [vm_compute; reflexivity|].
  apply (monthly_breakdown_is_daily_total
           (Disk (Some [Expense 1 500 "Food" "2024-01-15" "lunch" None;
                        Expense 2 120 "Transport" "2024-01-31" "taxi" None;
                        Expense 3 80 "Food" "2024-01-15" "tea" None]) true)
           (Date 2024 1 15) (DateTime (Date 2024 3 5) 0) (DateTime (Date 2024 3 5) 0)
           [Row 1 500 "Food" (Date 2024 1 15) 0 "lunch" None;
            Row 2 120 "Transport" (Date 2024 1 31) 0 "taxi" None;
            Row 3 80 "Food" (Date 2024 1 15) 0 "tea" None]);
    vm_compute; reflexivity.
Defined.

(** Weighted version of the group sums: any per-row weight summed by group
    adds up to its sum over the table. *)
Lemma sum_over_groups (w : row -> Z) (keys : list string) (df : DataFrame) :
  NoDup keys ->
  (forall r, In r df -> In (r_category r) keys) ->
  sumZ (map (fun k => sumZ (map w (with_category k df))) keys) = sumZ (map w df).
Proof.
  intros Hnd. induction df as [|r df IH]; intros Hcover.
  - simpl. clear Hnd Hcover. induction keys as [|k keys IHk]; simpl; [reflexivity|].
    exact IHk.
  - rewrite (map_ext _ (fun k => (if (r_category r =? k)%string then w r else 0)
                                 + sumZ (map w (with_category k df)))).
    + rewrite sumZ_map_add, sumZ_indicator by assumption.
      rewrite IH by (intros r' Hr'; apply Hcover; now right).
      assert (Hin : existsb (String.eqb (r_category r)) keys = true).
      { apply existsb_exists. exists (r_category r). split.
        - apply Hcover. now left.
        - apply String.eqb_refl. }
      rewrite Hin. reflexivity.
    + intros k. unfold with_category. simpl.
      destruct (r_category r =? k)%string; simpl; lia.
Qed.

Lemma len_as_sum {A : Type} (l : list A) : len l = sumZ (map (fun _ => 1) l).
Proof.
  induction l as [|a l IH]; [reflexivity|]. rewrite len_cons, IH.
  unfold sumZ. cbn [map fold_right]. lia.
Qed.

Lemma group_counts_total (df : DataFrame) :
  sumZ (map (fun k => len (with_category k df)) (group_keys df)) = len df.
Proof.
  rewrite (map_ext _ (fun k => sumZ (map (fun _ => 1) (with_category k df))))
    by (intros k; apply len_as_sum).
  rewrite len_as_sum. apply sum_over_groups.
  - apply sorted_keys_NoDup, group_keys_sorted.
  - apply group_keys_complete.
Qed.

Lemma sumQ_scaled {A : Type} (f : A -> Q) (c : Q) (l : list A) :
  (sumQ (map (fun a => f a / c * 100) l) == sumQ (map f l) / c * 100)%Q.
Proof.
  induction l as [|a l IH]; simpl.
  - unfold Qdiv. ring.
  - rewrite IH. unfold Qdiv. ring.
Qed.

Lemma group_nonempty (k : string) (df : DataFrame) :
  In k (group_keys df) -> 1 <= len (with_category k df).
Proof.
  unfold group_keys. induction df as [|r df IH]; simpl; [intros []|].
  intros Hin. unfold with_category. simpl.
  destruct (String.eqb_spec (r_category r) k) as [Heq | Hne].
  - rewrite len_cons. unfold len. lia.
  - apply IH. clear IH. revert Hin.
    generalize (fold_right insert_key [] (map r_category df)). intros ks.
    induction ks as [|k' ks IHk]; simpl.
    + intros [Heq | []]. congruence.
    + destruct (String.compare (r_category r) k') eqn:Hc.
      * auto.
      * intros [Heq | Hin]; [congruence | exact Hin].
      * intros [Heq | Hin]; [now left | right; now apply IHk].
Qed.

Section CategorySummaries.
Context `{Pandas}.

Lemma filter_from_rows_from (bound : option string) (df : DataFrame) :
  Analytics.filter_from bound df = DataManager.rows_from bound df.
Proof.
  unfold Analytics.filter_from, DataManager.rows_from, truthy.
  destruct bound as [s|]; [|reflexivity]. now destruct (s =? "")%string.
Qed.

Lemma filter_to_rows_until (bound : option string) (df : DataFrame) :
  Analytics.filter_to bound df = DataManager.rows_until bound df.
Proof.
  unfold Analytics.filter_to, DataManager.rows_until, truthy.
  destruct bound as [s|]; [|reflexivity]. now destruct (s =? "")%string.
Qed.

(** X15: [category_summary] reports on the rows [filter_expenses] selects for
    the same bounds: one entry per category present among them, in sorted
    order; each entry counts the rows of its category, at least one, and,
    the amounts being small enough for the sums to be exact, totals their
    amounts; the counts add up to the number of rows and the totals to the
    sum of their amounts. *)
Theorem category_summary_of_selected_rows
        (d : disk) (start_date end_date : option string) (df : DataFrame)
        (cs : list (string * CategoryStats)) :
  DataManager.load_dataframe d "" = Ok df ->
  exact_sums df ->
  Analytics.category_summary d start_date end_date = Ok cs ->
  exists rows,
    DataManager.filter_expenses d None start_date end_date None None = Ok rows
    /\ map fst cs = group_keys rows
    /\ sumZ (map (fun kv => cs_count (snd kv)) cs) = len rows
    /\ (sumQ (map (fun kv => cs_total (snd kv)) cs) == inject_Z (sumZ (amounts rows)))%Q
    /\ Forall (fun kv =>
                 1 <= cs_count (snd kv)
                 /\ cs_count (snd kv) = len (with_category (fst kv) rows)
                 /\ cs_total (snd kv)
                    = inject_Z (sumZ (amounts (with_category (fst kv) rows)))) cs.
Proof.
  intros Hload Hsmall.
  unfold Analytics.category_summary, DataManager.filter_expenses.
  rewrite Hload. cbn [bind].
  destruct df as [|r0 df0].
  - intros Heq. apply Ok_injective in Heq. subst cs. exists [].
    repeat split; try reflexivity; constructor.
  - cbn [truthy]. rewrite filter_from_rows_from.
    destruct (DataManager.rows_from start_date (r0 :: df0)) as [df1|] eqn:Hfrom; cbn [bind];
      [|discriminate].
    rewrite filter_to_rows_until.
    destruct (DataManager.rows_until end_date df1) as [rows|] eqn:Huntil; cbn [bind];
      [|discriminate].
    intros Heq. exists rows. split; [reflexivity|].
    assert (Hrows_small : exact_sums rows).
    { apply rows_from_filter in Hfrom as [lo [_ ->]].
      apply rows_until_filter in Huntil as [hi [_ ->]].
      now apply exact_sums_filter, exact_sums_filter. }
    clear Hfrom Huntil.
    destruct rows as [|r rows'].
    + apply Ok_injective in Heq. subst cs.
      repeat split; try reflexivity; constructor.
    + remember (r :: rows') as rows eqn:Hrows. clear Hrows.
      apply Ok_injective in Heq. subst cs.
      split; [|split; [|split]].
      * unfold groupby_sum_count. rewrite !map_map. cbn [fst snd]. now rewrite map_id.
      * unfold groupby_sum_count. rewrite !map_map.
        cbn [fst snd Analytics.category_stats cs_count]. apply group_counts_total.
      * apply category_totals_sum. exact Hrows_small.
      * apply Forall_forall. intros kv Hkv. apply in_map_iff in Hkv as [[k st] [<- Hk]].
        unfold groupby_sum_count in Hk. apply in_map_iff in Hk as [k' [Heq Hk']].
        injection Heq as <- <-.
        cbn [fst snd Analytics.category_stats cs_count cs_total].
        split; [exact (group_nonempty k' rows Hk')|]. split; [reflexivity|].
        unfold with_category. apply float_sum64_filter_exact. exact Hrows_small.
Qed.

End CategorySummaries.

Lemma category_summary_of_selected_rows_witness :
  exists cs food transport,
    Analytics.category_summary
      (Disk (Some [Expense 1 500 "Food" "2024-01-15" "lunch" None;
                   Expense 2 120 "Transport" "2024-01-31" "taxi" None;
                   Expense 3 80 "Food" "2024-01-20" "tea" None;
                   Expense 4 75 "Food" "2024-02-01" "snack" None]) true)
      (Some "2024-01-01") (Some "2024-01-31") = Ok cs
    /\ cs = [("Food", food); ("Transport", transport)]
    /\ cs_count food = 2 /\ cs_total food = 580 # 1 /\ cs_average food = 290 # 1
    /\ cs_count transport = 1 /\ cs_total transport = 120 # 1
    /\ cs_average transport = 120 # 1.
Proof.
  destruct (category_summary_of_selected_rows
              (Disk (Some [Expense 1 500 "Food" "2024-01-15" "lunch" None;
                           Expense 2 120 "Transport" "2024-01-31" "taxi" None;
                           Expense 3 80 "Food" "2024-01-20" "tea" None;
                           Expense 4 75 "Food" "2024-02-01" "snack" None]) true)
              (Some "2024-01-01") (Some "2024-01-31")
              [Row 1 500 "Food" (Date 2024 1 15) 0 "lunch" None;
               Row 2 120 "Transport" (Date 2024 1 31) 0 "taxi" None;
               Row 3 80 "Food" (Date 2024 1 20) 0 "tea" None;
               Row 4 75 "Food" (Date 2024 2 1) 0 "snack" None]
              [("Food", Analytics.category_stats 700 (580, 2));
               ("Transport", Analytics.category_stats 700 (120, 1))])
    as [rows [Hrows _]].
  - vm_compute. reflexivity.
  - vm_compute. reflexivity.
  - vm_compute. reflexivity.
  - eexists. eexists. eexists. split; [vm_compute; reflexivity|]. repeat split.
Defined.

Section BudgetCounts.
Context `{Pandas}.

Lemma budget_step_once (current_month : DataFrame) (st : Analytics.AlertState)
      (item : string * Q) :
  let st' := Analytics.budget_step current_month st item in
  Analytics.on_track st' + Analytics.warning st' + Analytics.critical st'
  = Analytics.on_track st + Analytics.warning st + Analytics.critical st + 1
  /\ len (Analytics.alerts st') - Analytics.warning st' - Analytics.critical st'
     = len (Analytics.alerts st) - Analytics.warning st - Analytics.critical st
  /\ Analytics.on_track st <= Analytics.on_track st'
  /\ Analytics.warning st <= Analytics.warning st'
  /\ Analytics.critical st <= Analytics.critical st'
  /\ (Forall (fun a => a_status a = "critical" \/ a_status a = "warning")
             (Analytics.alerts st) ->
      Forall (fun a => a_status a = "critical" \/ a_status a = "warning")
             (Analytics.alerts st')).
Proof.
  destruct item as [category budget]. unfold Analytics.budget_step.
  destruct (Qle_bool 100 _); [| destruct (Qle_bool 80 _)];
    cbn [Analytics.alerts Analytics.on_track Analytics.warning Analytics.critical];
    rewrite ?len_snoc; (repeat split; try lia); try (intros Hall; exact Hall);
    intros Hall; apply Forall_app;
    (split; [exact Hall | apply Forall_cons; [cbn [a_status]; auto | apply Forall_nil]]).
Qed.

Lemma budget_step_counts (current_month : DataFrame) (budgets : list (string * Q)) :
  forall st,
    let st' := fold_left (Analytics.budget_step current_month) budgets st in
    Analytics.on_track st' + Analytics.warning st' + Analytics.critical st'
    = Analytics.on_track st + Analytics.warning st + Analytics.critical st + len budgets
    /\ len (Analytics.alerts st') - Analytics.warning st' - Analytics.critical st'
       = len (Analytics.alerts st) - Analytics.warning st - Analytics.critical st
    /\ Analytics.on_track st <= Analytics.on_track st'
    /\ Analytics.warning st <= Analytics.warning st'
    /\ Analytics.critical st <= Analytics.critical st'
    /\ (Forall (fun a => a_status a = "critical" \/ a_status a = "warning")
               (Analytics.alerts st) ->
        Forall (fun a => a_status a = "critical" \/ a_status a = "warning")
               (Analytics.alerts st')).
Proof.
  induction budgets as [|item budgets IH]; intros st; cbn [fold_left].
  - cbv zeta. unfold len. simpl. repeat split; try lia. auto.
  - specialize (IH (Analytics.budget_step current_month st item)).
    pose proof (budget_step_once current_month st item) as Hone.
    cbv zeta in IH, Hone |- *.
    destruct IH as [Hsum [Hlen [Ho [Hw [Hc Hst]]]]].
    destruct Hone as [Hsum1 [Hlen1 [Ho1 [Hw1 [Hc1 Hst1]]]]].
    rewrite len_cons. repeat split; try lia. intros Hall. now apply Hst, Hst1.
Qed.

(** X16: every budget line is counted once: the three counts add up to the number
    of lines, and the alerts listed are the warning and critical lines. *)
Theorem budget_alert_counts_partition
        (d : disk) (custom_budgets : option (list (string * Q))) (now : datetime)
        (report : BudgetReport) :
  Analytics.budget_alert d custom_budgets now = Ok report ->
  on_track_count report + warning_count report + critical_count report
  = total_categories report
  /\ len (br_alerts report) = warning_count report + critical_count report
  /\ 0 <= on_track_count report /\ 0 <= warning_count report /\ 0 <= critical_count report
  /\ Forall (fun a => a_status a = "critical" \/ a_status a = "warning") (br_alerts report)
  /\ total_categories report
     = len (match custom_budgets with Some b => b | None => Config.DEFAULT_BUDGETS end).
Proof.
  unfold Analytics.budget_alert.
  destruct (DataManager.load_dataframe d "") as [df|]; cbn [bind]; [|discriminate].
  destruct df as [|r0 df0].
  - intros Heq. apply Ok_injective in Heq. subst report.
    cbn [on_track_count warning_count critical_count total_categories br_alerts].
    unfold len. repeat split; try lia. constructor.
  - destruct (py_getitem Config.MONTHS_ABBREVIATION (month (dt_date now) - 1));
      cbn [bind]; [|discriminate].
    intros Heq. apply Ok_injective in Heq. subst report.
    cbn [on_track_count warning_count critical_count total_categories br_alerts].
    match goal with
    | |- context [fold_left (Analytics.budget_step ?cm) ?b ?st] =>
        pose proof (budget_step_counts cm b st) as Hinv
    end.
    cbv zeta in Hinv.
    cbn [Analytics.alerts Analytics.on_track Analytics.warning Analytics.critical] in Hinv.
    destruct Hinv as [Hsum [Hlen [Ho [Hw [Hc Hst]]]]].
    change (len (@nil Alert)) with 0 in Hlen.
    repeat split; try lia. apply Hst. constructor.
Qed.

End BudgetCounts.

Lemma budget_alert_counts_partition_witness :
  exists report,
    Analytics.budget_alert
      (Disk (Some [Expense 1 850 "Food" "2024-03-02" "groceries" None;
                   Expense 2 700 "Transport" "2024-03-03" "fuel" None]) true)
      (Some [("Food", 1000 # 1); ("Transport", 500 # 1); ("Health", 0 # 1)])
      (DateTime (Date 2024 3 5) 0) = Ok report
    /\ on_track_count report + warning_count report + critical_count report
       = total_categories report
    /\ len (br_alerts report) = warning_count report + critical_count report
    /\ 0 <= on_track_count report /\ 0 <= warning_count report
    /\ 0 <= critical_count report
    /\ Forall (fun a => a_status a = "critical" \/ a_status a = "warning")
              (br_alerts report)
    /\ total_categories report = 3.
Proof.
  eexists. split; [vm_compute; reflexivity|].
  apply (budget_alert_counts_partition
           (Disk (Some [Expense 1 850 "Food" "2024-03-02" "groceries" None;
                        Expense 2 700 "Transport" "2024-03-03" "fuel" None]) true)
           (Some [("Food", 1000 # 1); ("Transport", 500 # 1); ("Health", 0 # 1)])
           (DateTime (Date 2024 3 5) 0)).
  vm_compute. reflexivity.
Defined.

Section Trajectory.
Context `{Pandas} `{Sklearn}.


End Trajectory.


Lemma unique_from_In (seen l : list string) (x : string) :
  In x (unique_from seen l) <-> In x l /\ ~ In x seen.
Proof.
  revert seen. induction l as [|y l IH]; intros seen; cbn [unique_from].
  - simpl. tauto.
  - destruct (existsb (String.eqb y) seen) eqn:Hex.
    + apply existsb_eqb_In in Hex. rewrite IH. simpl. split.
      * intros [Hin Hno]. tauto.
      * intros [[-> | Hin] Hno]; [contradiction | tauto].
    + assert (Hy : ~ In y seen).
      { intros Hin. assert (existsb (String.eqb y) seen = true); [|congruence].
        apply existsb_exists. exists y. split; [exact Hin | apply String.eqb_refl]. }
      simpl. rewrite IH. simpl. split.
      * intros [<- | [Hin Hno]]; [tauto|]. split; [tauto|]. intros Hs. apply Hno. now right.
      * intros [[<- | Hin] Hno]; [now left|].
        destruct (string_dec y x) as [-> | Hne]; [now left|]. right. split; [exact Hin|].
        intros [Heq | Hs]; [congruence | contradiction].
Qed.

Lemma unique_In (l : list string) (x : string) : In x (unique l) <-> In x l.
Proof.
  unfold unique. rewrite unique_from_In. simpl. tauto.
Qed.

Lemma unique_from_NoDup (seen l : list string) : NoDup (unique_from seen l).
Proof.
  revert seen. induction l as [|y l IH]; intros seen; cbn [unique_from]; [constructor|].
  destruct (existsb (String.eqb y) seen); [apply IH|].
  constructor; [|apply IH]. rewrite unique_from_In. intros [_ Hno]. apply Hno. now left.
Qed.

Section RecentAnomalies.
Context `{Pandas} `{Numpy}.

(** X18: [flag_recent_anomalies] lists exactly the rows dated within the look-back
    period whose category has at least five records in the whole store and
    whose amount exceeds that category's mean plus twice its sample standard
    deviation, both taken over the whole store. *)
Theorem flag_recent_anomalies_exact
        (d : disk) (days : Z) (now : datetime) (df : DataFrame)
        (out : list RecentAnomaly) :
  DataManager.load_dataframe d "" = Ok df ->
  AnomalyDetector.flag_recent_anomalies d days now = Ok out ->
  exists cutoff,
  minus_days now days = Ok cutoff /\
  forall a,
    In a out <->
    exists r,
      In r df
      /\ 1000 * cutoff <= row_instant r
      /\ 5 <= len (with_category (r_category r) df)
      /\ (np_mean (amounts (with_category (r_category r) df))
          + 2 * pd_std (amounts (with_category (r_category r) df))
          < inject_Z (r_amount r))%Q
      /\ a = {| ra_id := r_id r;
                ra_date := isoformat (r_date r);
                ra_category := r_category r;
                ra_amount := r_amount r;
                ra_mean := int_of_float
                             (np_mean (amounts (with_category (r_category r) df)));
                ra_note := r_note r |}.
Proof.
  intros Hload. unfold AnomalyDetector.flag_recent_anomalies. rewrite Hload. cbn [bind].
  destruct (minus_days now days) as [cutoff|]; cbn [bind]; [|discriminate].
  intros Hout. exists cutoff. split; [reflexivity|]. intros a.
  assert (Hflat : out = flat_map (AnomalyDetector.recent_category_anomalies
                                    df (since cutoff df))
                                 (unique (map r_category (since cutoff df)))).
  { destruct (since cutoff df); apply Ok_injective in Hout;
      subst out; reflexivity. }
  clear Hout. subst out. rewrite in_flat_map. split.
  - intros [category [Hcat Hin]]. unfold AnomalyDetector.recent_category_anomalies in Hin.
    destruct (Z.ltb_spec (len (with_category category df)) 5) as [_ | Hlen];
      [contradiction|].
    apply in_map_iff in Hin as [r [<- Hr]].
    apply filter_In in Hr as [Hr Hcond]. apply andb_true_iff in Hcond as [Hc Hamount].
    apply String.eqb_eq in Hc. subst category.
    unfold since in Hr. apply filter_In in Hr as [Hr Htime]. apply Z.leb_le in Htime.
    apply Qltb_lt in Hamount. exists r. repeat split; assumption.
  - intros [r [Hr [Htime [Hlen [Hamount ->]]]]]. exists (r_category r).
    assert (Hrecent : In r (since cutoff df)).
    { unfold since. apply filter_In. split; [exact Hr | now apply Z.leb_le]. }
    split.
    + apply unique_In, in_map. exact Hrecent.
    + unfold AnomalyDetector.recent_category_anomalies.
      destruct (Z.ltb_spec (len (with_category (r_category r) df)) 5) as [Hlt | _]; [lia|].
      apply in_map_iff. exists r. split; [reflexivity|].
      apply filter_In. split; [exact Hrecent|].
      apply andb_true_iff. split; [apply String.eqb_refl | now apply Qltb_lt].
Qed.

End RecentAnomalies.

Lemma flag_recent_anomalies_exact_witness :
  exists out cutoff,
    AnomalyDetector.flag_recent_anomalies
      (Disk (Some (spike_store 5)) true) 30 (DateTime (Date 2024 1 20) 0) = Ok out
    /\ out = [ {| ra_id := 6; ra_date := "2024-01-11"; ra_category := "Food";
                  ra_amount := 10000; ra_mean := 1750; ra_note := "banquet" |} ]
    /\ minus_days (DateTime (Date 2024 1 20) 0) 30 = Ok cutoff
    /\ forall a,
        In a out <->
        exists r,
          In r [Row 1 100 "Food" (Date 2024 1 10) 0 "lunch" None;
                Row 2 100 "Food" (Date 2024 1 10) 0 "lunch" None;
                Row 3 100 "Food" (Date 2024 1 10) 0 "lunch" None;
                Row 4 100 "Food" (Date 2024 1 10) 0 "lunch" None;
                Row 5 100 "Food" (Date 2024 1 10) 0 "lunch" None;
                Row 6 10000 "Food" (Date 2024 1 11) 0 "banquet" None]
          /\ 1000 * cutoff <= row_instant r
          /\ 5 <= len (with_category (r_category r)
                         [Row 1 100 "Food" (Date 2024 1 10) 0 "lunch" None;
                          Row 2 100 "Food" (Date 2024 1 10) 0 "lunch" None;
                          Row 3 100 "Food" (Date 2024 1 10) 0 "lunch" None;
                          Row 4 100 "Food" (Date 2024 1 10) 0 "lunch" None;
                          Row 5 100 "Food" (Date 2024 1 10) 0 "lunch" None;
                          Row 6 10000 "Food" (Date 2024 1 11) 0 "banquet" None])
          /\ (np_mean (amounts (with_category (r_category r)
                         [Row 1 100 "Food" (Date 2024 1 10) 0 "lunch" None;
                          Row 2 100 "Food" (Date 2024 1 10) 0 "lunch" None;
                          Row 3 100 "Food" (Date 2024 1 10) 0 "lunch" None;
                          Row 4 100 "Food" (Date 2024 1 10) 0 "lunch" None;
                          Row 5 100 "Food" (Date 2024 1 10) 0 "lunch" None;
                          Row 6 10000 "Food" (Date 2024 1 11) 0 "banquet" None]))
              + 2 * pd_std (amounts (with_category (r_category r)
                         [Row 1 100 "Food" (Date 2024 1 10) 0 "lunch" None;
                          Row 2 100 "Food" (Date 2024 1 10) 0 "lunch" None;
                          Row 3 100 "Food" (Date 2024 1 10) 0 "lunch" None;
                          Row 4 100 "Food" (Date 2024 1 10) 0 "lunch" None;
                          Row 5 100 "Food" (Date 2024 1 10) 0 "lunch" None;
                          Row 6 10000 "Food" (Date 2024 1 11) 0 "banquet" None]))
              < inject_Z (r_amount r))%Q
          /\ a = {| ra_id := r_id r;
                    ra_date := isoformat (r_date r);
                    ra_category := r_category r;
                    ra_amount := r_amount r;
                    ra_mean := int_of_float
                      (np_mean (amounts (with_category (r_category r)
                         [Row 1 100 "Food" (Date 2024 1 10) 0 "lunch" None;
                          Row 2 100 "Food" (Date 2024 1 10) 0 "lunch" None;
                          Row 3 100 "Food" (Date 2024 1 10) 0 "lunch" None;
                          Row 4 100 "Food" (Date 2024 1 10) 0 "lunch" None;
                          Row 5 100 "Food" (Date 2024 1 10) 0 "lunch" None;
                          Row 6 10000 "Food" (Date 2024 1 11) 0 "banquet" None])));
                    ra_note := r_note r |}.
Proof.
  eexists.
  destruct (flag_recent_anomalies_exact
              (Disk (Some (spike_store 5)) true) 30 (DateTime (Date 2024 1 20) 0)
              [Row 1 100 "Food" (Date 2024 1 10) 0 "lunch" None;
               Row 2 100 "Food" (Date 2024 1 10) 0 "lunch" None;
               Row 3 100 "Food" (Date 2024 1 10) 0 "lunch" None;
               Row 4 100 "Food" (Date 2024 1 10) 0 "lunch" None;
               Row 5 100 "Food" (Date 2024 1 10) 0 "lunch" None;
               Row 6 10000 "Food" (Date 2024 1 11) 0 "banquet" None]
              [ {| ra_id := 6; ra_date := "2024-01-11"; ra_category := "Food";
                   ra_amount := 10000; ra_mean := 1750; ra_note := "banquet" |} ])
    as [cutoff [Hcutoff Hall]].
  - vm_compute. reflexivity.
  - vm_compute. reflexivity.
  - exists cutoff. split; [vm_compute; reflexivity|]. split; [reflexivity|].
    split; [exact Hcutoff | exact Hall].
Defined.

Lemma most_common_words (n : nat) (words : list string) :
  map fst (most_common n words)
  = firstn n (map fst (sort_desc (fun item => inject_Z (snd item))
                         (map (fun w => (w, Z.of_nat (count_occ string_dec words w)))
                              (unique words)))).
Proof.
  unfold most_common. now rewrite firstn_map.
Qed.

Lemma most_common_distinct (n : nat) (words : list string) :
  NoDup (map fst (most_common n words)).
Proof.
  rewrite most_common_words.
  set (sorted := map fst _).
  assert (Hnd : NoDup sorted).
  { unfold sorted.
    apply (Permutation_NoDup
             (l := map fst (map (fun w => (w, Z.of_nat (count_occ string_dec words w)))
                                (unique words)))).
    - apply Permutation_map. symmetry. apply sort_desc_perm.
    - rewrite map_map. cbn [fst]. rewrite map_id. apply unique_from_NoDup. }
  rewrite <- (firstn_skipn n sorted) in Hnd. now apply NoDup_app_remove_r in Hnd.
Qed.

Lemma most_common_In (n : nat) (words : list string) (w : string) :
  In w (map fst (most_common n words)) -> In w words.
Proof.
  rewrite most_common_words. intros Hin. apply firstn_incl in Hin.
  apply (Permutation_in (l' := map fst (map (fun w => (w, Z.of_nat (count_occ string_dec words w)))
                                            (unique words)))) in Hin.
  - rewrite map_map in Hin. cbn [fst] in Hin. rewrite map_id in Hin.
    now apply unique_In.
  - apply Permutation_map, sort_desc_perm.
Qed.

Lemma keywords_of_counts (items : list (string * Z)) :
  map fst (filter (fun item => Nat.ltb 3 (String.length (fst item))) items)
  = filter (fun w => Nat.ltb 3 (String.length w)) (map fst items).
Proof.
  induction items as [|item items IH]; simpl; [reflexivity|].
  destruct (Nat.ltb 3 (String.length (fst item))); simpl; now rewrite IH.
Qed.

Section Keywords.
Context `{Pandas} `{Sklearn}.

(** X19: the keywords of a category are at most ten distinct words, each longer
    than three characters, each a whitespace-separated token of the
    lower-cased notes of that category's records. *)
Theorem category_keywords_sound (category : string) (d : disk) (df : DataFrame)
        (keywords : list string) :
  DataManager.load_dataframe d "" = Ok df ->
  CategoryClassifier.get_category_keywords category d = Ok keywords ->
  len keywords <= 10
  /\ NoDup keywords
  /\ Forall (fun w =>
               Nat.lt 3 (String.length w)
               /\ In w (split (lower (String.concat " "
                                        (map r_note (with_category category df))))))
            keywords.
Proof.
  intros Hload. unfold CategoryClassifier.get_category_keywords. rewrite Hload. cbn [bind].
  destruct (with_category category df) as [|r rows] eqn:Hcat.
  - intros Heq. apply Ok_injective in Heq. subst keywords.
    split; [unfold len; simpl; lia|]. split; constructor.
  - rewrite <- Hcat. clear Hcat. intros Heq. apply Ok_injective in Heq. subst keywords.
    rewrite keywords_of_counts. split; [|split].
    + unfold len.
      pose proof (filter_length_le (fun w => Nat.ltb 3 (String.length w))
                    (map fst (most_common 10
                       (split (lower (String.concat " "
                                        (map r_note (with_category category df)))))))) as Hle.
      rewrite most_common_words in Hle at 2. rewrite length_firstn in Hle. lia.
    + apply NoDup_filter, most_common_distinct.
    + apply Forall_forall. intros w Hw. apply filter_In in Hw as [Hw Hlong].
      split; [now apply Nat.ltb_lt | now apply most_common_In in Hw].
Qed.

End Keywords.

Lemma category_keywords_sound_witness :
  exists keywords,
    CategoryClassifier.get_category_keywords "Food"
      (Disk (Some [Expense 1 500 "Food" "2024-01-15" "Lunch at cafe" None;
                   Expense 2 120 "Transport" "2024-01-31" "taxi home" None;
                   Expense 3 80 "Food" "2024-01-20" "cafe snack" None]) true)
    = Ok keywords
    /\ keywords = ["cafe"; "lunch"; "snack"]
    /\ len keywords <= 10
    /\ NoDup keywords
    /\ Forall (fun w =>
                 Nat.lt 3 (String.length w)
                 /\ In w (split (lower (String.concat " "
                           (map r_note
                              (with_category "Food"
                                 [Row 1 500 "Food" (Date 2024 1 15) 0 "Lunch at cafe" None;
                                  Row 2 120 "Transport" (Date 2024 1 31) 0 "taxi home" None;
                                  Row 3 80 "Food" (Date 2024 1 20) 0 "cafe snack" None]))))))
              keywords.
Proof.
  eexists. split; [vm_compute; reflexivity|]. split; [reflexivity|].
  apply (category_keywords_sound "Food"
           (Disk (Some [Expense 1 500 "Food" "2024-01-15" "Lunch at cafe" None;
                        Expense 2 120 "Transport" "2024-01-31" "taxi home" None;
                        Expense 3 80 "Food" "2024-01-20" "cafe snack" None]) true));
    vm_compute; reflexivity.
Defined.

Section Comparison.
Context `{Pandas} `{Sklearn} `{SklearnCluster}.

(** X20: a comparison is produced only for a non-empty store whose amounts do
    not add up to zero; the amounts being small enough for the sums to be
    exact, its shares are those of the categories present, each the total of
    the category over the overall total, times 100, in doubles; the dominant
    category has the largest share and heads the top three, and the
    diversity counts some of the categories. *)
Theorem compare_to_clusters_shares
        (d : disk) (df : DataFrame) (total : Q) (dist : list (string * Q))
        (dominant : string) (top3 : list string) (diversity : Z) :
  DataManager.load_dataframe d "" = Ok df ->
  exact_sums df ->
  SpendingClustering.compare_to_clusters d
  = Ok (Comparison total dist dominant top3 diversity) ->
  total = inject_Z (sumZ (amounts df))
  /\ sumZ (amounts df) <> 0
  /\ map fst dist = group_keys df
  /\ Forall (fun kv =>
               snd kv
               = fmul (fdiv (inject_Z (sumZ (amounts (with_category (fst kv) df)))) total)
                      100) dist
  /\ (exists share, In (dominant, share) dist
                    /\ Forall (fun kv => (snd kv <= share)%Q) dist)
  /\ hd_error top3 = Some dominant
  /\ len top3 <= 3
  /\ 0 <= diversity <= len dist.
Proof.
  intros Hload Hsmall. unfold SpendingClustering.compare_to_clusters.
  rewrite Hload. cbn [bind].
  destruct df as [|r0 df0]; [discriminate|].
  assert (Hkey : In (r_category r0) (group_keys (r0 :: df0)))
    by (apply group_keys_complete; now left).
  remember (r0 :: df0) as rows eqn:Hrows. clear Hrows df0 Hload.
  assert (Htotal64 : sum64 (map snd (groupby_sum rows)) = sumZ (amounts rows)).
  { rewrite (groupby_sum_exact rows Hsmall), map_map. cbn [snd]. unfold sum64.
    rewrite sum_of_group_sums;
      [| apply sorted_keys_NoDup, group_keys_sorted | apply group_keys_complete].
    exact (proj1 (sum64_exact rows Hsmall)). }
  rewrite Htotal64.
  assert (Hfloat : float_of_int (sumZ (amounts rows)) = inject_Z (sumZ (amounts rows))).
  { destruct (sum64_exact rows Hsmall) as [H64 Hfl]. now rewrite <- H64 at 1. }
  rewrite Hfloat.
  destruct (Z.eqb_spec (sumZ (amounts rows)) 0) as [Hz | Hnz]; [discriminate|].
  intros Heq. apply Ok_injective in Heq.
  injection Heq as Htotal Hdist Hdom Htop Hdiv.
  set (percentages := map (fun kv : string * Z =>
                             (fst kv, fmul (fdiv (float_of_int (snd kv))
                                                 (inject_Z (sumZ (amounts rows)))) 100))
                          (groupby_sum rows)) in *.
  pose proof (sort_desc_perm snd percentages) as Hperm.
  pose proof (sort_desc_sorted snd percentages) as Hsorted.
  subst dist. split; [now symmetry|]. split; [exact Hnz|]. split.
  { unfold percentages, groupby_sum. rewrite !map_map. cbn [fst]. apply map_id. }
  split.
  { subst total. apply Forall_forall. intros kv Hkv. unfold percentages in Hkv.
    apply in_map_iff in Hkv as [[k v] [<- Hk]]. cbn [fst snd].
    rewrite (groupby_sum_exact rows Hsmall) in Hk.
    apply in_map_iff in Hk as [k' [Heq _]]. injection Heq as <- <-.
    do 2 f_equal. unfold with_category.
    destruct (sum64_filter_exact (fun r => (r_category r =? k')%string) rows Hsmall)
      as [_ Hlt].
    apply float_of_int_small. lia. }
  destruct (sort_desc snd percentages) as [|first rest] eqn:Hs.
  - apply Permutation_nil in Hperm. exfalso.
    assert (Hlen : List.length percentages = List.length (group_keys rows))
      by (unfold percentages, groupby_sum; now rewrite !length_map).
    rewrite Hperm in Hlen. destruct (group_keys rows); [contradiction | discriminate].
  - subst dominant top3 diversity. split; [|split; [|split]].
    + exists (snd first). split.
      * apply (Permutation_in _ Hperm). left. now destruct first.
      * apply Forall_forall. intros kv Hkv.
        apply (Permutation_in _ (Permutation_sym Hperm)) in Hkv.
        inversion Hsorted as [|? ? _ Hall]; subst.
        destruct Hkv as [<- | Hkv]; [apply Qle_refl|].
        rewrite Forall_forall in Hall. now apply Hall.
    + reflexivity.
    + unfold len. destruct rest as [|second [|third rest']]; simpl; lia.
    + unfold len. rewrite <- (Permutation_length Hperm).
      pose proof (filter_length_le (fun cp : string * Q => Qltb 5 (snd cp)) (first :: rest)).
      lia.
Qed.

End Comparison.

Lemma compare_to_clusters_shares_witness :
  exists dist,
    SpendingClustering.compare_to_clusters
      (Disk (Some [Expense 1 600 "Food" "2024-01-15" "lunch" None;
                   Expense 2 300 "Transport" "2024-01-31" "taxi" None;
                   Expense 3 100 "Food" "2024-02-01" "snack" None]) true)
    = Ok (Comparison (1000 # 1) dist "Food" ["Food"; "Transport"] 2)
    /\ map fst dist = ["Food"; "Transport"]
    /\ (exists share, In ("Food", share) dist
                      /\ Forall (fun kv => (snd kv <= share)%Q) dist).
Proof.
  assert (Hrun : { dist | SpendingClustering.compare_to_clusters
                            (Disk (Some [Expense 1 600 "Food" "2024-01-15" "lunch" None;
                                         Expense 2 300 "Transport" "2024-01-31" "taxi" None;
                                         Expense 3 100 "Food" "2024-02-01" "snack" None])
                                  true)
                          = Ok (Comparison (1000 # 1) dist "Food" ["Food"; "Transport"] 2) })
    by (eexists; vm_compute; reflexivity).
  destruct Hrun as [dist Hrun]. exists dist. split; [exact Hrun|].
  destruct (compare_to_clusters_shares
              (Disk (Some [Expense 1 600 "Food" "2024-01-15" "lunch" None;
                           Expense 2 300 "Transport" "2024-01-31" "taxi" None;
                           Expense 3 100 "Food" "2024-02-01" "snack" None]) true)
              [Row 1 600 "Food" (Date 2024 1 15) 0 "lunch" None;
               Row 2 300 "Transport" (Date 2024 1 31) 0 "taxi" None;
               Row 3 100 "Food" (Date 2024 2 1) 0 "snack" None]
              (1000 # 1) dist "Food" ["Food"; "Transport"] 2)
    as [_ [_ [Hkeys [_ [Hdominant _]]]]].
  - vm_compute. reflexivity.
  - vm_compute. reflexivity.
  - exact Hrun.
  - split; [exact Hkeys | exact Hdominant].
Defined.

Section Clustering.
Context `{Pandas} `{Sklearn} `{SklearnCluster}.

(** scikit-learn's k-means refuses to form more clusters than it has
    samples. *)
Hypothesis kmeans_needs_samples :
  forall (n_clusters : Z) (X : list Q),
    1 < n_clusters -> exists e, KMeans_fit_predict n_clusters X = Raise e.

(** X21: the feature matrix handed to k-means has a single row, so with the
    configured three clusters the fit always fails: whenever the table
    loads, the result is an error report and never a cluster assignment. *)
Theorem cluster_spending_patterns_never_clusters (d : disk) (df : DataFrame) :
  DataManager.load_dataframe d "" = Ok df ->
  exists error, SpendingClustering.cluster_spending_patterns d = Ok (ClusterError error).
Proof.
  intros Hload. unfold SpendingClustering.cluster_spending_patterns.
  destruct SKLEARN_AVAILABLE; cbn [negb]; [|eexists; reflexivity].
  rewrite Hload. cbn [bind].
  destruct (len df <? Config.MIN_DATA_POINTS_FOR_ML); [eexists; reflexivity|].
  destruct (sum64 (SpendingClustering.category_spending df) =? 0);
    [eexists; reflexivity|].
  destruct (kmeans_needs_samples Config.KMEANS_CLUSTERS
              (SpendingClustering.spending_shares df)) as [e He];
    [unfold Config.KMEANS_CLUSTERS; lia|].
  rewrite He. cbn [bind catch_all]. eexists. reflexivity.
Qed.

End Clustering.

Lemma single_sample_kmeans_rejects (n_clusters : Z) (X : list Q) :
  1 < n_clusters ->
  exists e, KMeans_fit_predict (SklearnCluster := single_sample_kmeans) n_clusters X
            = Raise e.
Proof.
  intros Hn. cbn [KMeans_fit_predict single_sample_kmeans].
  destruct (Z.leb_spec n_clusters 1); [lia | eexists; reflexivity].
Qed.

Lemma cluster_spending_patterns_never_clusters_witness :
  exists error,
    SpendingClustering.cluster_spending_patterns (Disk (Some (quarter_store 20)) true)
    = Ok (ClusterError error).
Proof.
  apply (cluster_spending_patterns_never_clusters
           single_sample_kmeans_rejects
           (Disk (Some (quarter_store 20)) true)
           (match DataManager.load_dataframe (Disk (Some (quarter_store 20)) true) "" with
            | Ok df => df | Raise _ => [] end)).
  vm_compute. reflexivity.
Defined.

Section Recommendations.
Context `{Pandas}.

Lemma trend_recommendations_short (report : TrendReport) :
  (List.length (InsightGenerator.trend_recommendations report) <= 2)%nat.
Proof.
  destruct report as [status | trends months]; cbn [InsightGenerator.trend_recommendations];
    [simpl; lia|].
  destruct trends as [|[c1 t1] [|[c2 t2] rest]]; cbn [firstn flat_map];
    repeat match goal with
           | |- context [if ?b then _ else _] => destruct b
           end;
    simpl; lia.
Qed.

(** X22: the recommendations are never empty and never more than four: at most
    one line for overspent categories, one for categories near their limit
    and two for rising trends, or else a single default line. *)
Theorem generate_recommendations_bounds (d : disk) (now now' : datetime) :
  InsightGenerator.generate_recommendations d now now' <> []
  /\ len (InsightGenerator.generate_recommendations d now now') <= 4.
Proof.
  unfold InsightGenerator.generate_recommendations.
  destruct (Analytics.budget_alert d None now) as [budget_status|];
    [|split; [discriminate | unfold len; simpl; lia]].
  destruct (Analytics.detect_trends d 3 now') as [trends|].
  - pose proof (trend_recommendations_short trends) as Hshort.
    destruct (0 <? critical_count budget_status), (0 <? warning_count budget_status);
      cbn [app];
      destruct (InsightGenerator.trend_recommendations trends) as [|t1 ts];
      (split; [discriminate | unfold len; simpl in Hshort |- *; lia]).
  - destruct (0 <? critical_count budget_status), (0 <? warning_count budget_status);
      cbn [app]; (split; [discriminate | unfold len; simpl; lia]).
Qed.

(** X23: whenever the table loads, [suggest_next_actions] returns between one and
    three suggestions; for an empty store it is the invitation to start
    tracking. *)
Theorem suggest_next_actions_bounds (d : disk) (now : datetime) (df : DataFrame) :
  DataManager.load_dataframe d "" = Ok df ->
  exists actions,
    AICoach.suggest_next_actions d now = Ok actions
    /\ actions <> []
    /\ len actions <= 3
    /\ (df = [] ->
        actions = ["Start tracking your expenses by adding your first transaction."]).
Proof.
  intros Hload. unfold AICoach.suggest_next_actions. rewrite Hload. cbn [bind].
  destruct df as [|first others]; cbn [catch bind].
  - eexists. split; [reflexivity|]. split; [discriminate|].
    split; [unfold len; simpl; lia | reflexivity].
  - match goal with
    | |- context [app ?a1 (app ?a2 ?a3)] =>
        assert (H1 : (List.length a1 <= 1)%nat);
        [| assert (H2 : (List.length a2 <= 1)%nat);
           [| assert (H3 : (List.length a3 <= 1)%nat);
              [| destruct a1 as [|x1 [|? ?]], a2 as [|x2 [|? ?]], a3 as [|x3 [|? ?]];
                 simpl in H1, H2, H3; try lia; cbn [app];
                 (eexists; split; [reflexivity|]; split; [discriminate|];
                  split; [unfold len; simpl; lia | discriminate]) ]]]
    end.
    + destruct (filter _ Config.DEFAULT_CATEGORIES); [simpl; lia|].
      destruct (_ <? 5); simpl; lia.
    + clear H1. destruct (7 <? _); simpl; lia.
    + clear H1 H2. destruct (2 * _ <? _); simpl; lia.
Qed.

End Recommendations.

Lemma suggest_next_actions_bounds_witness :
  exists actions,
    AICoach.suggest_next_actions
      (Disk (Some [Expense 1 500 "Food" "2024-01-15" "" None]) true)
      (DateTime (Date 2024 3 5) 0) = Ok actions
    /\ actions <> []
    /\ len actions <= 3
    /\ ([Row 1 500 "Food" (Date 2024 1 15) 0 "" None] = [] ->
        actions = ["Start tracking your expenses by adding your first transaction."]).
Proof.
  apply (suggest_next_actions_bounds
           (Disk (Some [Expense 1 500 "Food" "2024-01-15" "" None]) true)
           (DateTime (Date 2024 3 5) 0)).
  vm_compute. reflexivity.
Defined.

Section BrokenDates.
Context `{Pandas}.

(** X24: one stored record whose date pandas cannot convert makes the whole
    table unloadable: every summary raises the exception of the conversion,
    the export reports a failure and the recommendations fall back to their
    apology. *)
Theorem unparseable_date_blocks_analytics (d : disk) (e : expense) :
  In e (DataManager.load_data d) ->
  Timestamp_of (e_date e) = Unparseable ->
  exists x',
    DataManager.load_dataframe d "" = Raise x'
    /\ (forall y m now, Analytics.monthly_summary d y m now = Raise x')
    /\ (forall day now, Analytics.daily_summary d day now = Raise x')
    /\ (forall lo hi, Analytics.category_summary d lo hi = Raise x')
    /\ (forall lo hi, Analytics.get_date_range_summary d lo hi = Raise x')
    /\ (forall budgets now, Analytics.budget_alert d budgets now = Raise x')
    /\ (forall months now, Analytics.detect_trends d months now = Raise x')
    /\ (forall c lo hi a b, DataManager.filter_expenses d c lo hi a b = Raise x')
    /\ (forall dir write out,
           DataManager.export_to_csv dir write d out
           = ((false, "Export failed: " ++ exn_str x'), None))
    /\ (forall now now',
           InsightGenerator.generate_recommendations d now now'
           = ["Unable to generate recommendations at this time"]).
Proof.
  intros Hin Hraise.
  destruct (to_datetime_column_unparseable
              (map e_date (DataManager.load_data d)) (e_date e)
              (in_map e_date _ _ Hin) Hraise) as [x' Hx'].
  assert (Hload : DataManager.load_dataframe d "" = Raise x').
  { rewrite load_dataframe_unfold. cbn [String.eqb]. unfold table_of_records.
    destruct (DataManager.load_data d) as [|e0 data]; [contradiction|].
    rewrite Hx'. reflexivity. }
  exists x'. split; [exact Hload|].
  repeat split; intros;
    try (unfold Analytics.monthly_summary, Analytics.daily_summary,
           Analytics.category_summary, Analytics.get_date_range_summary,
           Analytics.budget_alert, Analytics.detect_trends,
           DataManager.filter_expenses, DataManager.export_to_csv;
         rewrite ?Hload; reflexivity).
  unfold InsightGenerator.generate_recommendations, Analytics.budget_alert.
  rewrite Hload. reflexivity.
Qed.

Lemma sumZ_app (l1 l2 : list Z) : sumZ (l1 ++ l2) = sumZ l1 + sumZ l2.
Proof.
  unfold sumZ. induction l1 as [|a l1 IH]; cbn [app fold_right]; lia.
Qed.

(** A store of ISO dates loads as the rows of its records at the midnights
    of their days. *)
Lemma load_iso_store (data : list expense) (days : list date) :
  reads_iso_dates ->
  Forall (fun day_of => iso_day day_of = true) days ->
  map e_date data = map isoformat days ->
  table_of_records data
  = Ok (map (fun p => DataManager.make_row (fst p) (snd p, 0)) (combine data days)).
Proof.
  intros Hreads Hdays Hdates. unfold table_of_records.
  destruct data as [|e data].
  - destruct days; [reflexivity | discriminate].
  - rewrite Hdates, (Hreads days Hdays). cbn [bind]. f_equal.
    assert (Hlen : List.length (e :: data) = List.length days).
    { rewrite <- (length_map e_date), Hdates. apply length_map. }
    clear Hdates Hdays. revert Hlen. generalize (e :: data). clear e data.
    intros data. revert days.
    induction data as [|e data IH]; intros [|day_of days] Hlen;
      try discriminate Hlen; [reflexivity|].
    cbn [map combine fst snd]. f_equal. apply IH. now injection Hlen.
Qed.

Lemma combine_snoc {A B : Type} (l : list A) (l' : list B) (a : A) (b : B) :
  List.length l = List.length l' ->
  combine (l ++ [a]) (l' ++ [b]) = (combine l l' ++ [(a, b)])%list.
Proof.
  revert l'. induction l as [|x l IH]; intros [|y l'] Hlen; try discriminate Hlen;
    [reflexivity|].
  cbn [app combine]. f_equal. apply IH. now injection Hlen.
Qed.

(** X25: for a pandas that reads ISO dates, a store whose dates are ISO dates
    and amounts small enough for the sums to be exact, a successful
    [add_expense] with an ISO date shows in the summary of its month: the
    total grows by the amount and the transaction count by one, and the
    table gains the row of the new record. *)
Theorem add_expense_raises_monthly_total
        (amount : Z) (category date_text note username msg : string) (i : Z)
        (d d' : disk) (days : list date) (day_of : date) (now : datetime) :
  reads_iso_dates ->
  DataManager.add_expense amount category date_text note username d
  = ((true, msg, Some i), d') ->
  map e_date (DataManager.load_data d) = map isoformat days ->
  Forall (fun day_of => iso_day day_of = true) days ->
  date_text = isoformat day_of ->
  iso_day day_of = true ->
  sumZ (map (fun e => Z.abs (e_amount e)) (DataManager.load_data d)) + Z.abs amount < 2 ^ 53 ->
  exists df ms ms',
    DataManager.load_dataframe d "" = Ok df
    /\ Analytics.monthly_summary d (Some (year day_of)) (Some (month day_of)) now = Ok ms
    /\ Analytics.monthly_summary d' (Some (year day_of)) (Some (month day_of)) now = Ok ms'
    /\ (ms_total ms' == ms_total ms + inject_Z amount)%Q
    /\ ms_transaction_count ms' = ms_transaction_count ms + 1
    /\ DataManager.load_dataframe d' ""
       = Ok (df ++ [Row i amount category day_of 0 note (Some username)])%list.
Proof.
  intros Hreads Hadd Hdates Hdays Hdate Hday Hsmall.
  apply add_expense_success in Hadd as [_ [Hdata _]].
  set (df := map (fun p => DataManager.make_row (fst p) (snd p, 0))
                 (combine (DataManager.load_data d) days)).
  set (new_row := Row i amount category day_of 0 note (Some username)).
  assert (Hlen : List.length (DataManager.load_data d) = List.length days).
  { rewrite <- (length_map e_date), Hdates. apply length_map. }
  assert (Hload : DataManager.load_dataframe d "" = Ok df).
  { rewrite load_dataframe_unfold. cbn [String.eqb].
    now apply load_iso_store. }
  assert (Hload' : DataManager.load_dataframe d' "" = Ok (df ++ [new_row])%list).
  { rewrite load_dataframe_unfold. cbn [String.eqb]. rewrite Hdata.
    rewrite (load_iso_store _ (days ++ [day_of]) Hreads).
    - rewrite (combine_snoc _ _ _ _ Hlen), map_app. reflexivity.
    - apply Forall_app. split; [exact Hdays | now constructor].
    - rewrite !map_app, Hdates. cbn [map e_date]. now rewrite Hdate. }
  assert (Hamounts : amounts df = map e_amount (DataManager.load_data d)).
  { unfold df, amounts. rewrite map_map. cbn [DataManager.make_row r_amount].
    clear - Hlen. revert Hlen. generalize (DataManager.load_data d). intros data. revert days.
    induction data as [|e data IH]; intros [|day0 days] Hlen; try discriminate Hlen;
      [reflexivity|].
    cbn [map combine fst]. f_equal. apply IH. now injection Hlen. }
  assert (Hsmall' : exact_sums (df ++ [new_row])%list).
  { unfold exact_sums, amounts. rewrite map_app, map_app, sumZ_app. fold (amounts df).
    rewrite Hamounts, map_map. cbn [map r_amount new_row sumZ fold_right]. lia. }
  assert (Hsmall0 : exact_sums df).
  { unfold exact_sums. rewrite Hamounts, map_map.
    pose proof (Z.abs_nonneg amount). lia. }
  assert (Hvalid : valid_date day_of = true).
  { unfold iso_day in Hday. now apply andb_true_iff in Hday as [Hv _]. }
  destruct (month_name_defined (month day_of) (valid_date_month _ Hvalid)) as [name Hname].
  set (in_month := fun r : row => andb (year (r_date r) =? year day_of)
                                       (month (r_date r) =? month day_of)).
  assert (Hnew : filter in_month (df ++ [new_row])%list
                 = (filter in_month df ++ [new_row])%list).
  { rewrite filter_app. cbn [filter]. unfold in_month at 2. cbn [r_date new_row].
    now rewrite !Z.eqb_refl. }
  assert (Htotal : float_of_int (sum64 (amounts (filter in_month (df ++ [new_row])%list)))
                   = inject_Z (sumZ (amounts (filter in_month df)) + amount)).
  { rewrite (float_sum64_filter_exact in_month _ Hsmall'), Hnew. f_equal.
    unfold amounts. rewrite map_app, sumZ_app. cbn [map r_amount new_row].
    unfold sumZ at 2. cbn [fold_right]. lia. }
  assert (Htotal0 : float_of_int (sum64 (amounts (filter in_month df)))
                    = inject_Z (sumZ (amounts (filter in_month df))))
    by (apply float_sum64_filter_exact; exact Hsmall0).
  assert (Hcount : len (filter in_month (df ++ [new_row])%list)
                   = len (filter in_month df) + 1).
  { rewrite Hnew. apply len_snoc. }
  clear Hnew.
  assert (Hne : exists r1 rest, (df ++ [new_row])%list = r1 :: rest).
  { destruct df as [|r0 df0]; cbn [app]; eauto. }
  destruct Hne as [r1 [rest Hne]].
  exists df.
  cbv beta zeta match delta [Analytics.monthly_summary].
  rewrite Hload, Hload'. rewrite Hne in Htotal, Hcount |- *. clear Hne.
  cbv beta zeta match delta [bind]. rewrite Hname.
  cbv beta zeta match delta [bind]. fold in_month.
  clearbody df. destruct df as [|r0 df0].
  - eexists. eexists. split; [reflexivity|]. split; [reflexivity|]. split; [reflexivity|].
    cbv beta match delta [ms_total ms_transaction_count].
    split; [|split; [|reflexivity]].
    + rewrite Htotal. cbn [filter amounts map]. rewrite inject_Z_plus. reflexivity.
    + rewrite Hcount. reflexivity.
  - eexists. eexists. split; [reflexivity|]. split; [reflexivity|]. split; [reflexivity|].
    cbv beta match delta [ms_total ms_transaction_count].
    split; [|split; [|reflexivity]].
    + rewrite Htotal, Htotal0. rewrite inject_Z_plus. reflexivity.
    + rewrite Hcount. reflexivity.
Qed.

End BrokenDates.

(** The reference pandas reads ISO dates. *)
Lemma iso_pandas_reads_iso_dates : reads_iso_dates (H := iso_pandas).
Proof.
  intros days Hdays. cbn [to_datetime_column iso_pandas]. unfold iso_column.
  assert (Hall : all_parsed parse_iso_date (map isoformat days) = Some days).
  { induction Hdays as [|day_of days Hday _ IH]; [reflexivity|].
    cbn [map all_parsed]. rewrite IH.
    unfold parse_iso_date. unfold iso_day in Hday.
    apply andb_true_iff in Hday as [Hvalid Hrange].
    rewrite (strptime_of_isoformat day_of Hvalid), Hvalid, String.eqb_refl, Hrange.
    reflexivity. }
  now rewrite Hall.
Qed.

Lemma unparseable_date_blocks_analytics_witness :
  exists x',
    DataManager.load_dataframe
      (Disk (Some [Expense 1 500 "Food" "2024-01-15" "lunch" (Some "alice");
                   Expense 2 (-5) "Bogus" "yesterday" "" None]) true) ""
    = Raise x'
    /\ InsightGenerator.generate_recommendations
         (Disk (Some [Expense 1 500 "Food" "2024-01-15" "lunch" (Some "alice");
                      Expense 2 (-5) "Bogus" "yesterday" "" None]) true)
         (DateTime (Date 2024 3 5) 0) (DateTime (Date 2024 3 5) 0)
       = ["Unable to generate recommendations at this time"].
Proof.
  destruct (unparseable_date_blocks_analytics
              (Disk (Some [Expense 1 500 "Food" "2024-01-15" "lunch" (Some "alice");
                           Expense 2 (-5) "Bogus" "yesterday" "" None]) true)
              (Expense 2 (-5) "Bogus" "yesterday" "" None))
    as [x' [Hload [_ [_ [_ [_ [_ [_ [_ [_ Hrec]]]]]]]]]].
  - right. left. reflexivity.
  - vm_compute. reflexivity.
  - exists x'. split; [exact Hload | apply Hrec].
Defined.

Lemma add_expense_raises_monthly_total_witness :
  exists ms ms',
    Analytics.monthly_summary
      (Disk (Some [Expense 1 500 "Food" "2024-01-15" "lunch" (Some "alice");
                   Expense 2 90 "Travel" "2024-02-11" "bus" (Some "alice")]) true)
      (Some 2024) (Some 1) (DateTime (Date 2024 3 5) 0) = Ok ms
    /\ Analytics.monthly_summary
         (Disk (Some [Expense 1 500 "Food" "2024-01-15" "lunch" (Some "alice");
                      Expense 2 90 "Travel" "2024-02-11" "bus" (Some "alice");
                      Expense 3 120 "Transport" "2024-01-31" "taxi" (Some "alice")]) true)
         (Some 2024) (Some 1) (DateTime (Date 2024 3 5) 0) = Ok ms'
    /\ ms_total ms = 500 # 1 /\ ms_total ms' = 620 # 1
    /\ ms_transaction_count ms = 1 /\ ms_transaction_count ms' = 2
    /\ DataManager.load_dataframe
         (Disk (Some [Expense 1 500 "Food" "2024-01-15" "lunch" (Some "alice");
                      Expense 2 90 "Travel" "2024-02-11" "bus" (Some "alice");
                      Expense 3 120 "Transport" "2024-01-31" "taxi" (Some "alice")]) true) ""
       = Ok [Row 1 500 "Food" (Date 2024 1 15) 0 "lunch" (Some "alice");
             Row 2 90 "Travel" (Date 2024 2 11) 0 "bus" (Some "alice");
             Row 3 120 "Transport" (Date 2024 1 31) 0 "taxi" (Some "alice")].
Proof.
  destruct (add_expense_raises_monthly_total
              120 "Transport" "2024-01-31" "taxi" "alice"
              "Expense added successfully (ID: 3)" 3
              (Disk (Some [Expense 1 500 "Food" "2024-01-15" "lunch" (Some "alice");
                           Expense 2 90 "Travel" "2024-02-11" "bus" (Some "alice")]) true)
              (Disk (Some [Expense 1 500 "Food" "2024-01-15" "lunch" (Some "alice");
                           Expense 2 90 "Travel" "2024-02-11" "bus" (Some "alice");
                           Expense 3 120 "Transport" "2024-01-31" "taxi" (Some "alice")])
                    true)
              [Date 2024 1 15; Date 2024 2 11] (Date 2024 1 31) (DateTime (Date 2024 3 5) 0)
              iso_pandas_reads_iso_dates)
    as [df [ms [ms' [Hload [Hms [Hms' [Htotal [Hcount Hload']]]]]]]].
  - vm_compute. reflexivity.
  - vm_compute. reflexivity.
  - repeat constructor.
  - vm_compute. reflexivity.
  - vm_compute. reflexivity.
  - vm_compute. reflexivity.
  - exists ms, ms'. split; [exact Hms|]. split; [exact Hms'|].
    assert (Hrun : Analytics.monthly_summary
                     (Disk (Some [Expense 1 500 "Food" "2024-01-15" "lunch" (Some "alice");
                                  Expense 2 90 "Travel" "2024-02-11" "bus" (Some "alice")])
                           true)
                     (Some 2024) (Some 1) (DateTime (Date 2024 3 5) 0) = Ok ms)
      by exact Hms.
    assert (Hrun' : Analytics.monthly_summary
                      (Disk (Some [Expense 1 500 "Food" "2024-01-15" "lunch" (Some "alice");
                                   Expense 2 90 "Travel" "2024-02-11" "bus" (Some "alice");
                                   Expense 3 120 "Transport" "2024-01-31" "taxi"
                                           (Some "alice")]) true)
                      (Some 2024) (Some 1) (DateTime (Date 2024 3 5) 0) = Ok ms')
      by exact Hms'.
    vm_compute in Hrun, Hrun'. injection Hrun as <-. injection Hrun' as <-.
    repeat split.
Defined.

Section TrainAndPredict.
Context `{Pandas} `{Sklearn}.

(** X26: a successful training needs at least fifty noted records, reports their
    number, and leaves both artifacts in the model directory; a later
    prediction reads them back and answers with the classifier's label and
    confidence, recommended when the confidence is above one half. *)
Theorem train_then_predict
        (d : disk) (md md' : CategoryClassifier.ModelDir) (msg : string) :
  CategoryClassifier.train_classifier d md = ((true, msg), md') ->
  exists df clf vec,
    DataManager.load_dataframe d "" = Ok df
    /\ Config.MIN_NOTES_FOR_TRAINING
       <= len (filter (fun r => negb (r_note r =? "")%string) df)
    /\ msg = "Classifier trained on "
             ++ str_of_Z (len (filter (fun r => negb (r_note r =? "")%string) df))
             ++ " entries"
    /\ CategoryClassifier.classifier_model_pkl md' = Some clf
    /\ CategoryClassifier.classifier_vectorizer_pkl md' = Some vec
    /\ forall note category confidence,
        predict_with clf vec note = Ok (category, confidence) ->
        CategoryClassifier.predict_category md' note
        = Ok (Predicted category confidence note (Qltb (1 # 2) confidence)).
Proof.
  unfold CategoryClassifier.train_classifier.
  destruct SKLEARN_AVAILABLE eqn:Havail; cbn [negb]; [|discriminate].
  destruct (DataManager.load_dataframe d "") as [df|]; cbn [bind catch_all];
    [|discriminate].
  destruct (Z.ltb_spec (len (filter (fun r => negb (r_note r =? "")%string) df))
                       Config.MIN_NOTES_FOR_TRAINING) as [Hlt | Hge];
    cbn [catch_all]; [discriminate|].
  destruct (fit_vectorizer _) as [vec|]; cbn [bind catch_all]; [|discriminate].
  destruct (fit_classifier _ _ _) as [clf|]; cbn [bind catch_all]; [|discriminate].
  destruct (CategoryClassifier.model_dir_writable md); cbn [catch_all]; [|discriminate].
  intros Heq. injection Heq as <- <-.
  exists df, clf, vec. repeat split; try assumption.
  intros note category confidence Hpredict.
  unfold CategoryClassifier.predict_category. rewrite Havail.
  cbn [negb CategoryClassifier.classifier_model_pkl
       CategoryClassifier.classifier_vectorizer_pkl CategoryClassifier.open_rb bind].
  rewrite Hpredict. reflexivity.
Qed.

Lemma train_classifier_success
      (d : disk) (md : CategoryClassifier.ModelDir) (df : DataFrame)
      (vec : vectorizer) (clf : classifier) :
  SKLEARN_AVAILABLE = true ->
  DataManager.load_dataframe d "" = Ok df ->
  Config.MIN_NOTES_FOR_TRAINING
  <= len (filter (fun r => negb (r_note r =? "")%string) df) ->
  fit_vectorizer (map r_note (filter (fun r => negb (r_note r =? "")%string) df))
  = Ok vec ->
  fit_classifier vec
    (map r_note (filter (fun r => negb (r_note r =? "")%string) df))
    (map r_category (filter (fun r => negb (r_note r =? "")%string) df)) = Ok clf ->
  CategoryClassifier.model_dir_writable md = true ->
  CategoryClassifier.train_classifier d md
  = ((true, "Classifier trained on "
            ++ str_of_Z (len (filter (fun r => negb (r_note r =? "")%string) df))
            ++ " entries"),
     {| CategoryClassifier.classifier_model_pkl := Some clf;
        CategoryClassifier.classifier_vectorizer_pkl := Some vec;
        CategoryClassifier.model_dir_writable := true |}).
Proof.
  intros Havail Hload Hmany Hvec Hclf Hw. unfold CategoryClassifier.train_classifier.
  rewrite Havail, Hload. cbn [negb bind].
  destruct (Z.ltb_spec (len (filter (fun r => negb (r_note r =? "")%string) df))
                       Config.MIN_NOTES_FOR_TRAINING) as [Hlt | _]; [lia|].
  rewrite Hvec. cbn [bind]. rewrite Hclf. cbn [bind]. rewrite Hw. reflexivity.
Qed.

End TrainAndPredict.

Lemma train_then_predict_witness :
  exists msg md' df clf vec,
    CategoryClassifier.train_classifier (Disk (Some (noted_store 50)) true) empty_model_dir
    = ((true, msg), md')
    /\ DataManager.load_dataframe (Disk (Some (noted_store 50)) true) "" = Ok df
    /\ Config.MIN_NOTES_FOR_TRAINING
       <= len (filter (fun r => negb (r_note r =? "")%string) df)
    /\ msg = "Classifier trained on "
             ++ str_of_Z (len (filter (fun r => negb (r_note r =? "")%string) df))
             ++ " entries"
    /\ CategoryClassifier.classifier_model_pkl md' = Some clf
    /\ CategoryClassifier.classifier_vectorizer_pkl md' = Some vec
    /\ forall note category confidence,
        predict_with clf vec note = Ok (category, confidence) ->
        CategoryClassifier.predict_category md' note
        = Ok (Predicted category confidence note (Qltb (1 # 2) confidence)).
Proof.
  assert (Hload : DataManager.load_dataframe (Disk (Some (noted_store 50)) true) ""
                  = Ok (map (fun k => Row (Z.of_nat k + 1) 250 "Food" (Date 2024 1 10) 0
                                          "lunch at cafe" None) (seq 0 50))).
  { vm_compute. reflexivity. }
  pose proof (train_classifier_success
                (Disk (Some (noted_store 50)) true) empty_model_dir _
                (repeat "lunch at cafe" 50) "Food"
                eq_refl Hload ltac:(vm_compute; discriminate) eq_refl eq_refl eq_refl)
    as Hrun.
  destruct (train_then_predict _ _ _ _ Hrun) as [df [clf [vec H]]].
  eexists. eexists. exists df, clf, vec. split; [exact Hrun | exact H].
Defined.
